(** * Astra Personal backend: the Luna metering protocol, the daily batch job,
      payment reconciliation and the Telegram link token.

    Shallow embedding of the request handlers of
    [routers/luna.py], [routers/scheduler.py], [routers/webhooks.py] and
    [telegram.py].  A handler is a function from the world before the request
    to its HTTP outcome and the world after it.

    Modelling conventions.
    - The row store is a record of tables.  Tables read through a unique
      key ([profiles], [subscriptions] by [user_id], [luna_sessions],
      [scheduler_jobs], the order tables) are finite maps on that key; tables
      that are appended to and filtered ([luna_messages], [daily_horoscopes],
      [telegram_connections]) are lists in insertion order.
    - [.single().execute().data] is read the way every handler reads it: it is
      the row when one matches and a false value ([None]) when none does.
    - Store and chat-transport calls do not raise; the handlers' [except] arms
      that only guard those calls are therefore not reachable and are left out.
      The text-completion, speech and payment-signature calls may raise and are
      inputs of the handlers.
    - Timestamps are the microsecond counts that the stored ISO strings
      denote ([timedelta] has exactly this resolution), so
      [total_seconds()] is [us / 10^6] taken exactly. *)

From Stdlib Require Import ZArith Lia Ascii String.
From Stdlib Require PrimFloat FloatOps SpecFloat.
From stdpp Require Import gmap strings list fin_maps pretty sorting.

Open Scope Z_scope.

(** ** Outcome of a handler *)

Inductive outcome (A : Type) : Type :=
| Ok (body : A)                                   (* 200 with a JSON body *)
| HTTPException (status_code : Z) (detail : string)
| Unhandled (exn : string).                       (* uncaught exception: 500 *)
Arguments Ok {A} body.
Arguments HTTPException {A} status_code detail.
Arguments Unhandled {A} exn.

(** ** Rows *)

Record profile := {
  p_first_name : option string;
  p_last_name : option string;
  p_birth_date : option string;
  p_birth_time : option string;
  p_birth_city : option string;
  p_birth_country : option string;
  p_sun_sign : option string;
  p_moon_sign : option string;
  p_ascendant : option string;
  p_life_situation : option string;
  p_is_active : bool;
  p_onboarding_completed : bool;
  p_telegram_link_token : option string
}.

Record partner_profile := {
  pp_name : option string;
  pp_relationship_type : option string;
  pp_birth_date : option string;
  pp_sun_sign : option string;
  pp_moon_sign : option string;
  pp_ascendant : option string
}.

Record subscription := {
  sub_luna_minutes_balance : Z;
  sub_luna_minutes_used : Z;
  sub_plan : string;
  sub_status : string;
  sub_cancelled_at : option string;
  sub_stripe_customer_id : option string;
  sub_stripe_subscription_id : option string
}.

Record luna_session := {
  ls_user_id : string;
  ls_partner_id : option string;
  ls_status : string;
  ls_voice_used : bool;
  ls_context_snapshot : option string;    (* context_snapshot["context"] *)
  ls_messages_count : option Z;
  ls_created_at : Z;
  ls_ended_at : option Z;
  ls_ended_reason : option string;
  ls_duration_minutes : option Z;
  ls_minutes_charged : option Z
}.

Record luna_message := {
  lm_session_id : string;
  lm_user_id : string;
  lm_role : string;
  lm_content : string;
  lm_audio_url : option string;
  lm_tokens_used : option Z
}.

(** A JSON value as far as the handlers look into it. *)
Inductive jval :=
| JNull
| JInt (z : Z)
| JStr (s : string)
| JOther (repr : string).

Record daily_horoscope := {
  dh_user_id : string;
  dh_horoscope_date : string;
  dh_text_content : option jval;
  dh_section_general : option jval;
  dh_section_love : option jval;
  dh_section_work : option jval;
  dh_section_health : option jval;
  dh_overall_score : jval;
  dh_planetary_data : jval;
  dh_status : string;
  dh_generated_at : Z
}.

Record scheduler_job := {
  sj_job_type : string;
  sj_job_date : string;
  sj_status : string;
  sj_completed_at : option Z;
  sj_users_processed : option Z;
  sj_users_success : option Z;
  sj_users_failed : option Z;
  sj_error_log : option (list (string * string))   (* {"user_id", "error"} *)
}.

Record telegram_connection := {
  tc_user_id : string;
  tc_chat_id : Z;
  tc_username : string;
  tc_first_name : string;
  tc_status : string;
  tc_connected_at : option Z
}.

Record luna_minute_pack := {
  mp_user_id : string;
  mp_pack_name : string;
  mp_minutes_purchased : Z;
  mp_order_status : string;
  mp_stripe_payment_intent : option string;
  mp_paid_at : option string;
  mp_is_consumed : option bool
}.

Record services_order := {
  so_order_status : string;
  so_paid_at : option string;
  so_status : string
}.

(** ** Messages the bot sends (the text templates of [telegram.py]) *)

Inductive bot_text :=
| MsgInvalidCode                       (* "Codice non valido o scaduto. ..." *)
| MsgLinked (user_name : string)       (* "Account collegato{, name}!" *)
| MsgAlreadyConnected                  (* MSG_ALREADY_CONNECTED *)
| MsgWelcomeNew                        (* MSG_WELCOME_NEW *)
| MsgStop                              (* MSG_STOP *)
| MsgNonIscritto                       (* MSG_NON_ISCRITTO *)
| MsgNotReady                          (* "Oroscopo non ancora pronto. ..." *)
| MsgHoroscope (text love work : option jval) (stars : Z)
| MsgSaldo (balance : Z) (plan : string)
| MsgAiuto                             (* MSG_AIUTO *)
| MsgCiao (first_name : string).       (* "Ciao {first_name}! ..." *)

(** ** Calls that leave the process *)

Inductive call :=
| CallMessagesCreate (system : string) (messages : list (string * string))
| CallTextToSpeech (text : string)
| CallGenerateHoroscope (user : string)
| CallRpc (fn : string) (p_user_id : string) (p_minutes : Z)
| CallSendTelegram (chat_id : Z) (text : bot_text).

(** ** The world: the row store and the trace of outgoing calls *)

Record world := {
  profiles : gmap string profile;
  partner_profiles : gmap string partner_profile;
  subscriptions : gmap string subscription;
  luna_sessions : gmap string luna_session;
  luna_messages : list luna_message;
  daily_horoscopes : list daily_horoscope;
  scheduler_jobs : gmap string scheduler_job;
  telegram_connections : list telegram_connection;
  luna_minute_packs : gmap string luna_minute_pack;
  services_orders : gmap string services_order;
  calls : list call
}.

Definition set_profiles (f : gmap string profile → gmap string profile) (w : world) : world :=
  {| profiles := f (profiles w); partner_profiles := partner_profiles w;
     subscriptions := subscriptions w; luna_sessions := luna_sessions w;
     luna_messages := luna_messages w; daily_horoscopes := daily_horoscopes w;
     scheduler_jobs := scheduler_jobs w;
     telegram_connections := telegram_connections w;
     luna_minute_packs := luna_minute_packs w;
     services_orders := services_orders w; calls := calls w |}.

Definition set_subscriptions (f : gmap string subscription → gmap string subscription) (w : world) : world :=
  {| profiles := profiles w; partner_profiles := partner_profiles w;
     subscriptions := f (subscriptions w); luna_sessions := luna_sessions w;
     luna_messages := luna_messages w; daily_horoscopes := daily_horoscopes w;
     scheduler_jobs := scheduler_jobs w;
     telegram_connections := telegram_connections w;
     luna_minute_packs := luna_minute_packs w;
     services_orders := services_orders w; calls := calls w |}.

Definition set_luna_sessions (f : gmap string luna_session → gmap string luna_session) (w : world) : world :=
  {| profiles := profiles w; partner_profiles := partner_profiles w;
     subscriptions := subscriptions w; luna_sessions := f (luna_sessions w);
     luna_messages := luna_messages w; daily_horoscopes := daily_horoscopes w;
     scheduler_jobs := scheduler_jobs w;
     telegram_connections := telegram_connections w;
     luna_minute_packs := luna_minute_packs w;
     services_orders := services_orders w; calls := calls w |}.

Definition set_luna_messages (f : list luna_message → list luna_message) (w : world) : world :=
  {| profiles := profiles w; partner_profiles := partner_profiles w;
     subscriptions := subscriptions w; luna_sessions := luna_sessions w;
     luna_messages := f (luna_messages w); daily_horoscopes := daily_horoscopes w;
     scheduler_jobs := scheduler_jobs w;
     telegram_connections := telegram_connections w;
     luna_minute_packs := luna_minute_packs w;
     services_orders := services_orders w; calls := calls w |}.

Definition set_daily_horoscopes (f : list daily_horoscope → list daily_horoscope) (w : world) : world :=
  {| profiles := profiles w; partner_profiles := partner_profiles w;
     subscriptions := subscriptions w; luna_sessions := luna_sessions w;
     luna_messages := luna_messages w; daily_horoscopes := f (daily_horoscopes w);
     scheduler_jobs := scheduler_jobs w;
     telegram_connections := telegram_connections w;
     luna_minute_packs := luna_minute_packs w;
     services_orders := services_orders w; calls := calls w |}.

Definition set_scheduler_jobs (f : gmap string scheduler_job → gmap string scheduler_job) (w : world) : world :=
  {| profiles := profiles w; partner_profiles := partner_profiles w;
     subscriptions := subscriptions w; luna_sessions := luna_sessions w;
     luna_messages := luna_messages w; daily_horoscopes := daily_horoscopes w;
     scheduler_jobs := f (scheduler_jobs w);
     telegram_connections := telegram_connections w;
     luna_minute_packs := luna_minute_packs w;
     services_orders := services_orders w; calls := calls w |}.

Definition set_telegram_connections (f : list telegram_connection → list telegram_connection) (w : world) : world :=
  {| profiles := profiles w; partner_profiles := partner_profiles w;
     subscriptions := subscriptions w; luna_sessions := luna_sessions w;
     luna_messages := luna_messages w; daily_horoscopes := daily_horoscopes w;
     scheduler_jobs := scheduler_jobs w;
     telegram_connections := f (telegram_connections w);
     luna_minute_packs := luna_minute_packs w;
     services_orders := services_orders w; calls := calls w |}.

Definition set_luna_minute_packs (f : gmap string luna_minute_pack → gmap string luna_minute_pack) (w : world) : world :=
  {| profiles := profiles w; partner_profiles := partner_profiles w;
     subscriptions := subscriptions w; luna_sessions := luna_sessions w;
     luna_messages := luna_messages w; daily_horoscopes := daily_horoscopes w;
     scheduler_jobs := scheduler_jobs w;
     telegram_connections := telegram_connections w;
     luna_minute_packs := f (luna_minute_packs w);
     services_orders := services_orders w; calls := calls w |}.

Definition set_services_orders (f : gmap string services_order → gmap string services_order) (w : world) : world :=
  {| profiles := profiles w; partner_profiles := partner_profiles w;
     subscriptions := subscriptions w; luna_sessions := luna_sessions w;
     luna_messages := luna_messages w; daily_horoscopes := daily_horoscopes w;
     scheduler_jobs := scheduler_jobs w;
     telegram_connections := telegram_connections w;
     luna_minute_packs := luna_minute_packs w;
     services_orders := f (services_orders w); calls := calls w |}.

(** Record an outgoing call. *)
Definition emit (c : call) (w : world) : world :=
  {| profiles := profiles w; partner_profiles := partner_profiles w;
     subscriptions := subscriptions w; luna_sessions := luna_sessions w;
     luna_messages := luna_messages w; daily_horoscopes := daily_horoscopes w;
     scheduler_jobs := scheduler_jobs w;
     telegram_connections := telegram_connections w;
     luna_minute_packs := luna_minute_packs w;
     services_orders := services_orders w; calls := calls w ++ [c] |}.

(** ** Stored procedures *)

Definition debit (m : Z) (s : subscription) : subscription :=
  {| sub_luna_minutes_balance := sub_luna_minutes_balance s - m;
     sub_luna_minutes_used := sub_luna_minutes_used s;
     sub_plan := sub_plan s; sub_status := sub_status s;
     sub_cancelled_at := sub_cancelled_at s;
     sub_stripe_customer_id := sub_stripe_customer_id s;
     sub_stripe_subscription_id := sub_stripe_subscription_id s |}.

(** Modelled from the spec: the stored procedure [deduct_luna_minutes] is
    defined in the database, not under src/.  The spec calls it the
    "delegated atomic decrement" of the caller's minute balance by the computed
    minutes, one that "may in principle drive balance negative"; it touches the
    subscription row of [p_user_id] only. *)
Definition deduct_luna_minutes (p_user_id : string) (p_minutes : Z) (w : world) : world :=
  set_subscriptions (alter (debit p_minutes) p_user_id)
    (emit (CallRpc "deduct_luna_minutes" p_user_id p_minutes) w).

(** Modelled from the spec: the stored procedure [add_luna_minutes] is defined
    in the database, not under src/.  The spec calls it the "atomic add-minutes
    operation" that credits the purchased minutes to the balance. *)
Definition add_luna_minutes (p_user_id : string) (p_minutes : Z) (w : world) : world :=
  set_subscriptions (alter (debit (- p_minutes)) p_user_id)
    (emit (CallRpc "add_luna_minutes" p_user_id p_minutes) w).

(** * routers/luna.py *)

Module Luna.

Definition LUNA_SYSTEM_PROMPT_head : string :=
"Sei Luna, una consulente astrologica AI empatica, perspicace e autentica.

CARATTERE:
- Parli in italiano, con calore e profondità
- Non sei generica: ogni risposta è personalizzata sui dati reali dell'utente
- Sei diretta quando serve, gentile sempre
- Non inventi — se non hai dati sufficienti, lo dici

DATI A TUA DISPOSIZIONE:
".

Definition LUNA_SYSTEM_PROMPT_tail : string :=
"

COME USI I DATI:
- Conosci il tema natale dell'utente → puoi parlare di pianeti, case, aspetti
- Conosci la situazione di vita → puoi contestualizzare ogni risposta
- Se c'è un partner → puoi analizzare la dinamica di coppia
- Sai i transiti del momento → puoi dire cosa sta succedendo ORA nel cielo

REGOLE:
- Non inventare mai posizioni planetarie che non ti sono state fornite
- Non fare diagnosi mediche o consulenze legali
- Se la domanda è fuori dall'astrologia, porta gentilmente il discorso sui temi astrologici
- Risposte concise ma ricche (max 200 parole per messaggio, salvo richiesta diversa)
- Timer: sei consapevole che la sessione ha un tempo limitato — aiuta l'utente a usarlo bene".

(** [LUNA_SYSTEM_PROMPT.format(user_context=context)] *)
Definition LUNA_SYSTEM_PROMPT_format (user_context : string) : string :=
  LUNA_SYSTEM_PROMPT_head +:+ user_context +:+ LUNA_SYSTEM_PROMPT_tail.

(** Request bodies *)
Record StartSession := { partner_id : option string; use_voice : bool }.
Record SendMessage := { sm_session_id : string; message : string }.
Record EndSession := { es_session_id : string }.

(** Response bodies *)
Record StartReply := {
  session_id : string; minutes_available : Z; started_at : Z }.
Record MessageReply := {
  reply : string; audio_url : option string; minutes_remaining : Z }.
Record EndReply := {
  ok : bool; duration_minutes : Z; minutes_charged : Z;
  end_minutes_remaining : Z }.

Definition insufficient : string :=
  "Minuti Luna esauriti. Acquista un pacchetto per continuare.".

(** Lines 261-264: the billed minutes for an elapsed time of [us]
    microseconds.  [int(x)] truncates toward zero ([Z.quot]); [%] with a
    positive divisor is the floored remainder ([Z.modulo]). *)
Definition duration_min (us : Z) : Z :=
  Z.max 1 (Z.quot us 60000000 + (if 0 <? us mod 60000000 then 1 else 0)).

Definition end_row (now m : Z) (s : luna_session) : luna_session :=
  {| ls_user_id := ls_user_id s; ls_partner_id := ls_partner_id s;
     ls_status := "ended"; ls_voice_used := ls_voice_used s;
     ls_context_snapshot := ls_context_snapshot s;
     ls_messages_count := ls_messages_count s;
     ls_created_at := ls_created_at s;
     ls_ended_at := Some now; ls_ended_reason := Some "user_ended";
     ls_duration_minutes := Some m; ls_minutes_charged := Some m |}.

Definition pause_row (s : luna_session) : luna_session :=
  {| ls_user_id := ls_user_id s; ls_partner_id := ls_partner_id s;
     ls_status := "paused"; ls_voice_used := ls_voice_used s;
     ls_context_snapshot := ls_context_snapshot s;
     ls_messages_count := ls_messages_count s;
     ls_created_at := ls_created_at s;
     ls_ended_at := ls_ended_at s; ls_ended_reason := Some "time_expired";
     ls_duration_minutes := ls_duration_minutes s;
     ls_minutes_charged := ls_minutes_charged s |}.

Definition count_row (n : Z) (s : luna_session) : luna_session :=
  {| ls_user_id := ls_user_id s; ls_partner_id := ls_partner_id s;
     ls_status := ls_status s; ls_voice_used := ls_voice_used s;
     ls_context_snapshot := ls_context_snapshot s;
     ls_messages_count := Some n;
     ls_created_at := ls_created_at s;
     ls_ended_at := ls_ended_at s; ls_ended_reason := ls_ended_reason s;
     ls_duration_minutes := ls_duration_minutes s;
     ls_minutes_charged := ls_minutes_charged s |}.

(** [.eq("id", id).eq("user_id", user_id).single()] *)
Definition session_of (w : world) (id user_id : string) : option luna_session :=
  match luna_sessions w !! id with
  | Some s => if bool_decide (ls_user_id s = user_id) then Some s else None
  | None => None
  end.

(** The same with [.eq("status", "active")]. *)
Definition active_session_of (w : world) (id user_id : string) : option luna_session :=
  match session_of w id user_id with
  | Some s => if bool_decide (ls_status s = "active") then Some s else None
  | None => None
  end.

(** [end_session], lines 248-286. *)
Definition end_session (w : world) (now : Z) (user_id : string) (body : EndSession)
  : outcome EndReply * world :=
  match session_of w (es_session_id body) user_id with
  | None => (HTTPException 404 "Sessione non trovata", w)
  | Some session =>
    let duration_sec_us := now - ls_created_at session in
    let m := duration_min duration_sec_us in
    let w1 := deduct_luna_minutes user_id m w in
    let w2 := set_luna_sessions (alter (end_row now m) (es_session_id body)) w1 in
    match subscriptions w2 !! user_id with
    | None => (Unhandled "AttributeError", w2)        (* sub.get on None *)
    | Some sub =>
      (Ok {| ok := true; duration_minutes := m; minutes_charged := m;
             end_minutes_remaining := sub_luna_minutes_balance sub |}, w2)
    end
  end.

Section Handlers.

(** The text-completion call: [None] when it raises, else the reply text with
    the input and output token counts. *)
Variable messages_create :
  string → list (string * string) → option (string * Z * Z).

(** The speech call of [generate_voice]: [None] when it raises, else the HTTP
    status of the answer. *)
Variable text_to_speech : string → option Z.

(** The f-string blocks of [build_user_context] and [created_at[:10]]. *)
Variable render_profile : profile → string.
Variable render_partner : partner_profile → string.
Variable iso_date : Z → string.

Definition generate_voice (text : string) : option string :=
  match text_to_speech text with
  | Some 200 => Some "audio_generated"
  | _ => None
  end.

(** [.order("created_at", desc=True)] *)
Definition newer (a b : luna_session) : Prop :=
  ls_created_at b ≤ ls_created_at a.

#[local] Instance newer_dec a b : Decision (newer a b).
Proof. unfold newer. apply _. Defined.

(** The three most recent ended sessions of the user. *)
Definition prev_sessions (w : world) (user_id : string) : list luna_session :=
  take 3
    (merge_sort newer
       (filter (λ s, ls_user_id s = user_id ∧ ls_status s = "ended")
          (snd <$> map_to_list (luna_sessions w)))).

(** [build_user_context], lines 55-97. *)
Definition build_user_context (w : world) (user_id : string)
    (partner : option string) : string :=
  match profiles w !! user_id with
  | None => "Dati utente non disponibili."
  | Some profile =>
    let ctx := render_profile profile in
    let ctx :=
      match partner with
      | Some pid =>
        if bool_decide (pid = "") then ctx
        else match partner_profiles w !! pid with
             | Some pp => ctx +:+ render_partner pp
             | None => ctx
             end
      | None => ctx
      end in
    match prev_sessions w user_id with
    | [] => ctx
    | last :: _ =>
      ctx +:+ "
SESSIONI PRECEDENTI: " +:+ pretty (Z.of_nat (length (prev_sessions w user_id)))
          +:+ " sessioni totali. Ultima: " +:+ iso_date (ls_created_at last)
    end
  end.

(** [start_session], lines 128-162.  The store fills [id] with an unused key
    and [created_at] with the current time. *)
Definition start_session (w : world) (now : Z) (user_id : string) (body : StartSession)
  : outcome StartReply * world :=
  match subscriptions w !! user_id with
  | None => (HTTPException 403 "Nessun abbonamento trovato", w)
  | Some sub =>
    let balance := sub_luna_minutes_balance sub in
    if balance <? 1 then (HTTPException 402 insufficient, w)
    else
      let context := build_user_context w user_id (partner_id body) in
      let id := fresh (dom (luna_sessions w)) in
      let session :=
        {| ls_user_id := user_id; ls_partner_id := partner_id body;
           ls_status := "active"; ls_voice_used := use_voice body;
           ls_context_snapshot := Some context;
           ls_messages_count := None; ls_created_at := now;
           ls_ended_at := None; ls_ended_reason := None;
           ls_duration_minutes := None; ls_minutes_charged := None |} in
      (Ok {| session_id := id; minutes_available := balance;
             started_at := ls_created_at session |},
       set_luna_sessions (insert id session) w)
  end.

(** The rows of [luna_messages] of one session, as (role, content), in
    creation order. *)
Definition history (w : world) (sid : string) : list (string * string) :=
  (λ m, (lm_role m, lm_content m)) <$>
    filter (λ m, lm_session_id m = sid) (luna_messages w).

(** [send_message], lines 164-246. *)
Definition send_message (w : world) (user_id : string) (body : SendMessage)
  : outcome MessageReply * world :=
  let sid := sm_session_id body in
  match active_session_of w sid user_id with
  | None => (HTTPException 404 "Sessione non trovata o già terminata", w)
  | Some session =>
    let enough :=
      match subscriptions w !! user_id with
      | Some sub => negb (sub_luna_minutes_balance sub <? 1)
      | None => false
      end in
    if negb enough then
      (HTTPException 402 insufficient,
       set_luna_sessions (alter pause_row sid) w)
    else
      let messages := history w sid ++ [("user", message body)] in
      let context := default "" (ls_context_snapshot session) in
      let system := LUNA_SYSTEM_PROMPT_format context in
      let w1 := emit (CallMessagesCreate system messages) w in
      match messages_create system messages with
      | None => (Unhandled "anthropic", w1)
      | Some (reply_text, input_tokens, output_tokens) =>
        let tokens_used := input_tokens + output_tokens in
        let w2 :=
          set_luna_messages
            (λ l, l ++ [ {| lm_session_id := sid; lm_user_id := user_id;
                            lm_role := "user"; lm_content := message body;
                            lm_audio_url := None; lm_tokens_used := None |} ])
            w1 in
        let '(audio, w3) :=
          if ls_voice_used session
          then (generate_voice reply_text, emit (CallTextToSpeech reply_text) w2)
          else (None, w2) in
        let w4 :=
          set_luna_messages
            (λ l, l ++ [ {| lm_session_id := sid; lm_user_id := user_id;
                            lm_role := "assistant"; lm_content := reply_text;
                            lm_audio_url := audio;
                            lm_tokens_used := Some tokens_used |} ])
            w3 in
        let w5 :=
          set_luna_sessions
            (alter (count_row (default 0 (ls_messages_count session) + 1)) sid)
            w4 in
        match subscriptions w5 !! user_id with
        | None => (Unhandled "AttributeError", w5)
        | Some updated_sub =>
          (Ok {| reply := reply_text; audio_url := audio;
                 minutes_remaining := sub_luna_minutes_balance updated_sub |},
           w5)
        end
      end
  end.

End Handlers.

End Luna.

(** * config.py *)

Record Settings := {
  supabase_url : string;
  supabase_service_key : string;
  supabase_jwt_secret : string;
  anthropic_api_key : string;
  elevenlabs_api_key : string;
  elevenlabs_voice_id_luna : string;
  stripe_secret_key : string;
  stripe_webhook_secret : string;
  stripe_price_15min : string;
  stripe_price_30min : string;
  stripe_price_60min : string;
  stripe_price_monthly : string;
  telegram_bot_token : string;
  nocturna_api_url : string;
  nocturna_service_token : string;
  ipapi_key : string;
  app_env : string;
  app_secret_key : string;
  admin_emails : string;
  frontend_url : string
}.

(** * routers/scheduler.py *)

Module Scheduler.

(** What a Python call hands back: a raised exception with its [str(e)], or a
    value.  The value [json.loads] returns is a dict or something else. *)
Inductive py_value :=
| PyDict (d : gmap string jval)
| PyOther (type_name : string).

Inductive py_result :=
| Raises (msg : string)
| Returns (v : py_value).

(** The loop counters of [generate_daily_horoscopes], lines 62-65. *)
Record tally := {
  processed : Z;
  success : Z;
  failed : Z;
  errors : list (string * string)
}.

Definition tally0 : tally :=
  {| processed := 0; success := 0; failed := 0; errors := [] |}.

Record DailyReply := {
  dr_ok : bool; dr_date : string;
  dr_processed : Z; dr_success : Z; dr_failed : Z }.

(** [.eq("is_active", True).eq("onboarding_completed", True)
     .not_.is_("birth_date", "null")] *)
Definition eligible (w : world) : list (string * profile) :=
  filter (λ u, p_is_active u.2 = true ∧ p_onboarding_completed u.2 = true
               ∧ p_birth_date u.2 ≠ None)
    (map_to_list (profiles w)).

(** The horoscope rows of one user for one date, lines 73-77. *)
Definition existing (w : world) (user_id today : string) : list daily_horoscope :=
  filter (λ h, dh_user_id h = user_id ∧ dh_horoscope_date h = today)
    (daily_horoscopes w).

(** The row inserted at lines 88-100 from the parsed reply. *)
Definition new_row (user_id today : string) (now : Z) (planetary_data : jval)
    (horoscope_data : gmap string jval) : daily_horoscope :=
  {| dh_user_id := user_id; dh_horoscope_date := today;
     dh_text_content := horoscope_data !! "full_text";
     dh_section_general := horoscope_data !! "section_general";
     dh_section_love := horoscope_data !! "section_love";
     dh_section_work := horoscope_data !! "section_work";
     dh_section_health := horoscope_data !! "section_health";
     dh_overall_score := default (JInt 3) (horoscope_data !! "overall_score");
     dh_planetary_data := planetary_data;
     dh_status := "completed"; dh_generated_at := now |}.

Definition no_get (type_name : string) : string :=
  "'" +:+ type_name +:+ "' object has no attribute 'get'".

Definition complete (now : Z) (t : tally) (j : scheduler_job) : scheduler_job :=
  {| sj_job_type := sj_job_type j; sj_job_date := sj_job_date j;
     sj_status := "completed"; sj_completed_at := Some now;
     sj_users_processed := Some (processed t);
     sj_users_success := Some (success t);
     sj_users_failed := Some (failed t);
     sj_error_log := Some (take 50 (errors t)) |}.

Section Job.

Variable settings : Settings.

(** [get_transits_today(41.9, 12.5, settings)]: it catches its own errors and
    always returns a JSON value. *)
Variable planetary_data : jval.

(** [generate_horoscope_text(user, planetary_data, settings)]: the
    text-completion call followed by [json.loads]. *)
Variable generate_horoscope_text : string * profile → jval → py_result.

(** [verify_cron_secret], lines 26-29. *)
Definition verify_cron_secret (x_cron_secret : option string) : bool :=
  bool_decide (x_cron_secret = Some (app_secret_key settings)).

(** One turn of the loop at lines 70-110. *)
Definition step (today : string) (now : Z) (acc : world * tally)
    (user : string * profile) : world * tally :=
  let '(w, t) := acc in
  match existing w user.1 today with
  | _ :: _ =>
    (* continue: counted as processed and success *)
    (w, {| processed := processed t + 1; success := success t + 1;
           failed := failed t; errors := errors t |})
  | [] =>
    let w1 := emit (CallGenerateHoroscope user.1) w in
    match generate_horoscope_text user planetary_data with
    | Returns (PyDict horoscope_data) =>
      (set_daily_horoscopes
         (λ l, l ++ [new_row user.1 today now planetary_data horoscope_data])
         w1,
       {| processed := processed t + 1; success := success t + 1;
          failed := failed t; errors := errors t |})
    | Returns (PyOther type_name) =>
      (w1, {| processed := processed t + 1; success := success t;
              failed := failed t + 1;
              errors := errors t ++ [(user.1, no_get type_name)] |})
    | Raises msg =>
      (w1, {| processed := processed t + 1; success := success t;
              failed := failed t + 1;
              errors := errors t ++ [(user.1, msg)] |})
    end
  end.

(** [generate_daily_horoscopes], lines 33-128. *)
Definition generate_daily_horoscopes (w : world) (now : Z) (today : string)
    (x_cron_secret : option string) : outcome DailyReply * world :=
  if negb (verify_cron_secret x_cron_secret)
  then (HTTPException 401 "Non autorizzato", w)
  else
    let job_id := fresh (dom (scheduler_jobs w)) in
    let w1 :=
      set_scheduler_jobs
        (insert job_id
           {| sj_job_type := "daily_generation"; sj_job_date := today;
              sj_status := "running"; sj_completed_at := None;
              sj_users_processed := None; sj_users_success := None;
              sj_users_failed := None; sj_error_log := None |})
        w in
    let users := eligible w1 in
    let '(w2, t) := foldl (step today now) (w1, tally0) users in
    (Ok {| dr_ok := true; dr_date := today; dr_processed := processed t;
           dr_success := success t; dr_failed := failed t |},
     set_scheduler_jobs (alter (complete now t) job_id) w2).

End Job.

End Scheduler.

(** * routers/webhooks.py *)

Module Webhooks.

(** The fields of [event["data"]["object"]] that the handler reads. *)
Record stripe_object := {
  obj_id : string;
  obj_customer : string;
  obj_payment_intent : option string;
  obj_metadata : gmap string string
}.

Record stripe_event := { ev_type : string; ev_object : stripe_object }.

(** Python truth value of [meta.get(key)]. *)
Definition truthy (v : option string) : bool :=
  match v with
  | Some s => negb (bool_decide (s = ""))
  | None => false
  end.

Definition pay_pack (payment_intent : option string) (p : luna_minute_pack)
  : luna_minute_pack :=
  {| mp_user_id := mp_user_id p; mp_pack_name := mp_pack_name p;
     mp_minutes_purchased := mp_minutes_purchased p;
     mp_order_status := "paid";
     mp_stripe_payment_intent := payment_intent;
     mp_paid_at := Some "NOW()"; mp_is_consumed := Some false |}.

Definition pay_service (o : services_order) : services_order :=
  {| so_order_status := "paid"; so_paid_at := Some "NOW()";
     so_status := "pending" |}.

Definition cancel (s : subscription) : subscription :=
  {| sub_luna_minutes_balance := sub_luna_minutes_balance s;
     sub_luna_minutes_used := sub_luna_minutes_used s;
     sub_plan := sub_plan s; sub_status := "cancelled";
     sub_cancelled_at := Some "NOW()";
     sub_stripe_customer_id := sub_stripe_customer_id s;
     sub_stripe_subscription_id := sub_stripe_subscription_id s |}.

Definition pause (s : subscription) : subscription :=
  {| sub_luna_minutes_balance := sub_luna_minutes_balance s;
     sub_luna_minutes_used := sub_luna_minutes_used s;
     sub_plan := sub_plan s; sub_status := "paused";
     sub_cancelled_at := sub_cancelled_at s;
     sub_stripe_customer_id := sub_stripe_customer_id s;
     sub_stripe_subscription_id := sub_stripe_subscription_id s |}.

(** [.update(...).eq("id", order_id)]: no row when the id is missing. *)
Definition alter_at {A} (f : A → A) (id : option string) (m : gmap string A)
  : gmap string A :=
  match id with
  | Some k => alter f k m
  | None => m
  end.

Section Stripe.

Variable settings : Settings.

(** [stripe.Webhook.construct_event(payload, sig_header, secret)]: the
    verified event, or the message of the exception it raises. *)
Variable construct_event : string → option string → string → string + stripe_event.

(** Python's [int] on a string: [None] for a [ValueError]. *)
Variable py_int : string → option Z.

(** [stripe_webhook], lines 101-175.  The body [{"ok": True}] is [true]. *)
Definition stripe_webhook (w : world) (payload : string)
    (stripe_signature : option string) : outcome bool * world :=
  match construct_event payload stripe_signature
          (stripe_webhook_secret settings) with
  | inl e => (HTTPException 400 ("Webhook signature invalida: " +:+ e), w)
  | inr event =>
    let object := ev_object event in
    if bool_decide (ev_type event = "checkout.session.completed") then
      let meta := obj_metadata object in
      match meta !! "user_id" with
      | Some user_id =>
        if bool_decide (user_id = "") then (Ok true, w)
        else if truthy (meta !! "pack_id") then
          match match meta !! "minutes" with
                | Some s => py_int s
                | None => Some 0
                end with
          | None => (Unhandled "ValueError", w)
          | Some minutes =>
            let w1 :=
              set_luna_minute_packs
                (alter_at (pay_pack (obj_payment_intent object))
                   (meta !! "order_id")) w in
            (Ok true, add_luna_minutes user_id minutes w1)
          end
        else if truthy (meta !! "service_type") then
          (Ok true,
           set_services_orders (alter_at pay_service (meta !! "order_id")) w)
        else (Ok true, w)
      | None => (Ok true, w)
      end
    else if bool_decide (ev_type event = "customer.subscription.deleted") then
      (Ok true,
       set_subscriptions
         (fmap (λ s, if bool_decide (sub_stripe_subscription_id s
                                     = Some (obj_id object))
                     then cancel s else s)) w)
    else if bool_decide (ev_type event = "invoice.payment_failed") then
      (Ok true,
       set_subscriptions
         (fmap (λ s, if bool_decide (sub_stripe_customer_id s
                                     = Some (obj_customer object))
                     then pause s else s)) w)
    else (Ok true, w)
  end.

End Stripe.

End Webhooks.

(** * telegram.py *)

Module Telegram.

(** [str.isspace] on the ASCII range. *)
Definition py_isspace (a : ascii) : bool :=
  let n := nat_of_ascii a in
  ((9 <=? n) && (n <=? 13) || (28 <=? n) && (n <=? 32))%nat.

Fixpoint lstrip (s : string) : string :=
  match s with
  | String a s' => if py_isspace a then lstrip s' else s
  | EmptyString => EmptyString
  end.

Fixpoint rstrip (s : string) : string :=
  match s with
  | String a s' =>
    match rstrip s' with
    | EmptyString => if py_isspace a then EmptyString else String a EmptyString
    | r => String a r
    end
  | EmptyString => EmptyString
  end.

(** [s.strip()] *)
Definition strip (s : string) : string := lstrip (rstrip s).

(** [s.split(" ", 1)[1]] when the split has two parts. *)
Fixpoint after_space (s : string) : option string :=
  match s with
  | String a s' => if bool_decide (a = " "%char) then Some s' else after_space s'
  | EmptyString => None
  end.

(** [s.upper()] on the ASCII letters. *)
Fixpoint py_upper (s : string) : string :=
  match s with
  | String a s' =>
    let n := nat_of_ascii a in
    String (if ((97 <=? n) && (n <=? 122))%nat then ascii_of_nat (n - 32) else a)
      (py_upper s')
  | EmptyString => EmptyString
  end.

(** The part of an update the handler reads: [message["chat"]["id"]],
    [message.get("text")], [from.username], [from.first_name]. *)
Record tg_message := {
  chat_id : Z;
  text : option string;
  username : option string;
  first_name : option string
}.

(** The request body: not JSON, or an update with or without a message. *)
Inductive request :=
| BadJson
| Update (message : option tg_message).

Definition send_telegram_message (chat : Z) (t : bot_text) (w : world) : world :=
  emit (CallSendTelegram chat t) w.

(** Lines 73-74: the token after [/start], if any. *)
Definition start_token (text : string) : option string :=
  match after_space text with
  | Some rest => Some (strip rest)
  | None => None
  end.

Definition with_token (token : string) (w : world) : list (string * profile) :=
  filter (λ u, p_telegram_link_token u.2 = Some token)
    (map_to_list (profiles w)).

Definition of_chat (chat : Z) (w : world) : list telegram_connection :=
  filter (λ c, tc_chat_id c = chat) (telegram_connections w).

Definition relink (chat : Z) (user_id username first_name : string) (now : Z)
    (c : telegram_connection) : telegram_connection :=
  if bool_decide (tc_chat_id c = chat)
  then {| tc_user_id := user_id; tc_chat_id := tc_chat_id c;
          tc_username := username; tc_first_name := first_name;
          tc_status := "active"; tc_connected_at := Some now |}
  else c.

Definition set_status (chat : Z) (status : string) (c : telegram_connection)
  : telegram_connection :=
  if bool_decide (tc_chat_id c = chat)
  then {| tc_user_id := tc_user_id c; tc_chat_id := tc_chat_id c;
          tc_username := tc_username c; tc_first_name := tc_first_name c;
          tc_status := status; tc_connected_at := tc_connected_at c |}
  else c.

Definition clear_token (p : profile) : profile :=
  {| p_first_name := p_first_name p; p_last_name := p_last_name p;
     p_birth_date := p_birth_date p; p_birth_time := p_birth_time p;
     p_birth_city := p_birth_city p; p_birth_country := p_birth_country p;
     p_sun_sign := p_sun_sign p; p_moon_sign := p_moon_sign p;
     p_ascendant := p_ascendant p; p_life_situation := p_life_situation p;
     p_is_active := p_is_active p;
     p_onboarding_completed := p_onboarding_completed p;
     p_telegram_link_token := None |}.

(** Lines 76-105: [/start <token>]. *)
Definition start_with_token (w : world) (now : Z) (chat : Z)
    (username first_name token : string) : world :=
  match with_token token w with
  | [] => send_telegram_message chat MsgInvalidCode w
  | (user_id, p) :: _ =>
    let user_name := default "" (p_first_name p) in
    let w1 :=
      match of_chat chat w with
      | _ :: _ =>
        set_telegram_connections
          (fmap (relink chat user_id username first_name now)) w
      | [] =>
        set_telegram_connections
          (λ l, l ++ [ {| tc_user_id := user_id; tc_chat_id := chat;
                          tc_username := username;
                          tc_first_name := first_name;
                          tc_status := "active";
                          tc_connected_at := None |} ]) w
      end in
    let w2 := set_profiles (alter clear_token user_id) w1 in
    send_telegram_message chat (MsgLinked user_name) w2
  end.

(** Lines 128-154: [/oroscopo]. *)
Definition oroscopo (w : world) (today : string) (chat : Z) : world :=
  match of_chat chat w with
  | [] => send_telegram_message chat MsgNonIscritto w
  | conn :: _ =>
    if negb (bool_decide (tc_status conn = "active"))
    then send_telegram_message chat MsgNonIscritto w
    else
      match filter (λ h, dh_user_id h = tc_user_id conn
                         ∧ dh_horoscope_date h = today
                         ∧ dh_status h = "completed")
              (daily_horoscopes w) with
      | [] => send_telegram_message chat MsgNotReady w
      | [h] =>
        let stars :=
          match dh_overall_score h with
          | JNull => Some 3
          | JInt n => Some (if bool_decide (n = 0) then 3 else n)
          | JStr s => if bool_decide (s = "") then Some 3 else None
          | JOther _ => None
          end in
        match stars with
        | Some n =>
          send_telegram_message chat
            (MsgHoroscope (dh_text_content h) (dh_section_love h)
               (dh_section_work h) n) w
        | None => send_telegram_message chat MsgNonIscritto w   (* TypeError *)
        end
      | _ :: _ :: _ => send_telegram_message chat MsgNonIscritto w
      end
  end.

(** Lines 156-172: [/saldo]. *)
Definition saldo (w : world) (chat : Z) : world :=
  match of_chat chat w with
  | [] => send_telegram_message chat MsgNonIscritto w
  | conn :: _ =>
    let sub := subscriptions w !! tc_user_id conn in
    let balance := from_option sub_luna_minutes_balance 0 sub in
    let plan := from_option (λ s, py_upper (sub_plan s)) "FREE" sub in
    send_telegram_message chat (MsgSaldo balance plan) w
  end.

(** [telegram_webhook], lines 54-182. *)
Definition telegram_webhook (w : world) (now : Z) (today : string)
    (req : request) : outcome bool * world :=
  match req with
  | BadJson | Update None => (Ok true, w)
  | Update (Some message) =>
    let chat := chat_id message in
    let text := strip (default "" (text message)) in
    let username := default "" (username message) in
    let first_name := default "" (first_name message) in
    if String.prefix "/start" text then
      match start_token text with
      | Some (String a token') =>
        (Ok true,
         start_with_token w now chat username first_name (String a token'))
      | _ =>
        match of_chat chat w with
        | conn :: _ =>
          if bool_decide (tc_status conn = "active")
          then (Ok true, send_telegram_message chat MsgAlreadyConnected w)
          else (Ok true, send_telegram_message chat MsgWelcomeNew w)
        | [] => (Ok true, send_telegram_message chat MsgWelcomeNew w)
        end
      end
    else if bool_decide (text = "/stop") then
      (Ok true,
       send_telegram_message chat MsgStop
         (set_telegram_connections (fmap (set_status chat "paused")) w))
    else if bool_decide (text = "/oroscopo") then (Ok true, oroscopo w today chat)
    else if bool_decide (text = "/saldo") then (Ok true, saldo w chat)
    else if bool_decide (text = "/aiuto") || bool_decide (text = "/help") then
      (Ok true, send_telegram_message chat MsgAiuto w)
    else (Ok true, send_telegram_message chat (MsgCiao first_name) w)
  end.

End Telegram.

(** * routers/luna.py, the balance endpoint *)

Module LunaBalance.



End LunaBalance.

(** * telegram.py, the account endpoints *)

Module TelegramAccount.

(** The alphabet of [secrets.token_urlsafe]: letters, digits, [-] and [_]. *)
Definition urlsafe_char (a : ascii) : bool :=
  let n := nat_of_ascii a in
  ((48 <=? n) && (n <=? 57) || (65 <=? n) && (n <=? 90)
   || (97 <=? n) && (n <=? 122) || (n =? 45) || (n =? 95))%nat.

Fixpoint urlsafe (s : string) : bool :=
  match s with
  | String a s' => urlsafe_char a && urlsafe s'
  | EmptyString => true
  end.

Record LinkReply := { token : string; link : string; instructions : string }.

Definition set_token (t : string) (p : profile) : profile :=
  {| p_first_name := p_first_name p; p_last_name := p_last_name p;
     p_birth_date := p_birth_date p; p_birth_time := p_birth_time p;
     p_birth_city := p_birth_city p; p_birth_country := p_birth_country p;
     p_sun_sign := p_sun_sign p; p_moon_sign := p_moon_sign p;
     p_ascendant := p_ascendant p; p_life_situation := p_life_situation p;
     p_is_active := p_is_active p;
     p_onboarding_completed := p_onboarding_completed p;
     p_telegram_link_token := Some t |}.

(** [generate_link_token], lines 185-203.  [new_token] is what
    [secrets.token_urlsafe(16)] returns; [get_me] is the bot username that
    the [getMe] call yields, [None] when the call raises or names none. *)
Definition generate_link_token (w : world) (user_id : string)
    (new_token : string) (get_me : option string)
  : outcome LinkReply * world :=
  let w1 := set_profiles (alter (set_token new_token) user_id) w in
  let bot_username := default "AstraPersonalBot" get_me in
  (Ok {| token := new_token;
         link := "https://t.me/" +:+ bot_username +:+ "?start=" +:+ new_token;
         instructions := "Clicca il link o invia /start " +:+ new_token
                         +:+ " al bot @" +:+ bot_username |},
   w1).

Definition block (user_id : string) (c : telegram_connection)
  : telegram_connection :=
  if bool_decide (tc_user_id c = user_id)
  then {| tc_user_id := tc_user_id c; tc_chat_id := tc_chat_id c;
          tc_username := tc_username c; tc_first_name := tc_first_name c;
          tc_status := "blocked"; tc_connected_at := tc_connected_at c |}
  else c.

(** [disconnect_telegram], lines 205-210. *)
Definition disconnect_telegram (w : world) (user_id : string)
  : outcome bool * world :=
  (Ok true, set_telegram_connections (fmap (block user_id)) w).

(** The body of [telegram_status]: the selected columns of the first
    connection, or [{"status": "not_connected"}]. *)
Inductive StatusReply :=
| Connected (chat_id : Z) (username : string) (status : string)
    (connected_at : option Z)
| NotConnected.

(** [telegram_status], lines 212-217. *)
Definition telegram_status (w : world) (user_id : string)
  : outcome StatusReply * world :=
  match filter (λ c, tc_user_id c = user_id) (telegram_connections w) with
  | c :: _ =>
    (Ok (Connected (tc_chat_id c) (tc_username c) (tc_status c)
           (tc_connected_at c)), w)
  | [] => (Ok NotConnected, w)
  end.

End TelegramAccount.

(** * routers/scheduler.py, the trial sweep *)

Module Trials.

Record TrialsReply := { tr_ok : bool; expired_count : Z }.

Definition expire (s : subscription) : subscription :=
  {| sub_luna_minutes_balance := sub_luna_minutes_balance s;
     sub_luna_minutes_used := sub_luna_minutes_used s;
     sub_plan := "free"; sub_status := "expired";
     sub_cancelled_at := sub_cancelled_at s;
     sub_stripe_customer_id := sub_stripe_customer_id s;
     sub_stripe_subscription_id := sub_stripe_subscription_id s |}.

Section Job.

Variable settings : Settings.

(** The [trial_end] column of [subscriptions], by user; no entry stands for
    NULL.  The handlers modelled above never read it. *)
Variable trial_end : gmap string Z.

(** [.eq("status", "trial").lt("trial_end", now)] *)
Definition trial_over (now : Z) (u : string * subscription) : Prop :=
  sub_status u.2 = "trial"
  ∧ ∃ t, trial_end !! u.1 = Some t ∧ t < now.

#[local] Instance trial_over_dec now u : Decision (trial_over now u).
Proof.
  unfold trial_over. destruct (trial_end !! u.1) as [t|].
  - destruct (decide (sub_status u.2 = "trial" ∧ t < now)) as [H | H].
    + left. destruct H. eauto.
    + right. intros (? & t' & [= <-] & ?). tauto.
  - right. intros (_ & t' & [=] & _).
Defined.

(** [check_expired_trials], lines 220-245: the selected rows are updated one
    by one and counted. *)
Definition check_expired_trials (w : world) (now : Z)
    (x_cron_secret : option string) : outcome TrialsReply * world :=
  if negb (Scheduler.verify_cron_secret settings x_cron_secret)
  then (HTTPException 401 "Non autorizzato", w)
  else
    let expired := filter (trial_over now) (map_to_list (subscriptions w)) in
    let '(subs, count) :=
      foldl (λ acc sub, (alter expire sub.1 acc.1, acc.2 + 1))
        (subscriptions w, 0) expired in
    (Ok {| tr_ok := true; expired_count := count |},
     set_subscriptions (λ _, subs) w).

End Job.

End Trials.

(** * routers/scheduler.py, the Telegram push *)

Module Push.

Record PushReply := { pr_ok : bool; pr_sent : Z; pr_failed : Z }.

(** The fields that fill the message template of lines 176-186. *)
Record push_text := {
  pt_today : string;
  pt_name : string;
  pt_sign : string;
  pt_text : option jval;
  pt_love : option jval;
  pt_work : option jval;
  pt_stars : Z
}.

(** The columns the push writes and no handler modelled above reads:
    [telegram_sent_at] of the horoscopes, by user and date, and
    [last_message_at] of the connections, by user. *)
Record delivery := {
  telegram_sent_at : gmap (string * string) Z;
  last_message_at : gmap string Z
}.

(** The loop variables: the two columns, the posts attempted so far and the
    two counters. *)
Record progress := {
  pg_delivery : delivery;
  pg_posted : list (Z * push_text);
  pg_sent : Z;
  pg_failed : Z
}.

(** [horoscope.get("overall_score") or 3] as a repeat count: [None] when
    [str * value] raises a [TypeError]. *)
Definition stars_of (score : jval) : option Z :=
  match score with
  | JNull => Some 3
  | JInt n => Some (if bool_decide (n = 0) then 3 else n)
  | JStr s => if bool_decide (s = "") then Some 3 else None
  | JOther _ => None
  end.

Definition failed_one (g : progress) : progress :=
  {| pg_delivery := pg_delivery g; pg_posted := pg_posted g;
     pg_sent := pg_sent g; pg_failed := pg_failed g + 1 |}.

Section Job.

Variable settings : Settings.

(** The [sendMessage] post: [true] when the call returns (whatever the
    status of the answer), [false] when it raises. *)
Variable post : Z → push_text → bool.

(** The completed horoscopes of a user for a date, lines 156-161. *)
Definition ready (w : world) (user_id today : string) : list daily_horoscope :=
  filter (λ h, dh_user_id h = user_id ∧ dh_horoscope_date h = today
               ∧ dh_status h = "completed")
    (daily_horoscopes w).

(** One turn of the loop at lines 153-214. *)
Definition push_one (w : world) (now : Z) (today : string) (g : progress)
    (conn : telegram_connection) : progress :=
  match ready w (tc_user_id conn) today with
  | [] => g                                          (* continue *)
  | [horoscope] =>
    let profile := profiles w !! tc_user_id conn in
    match stars_of (dh_overall_score horoscope) with
    | None => failed_one g
    | Some stars =>
      let message :=
        {| pt_today := today;
           pt_name := default "" (profile ≫= p_first_name);
           pt_sign := default "" (profile ≫= p_sun_sign);
           pt_text := dh_text_content horoscope;
           pt_love := dh_section_love horoscope;
           pt_work := dh_section_work horoscope;
           pt_stars := stars |} in
      let posted := pg_posted g ++ [(tc_chat_id conn, message)] in
      if post (tc_chat_id conn) message then
        {| pg_delivery :=
             {| telegram_sent_at :=
                  <[(tc_user_id conn, today) := now]>
                    (telegram_sent_at (pg_delivery g));
                last_message_at :=
                  <[tc_user_id conn := now]>
                    (last_message_at (pg_delivery g)) |};
           pg_posted := posted;
           pg_sent := pg_sent g + 1; pg_failed := pg_failed g |}
      else
        {| pg_delivery := pg_delivery g; pg_posted := posted;
           pg_sent := pg_sent g; pg_failed := pg_failed g + 1 |}
    end
  | _ :: _ :: _ => failed_one g                      (* single() raises *)
  end.

(** [.eq("status", "active")] *)
Definition active_connections (w : world) : list telegram_connection :=
  filter (λ c, tc_status c = "active") (telegram_connections w).

(** [send_telegram_push], lines 132-216.  The job writes the two delivery
    columns only; it returns them with the posts it attempted. *)
Definition send_telegram_push (w : world) (d : delivery) (now : Z)
    (today : string) (x_cron_secret : option string)
  : outcome PushReply * delivery * list (Z * push_text) :=
  if negb (Scheduler.verify_cron_secret settings x_cron_secret)
  then (HTTPException 401 "Non autorizzato", d, [])
  else
    let g := foldl (push_one w now today)
               {| pg_delivery := d; pg_posted := []; pg_sent := 0;
                  pg_failed := 0 |}
               (active_connections w) in
    (Ok {| pr_ok := true; pr_sent := pg_sent g; pr_failed := pg_failed g |},
     pg_delivery g, pg_posted g).

End Job.

End Push.

(** * routers/webhooks.py, the pack checkout *)

Module Checkout.
Import PrimFloat.

Record pack := { pk_minutes : Z; pk_price : float; pk_name : string }.

(** [LUNA_PACKS], lines 17-22; the prices are Python floats. *)
Definition LUNA_PACKS : gmap string pack :=
  {[ "15min" := {| pk_minutes := 15; pk_price := 2.99%float;
                   pk_name := "15 minuti con Luna" |};
     "30min" := {| pk_minutes := 30; pk_price := 4.99%float;
                   pk_name := "30 minuti con Luna" |};
     "60min" := {| pk_minutes := 60; pk_price := 8.99%float;
                   pk_name := "60 minuti con Luna" |};
     "monthly" := {| pk_minutes := 300; pk_price := 19.99%float;
                     pk_name := "Abbonamento mensile Luna (5h)" |} ]}.

(** [int(x)] on a float: truncation toward zero; [None] for a NaN or an
    infinity, where Python raises. *)
Definition py_int_float (x : float) : option Z :=
  match FloatOps.Prim2SF x with
  | SpecFloat.S754_zero _ => Some 0
  | SpecFloat.S754_finite s m e =>
    let magnitude :=
      if 0 <=? e then Z.pos m * 2 ^ e else Z.pos m / 2 ^ (- e) in
    Some (if s then - magnitude else magnitude)
  | _ => None
  end.

(** The arguments of [stripe.checkout.Session.create] that vary (card
    payment of one item in EUR, mode [payment], is fixed). *)
Record checkout_request := {
  cr_customer : string;
  cr_product_name : string;
  cr_unit_amount : Z;
  cr_success_url : string;
  cr_cancel_url : string;
  cr_user_id : string;          (* metadata *)
  cr_order_id : string;
  cr_pack_id : string;
  cr_minutes : Z
}.

Inductive stripe_call :=
| CustomerCreate (email : option string) (user_id : string)
| SessionCreate (request : checkout_request).

(** The columns of [luna_minute_packs] that only this handler writes, by
    order id. *)
Record pack_columns := {
  price_eur : gmap string float;
  stripe_session_id : gmap string string
}.

Record CheckoutReply := { checkout_url : string }.

Definition set_customer (customer_id : string) (s : subscription)
  : subscription :=
  {| sub_luna_minutes_balance := sub_luna_minutes_balance s;
     sub_luna_minutes_used := sub_luna_minutes_used s;
     sub_plan := sub_plan s; sub_status := sub_status s;
     sub_cancelled_at := sub_cancelled_at s;
     sub_stripe_customer_id := Some customer_id;
     sub_stripe_subscription_id := sub_stripe_subscription_id s |}.

Section Handler.

Variable settings : Settings.

(** The [email] column of [profiles], by user; no entry stands for NULL. *)
Variable email : gmap string string.

(** [stripe.Customer.create]: the id of the new customer, [None] when the
    call raises. *)
Variable customer_create : option string → string → option string.

(** [stripe.checkout.Session.create]: the id and the url of the session,
    [None] when the call raises. *)
Variable session_create : checkout_request → option (string * string).

(** [create_luna_checkout], lines 37-96. *)
Definition create_luna_checkout (w : world) (cols : pack_columns)
    (user_id pack_id : string)
  : outcome CheckoutReply * world * pack_columns * list stripe_call :=
  match LUNA_PACKS !! pack_id with
  | None => (HTTPException 400 "Pacchetto non valido", w, cols, [])
  | Some pack =>
    let profile := profiles w !! user_id in
    let sub := subscriptions w !! user_id in
    let customer_id := sub ≫= sub_stripe_customer_id in
    (* lines 56-59: create the Stripe customer when there is none *)
    let customer :=
      match customer_id with
      | Some (String a c) => inr (String a c, w, [])
      | _ =>
        match profile with
        | None => inl ("TypeError", [])          (* profile["email"] on None *)
        | Some _ =>
          let made := [CustomerCreate (email !! user_id) user_id] in
          match customer_create (email !! user_id) user_id with
          | None => inl ("stripe", made)
          | Some id =>
            inr (id, set_subscriptions (alter (set_customer id) user_id) w,
                 made)
          end
        end
      end in
    match customer with
    | inl (exn, made) => (Unhandled exn, w, cols, made)
    | inr (customer_id, w1, made) =>
      (* lines 62-68: the order row *)
      let order_id := fresh (dom (luna_minute_packs w1)) in
      let w2 :=
        set_luna_minute_packs
          (insert order_id
             {| mp_user_id := user_id; mp_pack_name := pack_id;
                mp_minutes_purchased := pk_minutes pack;
                mp_order_status := "pending";
                mp_stripe_payment_intent := None; mp_paid_at := None;
                mp_is_consumed := None |}) w1 in
      let cols2 :=
        {| price_eur := <[order_id := pk_price pack]> (price_eur cols);
           stripe_session_id := stripe_session_id cols |} in
      (* lines 71-91: the Stripe session *)
      match py_int_float (pk_price pack * 100) with
      | None => (Unhandled "ValueError", w2, cols2, made)
      | Some unit_amount =>
        let request :=
          {| cr_customer := customer_id; cr_product_name := pk_name pack;
             cr_unit_amount := unit_amount;
             cr_success_url := frontend_url settings +:+ "/luna?success=true";
             cr_cancel_url := frontend_url settings +:+ "/luna?cancelled=true";
             cr_user_id := user_id; cr_order_id := order_id;
             cr_pack_id := pack_id; cr_minutes := pk_minutes pack |} in
        let made2 := made ++ [SessionCreate request] in
        match session_create request with
        | None => (Unhandled "stripe", w2, cols2, made2)
        | Some (session_id, url) =>
          (Ok {| checkout_url := url |}, w2,
           {| price_eur := price_eur cols2;
              stripe_session_id :=
                <[order_id := session_id]> (stripe_session_id cols2) |},
           made2)
        end
      end
    end
  end.

End Handler.

End Checkout.

(** * Auxiliary notions and sample worlds *)

(** Ceiling of [a / b] for a positive [b]. *)
Definition ceil_div (a b : Z) : Z := - ((- a) / b).

(** A call of [generate_horoscope_text] whose result can be stored: it
    returned a dict. *)
Definition generated (r : Scheduler.py_result) : bool :=
  match r with
  | Scheduler.Returns (Scheduler.PyDict _) => true
  | _ => false
  end.

(** A user the batch job fails on: no row for today yet, and the generation
    raises or does not return a dict. *)
Definition fails (gen : string * profile → jval → Scheduler.py_result)
    (planetary_data : jval) (w : world) (today : string)
    (u : string * profile) : bool :=
  bool_decide (Scheduler.existing w u.1 today = [])
  && negb (generated (gen u planetary_data)).

(** The text of a message is [/start <token>] for a non-empty token. *)
Definition is_start_with (token : string) (m : Telegram.tg_message) : Prop :=
  let text := Telegram.strip (default "" (Telegram.text m)) in
  String.prefix "/start" text = true
  ∧ Telegram.start_token text = Some token
  ∧ token ≠ "".

(** A post of the push job: the message goes to the chat of a listed
    connection whose user has exactly one completed horoscope for the date,
    and carries that horoscope. *)
Definition post_of (w : world) (today : string)
    (conns : list telegram_connection) (x : Z * Push.push_text) : Prop :=
  ∃ conn h, conn ∈ conns ∧ x.1 = tc_chat_id conn
            ∧ Push.ready w (tc_user_id conn) today = [h]
            ∧ Push.pt_today x.2 = today
            ∧ Push.pt_text x.2 = dh_text_content h
            ∧ Push.pt_love x.2 = dh_section_love h
            ∧ Push.pt_work x.2 = dh_section_work h
            ∧ Push.stars_of (dh_overall_score h) = Some (Push.pt_stars x.2).

Module Sample.

Definition sub15 : subscription :=
  {| sub_luna_minutes_balance := 15; sub_luna_minutes_used := 0;
     sub_plan := "premium"; sub_status := "active";
     sub_cancelled_at := None; sub_stripe_customer_id := Some "cus_1";
     sub_stripe_subscription_id := Some "sub_1" |}.


Definition session1 : luna_session :=
  {| ls_user_id := "u1"; ls_partner_id := None; ls_status := "active";
     ls_voice_used := false; ls_context_snapshot := Some "ctx";
     ls_messages_count := None; ls_created_at := 1000000;
     ls_ended_at := None; ls_ended_reason := None;
     ls_duration_minutes := None; ls_minutes_charged := None |}.

Definition empty_world : world :=
  {| profiles := ∅; partner_profiles := ∅; subscriptions := ∅;
     luna_sessions := ∅; luna_messages := []; daily_horoscopes := [];
     scheduler_jobs := ∅; telegram_connections := [];
     luna_minute_packs := ∅; services_orders := ∅; calls := [] |}.

(** One caller with 15 minutes and one active session. *)
Definition luna_world : world :=
  set_luna_sessions (insert "s1" session1)
    (set_subscriptions (insert "u1" sub15) empty_world).


(** A session whose owner has no subscription row. *)
Definition orphan_world : world :=
  set_luna_sessions (insert "s1" session1) empty_world.

Definition settings : Settings :=
  {| supabase_url := "https://db"; supabase_service_key := "k";
     supabase_jwt_secret := "j"; anthropic_api_key := "a";
     elevenlabs_api_key := "e"; elevenlabs_voice_id_luna := "v";
     stripe_secret_key := "sk"; stripe_webhook_secret := "whsec";
     stripe_price_15min := "p15"; stripe_price_30min := "p30";
     stripe_price_60min := "p60"; stripe_price_monthly := "pm";
     telegram_bot_token := "t"; nocturna_api_url := "https://n";
     nocturna_service_token := "n"; ipapi_key := ""; app_env := "production";
     app_secret_key := "cron"; admin_emails := "";
     frontend_url := "https://astra" |}.

Definition user (name : string) (token : option string) : profile :=
  {| p_first_name := Some name; p_last_name := None;
     p_birth_date := Some "1990-01-01"; p_birth_time := None;
     p_birth_city := None; p_birth_country := None;
     p_sun_sign := Some "Ariete"; p_moon_sign := None; p_ascendant := None;
     p_life_situation := None; p_is_active := true;
     p_onboarding_completed := true; p_telegram_link_token := token |}.

(** One eligible user and no horoscope yet. *)
Definition batch_world : world :=
  set_profiles (insert "u1" (user "Anna" None)) empty_world.

(** Three eligible users. *)
Definition batch3_world : world :=
  set_profiles
    (λ _, {[ "u1" := user "Anna" None; "u2" := user "Bruno" None;
             "u3" := user "Carla" None ]})
    empty_world.

Definition overloaded (u : string * profile) (planetary_data : jval)
  : Scheduler.py_result := Scheduler.Raises "overloaded".

(** The generation fails for [u2] only. *)
Definition flaky (u : string * profile) (planetary_data : jval)
  : Scheduler.py_result :=
  if bool_decide (u.1 = "u2") then Scheduler.Raises "overloaded"
  else Scheduler.Returns (Scheduler.PyDict {[ "full_text" := JStr "Oggi" ]}).

(** The generation succeeds for everybody. *)
Definition steady (u : string * profile) (planetary_data : jval)
  : Scheduler.py_result :=
  Scheduler.Returns (Scheduler.PyDict {[ "full_text" := JStr "Oggi" ]}).

Definition unknown_event : Webhooks.stripe_event :=
  {| Webhooks.ev_type := "charge.refunded";
     Webhooks.ev_object :=
       {| Webhooks.obj_id := "ch_1"; Webhooks.obj_customer := "cus_1";
          Webhooks.obj_payment_intent := None;
          Webhooks.obj_metadata := {[ "user_id" := "u1" ]} |} |}.

(** A verifier that accepts the signature ["good"] only. *)
Definition verifier (payload : string) (sig_header : option string)
    (secret : string) : string + Webhooks.stripe_event :=
  if bool_decide (sig_header = Some "good") then inr unknown_event
  else inl "No signatures found matching the expected signature for payload".

Definition no_int (s : string) : option Z := None.

(** Anna holds the link token ["tok123"]. *)
Definition link_world : world :=
  set_profiles (insert "u1" (user "Anna" (Some "tok123"))) empty_world.

Definition start_msg (chat : Z) : Telegram.tg_message :=
  {| Telegram.chat_id := chat; Telegram.text := Some "/start tok123";
     Telegram.username := Some "anna"; Telegram.first_name := Some "Anna" |}.

Definition echo (system : string) (messages : list (string * string))
  : option (string * Z * Z) := Some ("Ciao", 10, 5).

Definition mute (text : string) : option Z := None.

End Sample.

Module SampleExtra.

(** A text-completion call that raises. *)
Definition silent (system : string) (messages : list (string * string))
  : option (string * Z * Z) := None.

(** A speech service that answers 200, and one that answers 500. *)
Definition speaks (text : string) : option Z := Some 200.
Definition hoarse (text : string) : option Z := Some 500.

Definition voice_session : luna_session :=
  {| ls_user_id := "u1"; ls_partner_id := None; ls_status := "active";
     ls_voice_used := true; ls_context_snapshot := Some "ctx";
     ls_messages_count := Some 4; ls_created_at := 1000000;
     ls_ended_at := None; ls_ended_reason := None;
     ls_duration_minutes := None; ls_minutes_charged := None |}.

(** One caller with 15 minutes and an active session started with voice. *)
Definition voice_world : world :=
  set_luna_sessions (insert "s1" voice_session)
    (set_subscriptions (insert "u1" Sample.sub15) Sample.empty_world).

Definition conn (user : string) (chat : Z) (status : string)
  : telegram_connection :=
  {| tc_user_id := user; tc_chat_id := chat; tc_username := "anna";
     tc_first_name := "Anna"; tc_status := status; tc_connected_at := None |}.

Definition horoscope (user : string) (score : jval) : daily_horoscope :=
  {| dh_user_id := user; dh_horoscope_date := "2024-05-01";
     dh_text_content := Some (JStr "Oggi"); dh_section_general := None;
     dh_section_love := Some (JStr "Amore"); dh_section_work := None;
     dh_section_health := None; dh_overall_score := score;
     dh_planetary_data := JNull; dh_status := "completed";
     dh_generated_at := 0 |}.

(** Chat 42 is connected to [u1] and active, chat 43 to [u2] and paused;
    [u1] has 15 minutes and a horoscope for today, [u2] has neither. *)
Definition chat_world : world :=
  set_telegram_connections (λ _, [conn "u1" 42 "active"; conn "u2" 43 "paused"])
    (set_daily_horoscopes (λ _, [horoscope "u1" (JInt 4)])
       (set_subscriptions (insert "u1" Sample.sub15) Sample.empty_world)).

Definition cmd (chat : Z) (t : string) : Telegram.tg_message :=
  {| Telegram.chat_id := chat; Telegram.text := Some t;
     Telegram.username := Some "anna"; Telegram.first_name := Some "Anna" |}.

(** A caller with 15 minutes, one pending 30-minute order and one pending
    service order. *)
Definition shop_world : world :=
  set_services_orders
    (insert "so1" {| so_order_status := "pending"; so_paid_at := None;
                     so_status := "draft" |})
    (set_luna_minute_packs
       (insert "o1" {| mp_user_id := "u1"; mp_pack_name := "30min";
                       mp_minutes_purchased := 30;
                       mp_order_status := "pending";
                       mp_stripe_payment_intent := None; mp_paid_at := None;
                       mp_is_consumed := None |})
       Sample.luna_world).

Definition stripe_ev (type : string) (meta : gmap string string)
  : Webhooks.stripe_event :=
  {| Webhooks.ev_type := type;
     Webhooks.ev_object :=
       {| Webhooks.obj_id := "sub_1"; Webhooks.obj_customer := "cus_1";
          Webhooks.obj_payment_intent := Some "pi_1";
          Webhooks.obj_metadata := meta |} |}.

(** A verifier that accepts every request as the given event. *)
Definition accept (ev : Webhooks.stripe_event) (payload : string)
    (sig_header : option string) (secret : string)
  : string + Webhooks.stripe_event := inr ev.

Definition thirty (s : string) : option Z :=
  if bool_decide (s = "30") then Some 30 else None.

Definition pack_meta (minutes : string) : gmap string string :=
  {[ "user_id" := "u1"; "order_id" := "o1"; "pack_id" := "30min";
     "minutes" := minutes ]}.

Definition service_meta : gmap string string :=
  {[ "user_id" := "u1"; "order_id" := "so1"; "service_type" := "tema" ]}.

Definition sub_of (status : string) : subscription :=
  {| sub_luna_minutes_balance := 5; sub_luna_minutes_used := 0;
     sub_plan := "premium"; sub_status := status;
     sub_cancelled_at := None; sub_stripe_customer_id := None;
     sub_stripe_subscription_id := None |}.

(** Two trials, ending at 100 and at 900, and one paying subscription. *)
Definition trial_world : world :=
  set_subscriptions
    (λ _, {[ "u1" := sub_of "trial"; "u2" := sub_of "trial";
             "u3" := sub_of "active" ]})
    Sample.empty_world.

Definition trial_ends : gmap string Z := {[ "u1" := 100; "u2" := 900 ]}.

Definition ended_at (created : Z) : luna_session :=
  {| ls_user_id := "u1"; ls_partner_id := None; ls_status := "ended";
     ls_voice_used := false; ls_context_snapshot := None;
     ls_messages_count := Some 2; ls_created_at := created;
     ls_ended_at := Some (created + 60000000);
     ls_ended_reason := Some "user_ended";
     ls_duration_minutes := Some 1; ls_minutes_charged := Some 1 |}.

(** Four ended sessions of [u1], created at 10, 20, 30 and 40. *)
Definition past_world : world :=
  set_luna_sessions
    (λ _, {[ "a" := ended_at 10; "b" := ended_at 40; "c" := ended_at 20;
             "d" := ended_at 30 ]})
    Sample.empty_world.

Definition no_delivery : Push.delivery :=
  {| Push.telegram_sent_at := ∅; Push.last_message_at := ∅ |}.

(** A transport whose posts always return. *)
Definition delivers (chat : Z) (t : Push.push_text) : bool := true.

Definition no_columns : Checkout.pack_columns :=
  {| Checkout.price_eur := ∅; Checkout.stripe_session_id := ∅ |}.

(** Stripe opens a session for every request and never makes a customer. *)
Definition opens (request : Checkout.checkout_request)
  : option (string * string) := Some ("cs_1", "https://pay").

Definition no_customer (email : option string) (user_id : string)
  : option string := None.

End SampleExtra.

(** * Properties *)

(** ** Filtering lists *)

Lemma filter_ext_in {A} (P Q : A → Prop) `{!∀ x, Decision (P x)}
    `{!∀ x, Decision (Q x)} (l : list A) :
  (∀ x, x ∈ l → P x ↔ Q x) → filter P l = filter Q l.
Proof.
  induction l as [|a l IH]; intros Hext; [done |].
  assert (filter P l = filter Q l) as IH'.
  { apply IH. intros x Hx. apply Hext. by right. }
  destruct (decide (P a)) as [Hp | Hp].
  - rewrite !filter_cons_True; [by rewrite IH' | | done].
    apply Hext; [by left | done].
  - rewrite !filter_cons_False; [done | | done].
    intros Hq. apply Hp, Hext; [by left | done].
Qed.

Lemma filter_none {A} (P : A → Prop) `{!∀ x, Decision (P x)} (l : list A) :
  (∀ x, x ∈ l → ¬ P x) → filter P l = [].
Proof.
  induction l as [|a l IH]; intros Hnone; [done |].
  rewrite filter_cons_False by (apply Hnone; by left).
  apply IH. intros x Hx. apply Hnone. by right.
Qed.

(** ** Session metering *)

Module LunaFacts.
Import Luna.

Lemma duration_min_ceiling us :
  duration_min us = Z.max 1 (ceil_div us 60000000).
Proof.
  unfold duration_min, ceil_div.
  destruct (Z.lt_ge_cases us 0) as [Hneg | Hpos].
  - (* negative elapsed time: both sides are 1 *)
    assert (Hq : Z.quot us 60000000 ≤ 0).
    { rewrite <- (Z.opp_involutive us) at 1. rewrite Z.quot_opp_l by lia.
      assert (0 ≤ Z.quot (- us) 60000000) by (apply Z.quot_pos; lia). lia. }
    assert (Hc : 0 ≤ (- us) / 60000000) by (apply Z.div_pos; lia).
    destruct (0 <? us mod 60000000); lia.
  - rewrite Z.quot_div_nonneg by lia.
    pose proof (Z.div_mod us 60000000 ltac:(lia)) as Hdm.
    pose proof (Z.mod_pos_bound us 60000000 ltac:(lia)) as Hb.
    destruct (0 <? us mod 60000000) eqn:Hm.
    + apply Z.ltb_lt in Hm.
      assert ((- us) / 60000000 = - (us / 60000000) - 1) as ->; [| lia].
      symmetry. apply (Z.div_unique _ _ _ (60000000 - us mod 60000000)); lia.
    + apply Z.ltb_ge in Hm.
      assert ((- us) / 60000000 = - (us / 60000000)) as ->; [| lia].
      symmetry. apply (Z.div_unique _ _ _ 0); lia.
Qed.


Lemma session_of_Some w id user s :
  session_of w id user = Some s ↔
  luna_sessions w !! id = Some s ∧ ls_user_id s = user.
Proof.
  unfold session_of. destruct (luna_sessions w !! id) as [s'|]; [| naive_solver].
  case_bool_decide; naive_solver.
Qed.

Lemma active_session_of_Some w id user s :
  active_session_of w id user = Some s ↔
  luna_sessions w !! id = Some s ∧ ls_user_id s = user ∧ ls_status s = "active".
Proof.
  unfold active_session_of.
  destruct (session_of w id user) as [s'|] eqn:E.
  - apply session_of_Some in E. case_bool_decide; naive_solver.
  - split; [done |]. intros (H1 & H2 & _).
    assert (session_of w id user = Some s) by by apply session_of_Some.
    congruence.
Qed.


Lemma end_session_found w now user body s :
  session_of w (es_session_id body) user = Some s →
  let m := duration_min (now - ls_created_at s) in
  let w' := set_luna_sessions (alter (end_row now m) (es_session_id body))
              (deduct_luna_minutes user m w) in
  end_session w now user body =
    (match subscriptions w !! user with
     | Some sub =>
       Ok {| ok := true; duration_minutes := m; minutes_charged := m;
             end_minutes_remaining := sub_luna_minutes_balance sub - m |}
     | None => Unhandled "AttributeError"
     end, w').
Proof.
  intros Hs. unfold end_session. rewrite Hs. simpl.
  rewrite lookup_alter_eq. by destruct (subscriptions w !! user).
Qed.

End LunaFacts.

Module LunaSpec.
Import Luna LunaFacts.

(** C1: a session closed by [end_session] after an elapsed time of [D]
    (microseconds since its creation) is charged the ceiling of [D / 60 s]
    minutes, at least 1: the row's [duration_minutes] and [minutes_charged],
    the amount passed to the debit procedure and the two fields of the reply
    all carry that number.  10 s, 60 s, 61 s and 125 s give 1, 1, 2 and 3, and
    a zero or negative [D] gives 1. *)
Theorem end_session_charges_ceiling w now user body s :
  luna_sessions w !! es_session_id body = Some s →
  ls_user_id s = user →
  let D := now - ls_created_at s in
  let m := Z.max 1 (ceil_div D 60000000) in
  let r := end_session w now user body in
  1 ≤ m
  ∧ luna_sessions r.2 !! es_session_id body = Some (end_row now m s)
  ∧ calls r.2 = calls w ++ [CallRpc "deduct_luna_minutes" user m]
  ∧ (∀ reply, r.1 = Ok reply →
       duration_minutes reply = m ∧ minutes_charged reply = m)
  ∧ (is_Some (subscriptions w !! user) → ∃ reply, r.1 = Ok reply)
  ∧ (D = 10000000 → m = 1) ∧ (D = 60000000 → m = 1)
  ∧ (D = 61000000 → m = 2) ∧ (D = 125000000 → m = 3)
  ∧ (D ≤ 0 → m = 1).
Proof.
  intros Hs Hu D m r.
  assert (Hf : session_of w (es_session_id body) user = Some s)
    by by apply session_of_Some.
  pose proof (end_session_found w now user body s Hf) as E.
  rewrite duration_min_ceiling in E. fold D m in E. simpl in E.
  subst r. rewrite E. simpl.
  split; [lia |]. split.
  { rewrite lookup_alter_eq, Hs. done. }
  split; [done |]. split.
  { intros reply. destruct (subscriptions w !! user); [| done].
    intros [= <-]. done. }
  split.
  { intros [sub ->]. eauto. }
  subst m. unfold ceil_div.
  repeat split; intros HD; try (rewrite HD; reflexivity).
  assert (0 ≤ (- D) / 60000000) by (apply Z.div_pos; lia). lia.
Qed.

Lemma end_session_charges_ceiling_witness :
  luna_sessions Sample.luna_world !! "s1" = Some Sample.session1
  ∧ ls_user_id Sample.session1 = "u1"
  ∧ let r := end_session Sample.luna_world 126000000 "u1"
               {| es_session_id := "s1" |} in
    luna_sessions r.2 !! "s1" = Some (end_row 126000000 3 Sample.session1)
    ∧ ∃ reply, r.1 = Ok reply
               ∧ duration_minutes reply = 3 ∧ minutes_charged reply = 3.
Proof.
  split; [reflexivity |]. split; [reflexivity |].
  destruct (end_session_charges_ceiling Sample.luna_world 126000000 "u1"
              {| es_session_id := "s1" |} Sample.session1
              eq_refl eq_refl) as (_ & Hrow & _ & Hreply & Hok & _).
  split; [exact Hrow |].
  destruct Hok as [reply Hr]; [eexists; reflexivity |].
  exists reply. split; [exact Hr |]. exact (Hreply reply Hr).
Defined.



Section Turn.

Variable messages_create :
  string → list (string * string) → option (string * Z * Z).
Variable text_to_speech : string → option Z.

Abbreviation send_message := (send_message messages_create text_to_speech).



(** C9: a turn never changes the subscriptions table, whatever its outcome;
    when it completes, the balance after the call is the balance before it
    and [minutes_remaining] in the reply is that balance, not reduced by the
    turn. *)
Theorem send_message_keeps_balance w user body :
  let r := send_message w user body in
  subscriptions r.2 = subscriptions w
  ∧ ∀ reply, r.1 = Ok reply →
      ∃ sub, subscriptions w !! user = Some sub
             ∧ subscriptions r.2 !! user = Some sub
             ∧ minutes_remaining reply = sub_luna_minutes_balance sub.
Proof.
  unfold Luna.send_message.
  destruct (active_session_of w (sm_session_id body) user) as [s|];
    [| by split].
  destruct (subscriptions w !! user) as [sub|] eqn:Esub; simpl; [| by split].
  destruct (sub_luna_minutes_balance sub <? 1); simpl; [by split |].
  destruct (messages_create _ _) as [[[reply_text input_tokens] output_tokens]|];
    [| by split].
  destruct (ls_voice_used s); simpl; rewrite Esub; simpl.
  all: split; [done |]; intros reply [= <-]; exists sub; by simpl.
Qed.

(** A turn that passes the two checks and whose text-completion call answers
    completes: it stores the user message and the reply, bumps the counter and
    returns the unchanged balance. *)
Lemma send_message_completes w user body s sub reply_text tin tout :
  luna_sessions w !! sm_session_id body = Some s →
  ls_user_id s = user →
  ls_status s = "active" →
  subscriptions w !! user = Some sub →
  1 ≤ sub_luna_minutes_balance sub →
  messages_create
    (LUNA_SYSTEM_PROMPT_format (default "" (ls_context_snapshot s)))
    (history w (sm_session_id body) ++ [("user", message body)])
  = Some (reply_text, tin, tout) →
  let r := send_message w user body in
  ∃ audio,
    r.1 = Ok {| reply := reply_text; audio_url := audio;
                minutes_remaining := sub_luna_minutes_balance sub |}
    ∧ luna_messages r.2 = luna_messages w ++
        [ {| lm_session_id := sm_session_id body; lm_user_id := user;
             lm_role := "user"; lm_content := message body;
             lm_audio_url := None; lm_tokens_used := None |};
          {| lm_session_id := sm_session_id body; lm_user_id := user;
             lm_role := "assistant"; lm_content := reply_text;
             lm_audio_url := audio; lm_tokens_used := Some (tin + tout) |} ]
    ∧ ls_messages_count <$> luna_sessions r.2 !! sm_session_id body
      = Some (Some (default 0 (ls_messages_count s) + 1)).
Proof.
  intros Hs Hu Hst Hsub Hbal Hmc.
  assert (Ha : active_session_of w (sm_session_id body) user = Some s)
    by by apply active_session_of_Some.
  unfold Luna.send_message. rewrite Ha, Hsub. simpl.
  assert (Hlt : (sub_luna_minutes_balance sub <? 1) = false)
    by (apply Z.ltb_ge; lia).
  rewrite Hlt. simpl. rewrite Hmc.
  destruct (ls_voice_used s); simpl; rewrite Hsub; simpl;
    eexists; (split; [reflexivity |]);
    rewrite lookup_alter_eq, Hs, <- app_assoc; done.
Qed.

End Turn.



Lemma send_message_keeps_balance_witness :
  let r := send_message Sample.echo Sample.mute Sample.luna_world "u1"
             {| sm_session_id := "s1"; message := "Ciao Luna" |} in
  r.1 = Ok {| reply := "Ciao"; audio_url := None; minutes_remaining := 15 |}
  ∧ subscriptions r.2 = subscriptions Sample.luna_world
  ∧ subscriptions r.2 !! "u1" = Some Sample.sub15.
Proof.
  destruct (send_message_keeps_balance Sample.echo Sample.mute
              Sample.luna_world "u1"
              {| sm_session_id := "s1"; message := "Ciao Luna" |})
    as [Hsubs Hreply].
  split; [reflexivity |]. split; [exact Hsubs |].
  destruct (Hreply _ eq_refl) as (sub & Hb & Ha & _).
  rewrite Ha, <- Hb. reflexivity.
Defined.

Section Start.

Variable render_profile : profile → string.
Variable render_partner : partner_profile → string.
Variable iso_date : Z → string.

Abbreviation start_session :=
  (start_session render_profile render_partner iso_date).
Abbreviation build_user_context :=
  (build_user_context render_profile render_partner iso_date).


End Start.


(** Without a subscription row the last read of [end_session] has nothing to
    call [.get] on: the request ends in an uncaught exception after the debit
    call and the update of the session row. *)
Example end_session_without_subscription :
  let r := end_session Sample.orphan_world 61000000 "u1"
             {| es_session_id := "s1" |} in
  r.1 = Unhandled "AttributeError"
  ∧ ls_status <$> luna_sessions r.2 !! "s1" = Some "ended"
  ∧ calls r.2 = [CallRpc "deduct_luna_minutes" "u1" 1].
Proof. vm_compute. repeat split; reflexivity. Qed.

(** A whole session: a caller with 15 minutes starts a session, sends three
    messages and ends it 90 seconds after its creation.  The turns leave the
    balance at 15; the end charges 2 minutes and leaves 13. *)
Example session_of_90_seconds :
  let start := Luna.start_session (λ _, "UTENTE") (λ _, "PARTNER") (λ _, "") in
  let turn := send_message Sample.echo Sample.mute in
  let w0 := set_subscriptions (insert "u1" Sample.sub15) Sample.empty_world in
  let r0 := start w0 1000000 "u1" {| partner_id := None; use_voice := false |} in
  let sid := fresh (dom (luna_sessions w0)) in
  let r1 := turn r0.2 "u1" {| sm_session_id := sid; message := "uno" |} in
  let r2 := turn r1.2 "u1" {| sm_session_id := sid; message := "due" |} in
  let r3 := turn r2.2 "u1" {| sm_session_id := sid; message := "tre" |} in
  let r4 := end_session r3.2 91000000 "u1" {| es_session_id := sid |} in
  r0.1 = Ok {| session_id := sid; minutes_available := 15;
               started_at := 1000000 |}
  ∧ r3.1 = Ok {| reply := "Ciao"; audio_url := None; minutes_remaining := 15 |}
  ∧ length (luna_messages r3.2) = 6%nat
  ∧ ls_messages_count <$> luna_sessions r3.2 !! sid = Some (Some 3)
  ∧ r4.1 = Ok {| ok := true; duration_minutes := 2; minutes_charged := 2;
                 end_minutes_remaining := 13 |}.
Proof. vm_compute. repeat split; reflexivity. Qed.

End LunaSpec.

(** ** The daily batch job *)

Module SchedulerFacts.
Import Scheduler.

Lemma NoDup_eligible w : NoDup (eligible w).*1.
Proof.
  unfold eligible.
  apply (sublist_NoDup _ (map_to_list (profiles w)).*1).
  - apply NoDup_fst_map_to_list.
  - apply fmap_sublist. apply sublist_filter.
Qed.

Section Job.

Variable settings : Settings.
Variable planetary_data : jval.
Variable gen : string * profile → jval → py_result.
Variables (today : string) (now : Z).

Abbreviation step := (step planetary_data gen today now).

(** What one turn of the loop does, by the three ways it can go. *)
Lemma step_skip w t u :
  existing w u.1 today ≠ [] →
  step (w, t) u =
    (w, {| processed := processed t + 1; success := success t + 1;
           failed := failed t; errors := errors t |}).
Proof. unfold Scheduler.step. by destruct (existing w u.1 today). Qed.

Lemma step_store w t u d :
  existing w u.1 today = [] →
  gen u planetary_data = Returns (PyDict d) →
  step (w, t) u =
    (set_daily_horoscopes
       (λ l, l ++ [new_row u.1 today now planetary_data d])
       (emit (CallGenerateHoroscope u.1) w),
     {| processed := processed t + 1; success := success t + 1;
        failed := failed t; errors := errors t |}).
Proof. intros He Hg. unfold Scheduler.step. by rewrite He, Hg. Qed.

Lemma step_fail w t u :
  existing w u.1 today = [] →
  generated (gen u planetary_data) = false →
  ∃ msg,
    step (w, t) u =
      (emit (CallGenerateHoroscope u.1) w,
       {| processed := processed t + 1; success := success t;
          failed := failed t + 1; errors := errors t ++ [(u.1, msg)] |}).
Proof.
  intros He Hg. unfold Scheduler.step. rewrite He.
  destruct (gen u planetary_data) as [msg | [d | ty]]; [| done |]; eauto.
Qed.

(** The three ways are exhaustive; the table after a turn. *)
Lemma step_cases w t u :
  let r := step (w, t) u in
  (existing w u.1 today ≠ []
   ∧ r = (w, {| processed := processed t + 1; success := success t + 1;
                failed := failed t; errors := errors t |}))
  ∨ (∃ d, existing w u.1 today = [] ∧ gen u planetary_data = Returns (PyDict d)
          ∧ fails gen planetary_data w today u = false
          ∧ r = (set_daily_horoscopes
                   (λ l, l ++ [new_row u.1 today now planetary_data d])
                   (emit (CallGenerateHoroscope u.1) w),
                 {| processed := processed t + 1; success := success t + 1;
                    failed := failed t; errors := errors t |}))
  ∨ (∃ msg, existing w u.1 today = [] ∧ fails gen planetary_data w today u = true
            ∧ r = (emit (CallGenerateHoroscope u.1) w,
                   {| processed := processed t + 1; success := success t;
                      failed := failed t + 1;
                      errors := errors t ++ [(u.1, msg)] |})).
Proof.
  intros r. subst r. unfold fails.
  destruct (existing w u.1 today) as [|h l] eqn:He.
  - destruct (generated (gen u planetary_data)) eqn:Hg.
    + right; left. destruct (gen u planetary_data) as [msg | [d | ty]] eqn:Eg;
        try done.
      exists d. repeat split; try done. by apply step_store.
    + right; right. destruct (step_fail w t u He Hg) as [msg Hm].
      exists msg. done.
  - left. split; [done |]. apply step_skip. by rewrite He.
Qed.

Lemma step_fails_false_skip w u :
  existing w u.1 today ≠ [] → fails gen planetary_data w today u = false.
Proof.
  intros H. unfold fails.
  by rewrite bool_decide_eq_false_2.
Qed.

(** A turn leaves the rows of every other user as they are. *)
Lemma step_existing_other w t u (id : string) :
  id ≠ u.1 →
  existing (step (w, t) u).1 id today = existing w id today.
Proof.
  intros Hne.
  destruct (step_cases w t u) as [[_ ->] | [(d & _ & _ & _ & ->) | (msg & _ & _ & ->)]];
    try done.
  unfold existing. simpl. rewrite filter_app.
  rewrite filter_cons_False, filter_nil, app_nil_r; [done |].
  simpl. naive_solver.
Qed.

(** A turn touches no table but [daily_horoscopes]. *)
Lemma step_frame w t u :
  let w' := (step (w, t) u).1 in
  profiles w' = profiles w ∧ scheduler_jobs w' = scheduler_jobs w
  ∧ subscriptions w' = subscriptions w ∧ luna_sessions w' = luna_sessions w.
Proof.
  destruct (step_cases w t u) as [[_ ->] | [(d & _ & _ & _ & ->) | (msg & _ & _ & ->)]];
    done.
Qed.

Lemma run_frame us : ∀ w t,
  let w' := (foldl step (w, t) us).1 in
  profiles w' = profiles w ∧ scheduler_jobs w' = scheduler_jobs w
  ∧ subscriptions w' = subscriptions w ∧ luna_sessions w' = luna_sessions w.
Proof.
  induction us as [|u us IH]; intros w t; [done |].
  simpl. destruct (step (w, t) u) as [w1 t1] eqn:E.
  pose proof (IH w1 t1) as I. pose proof (step_frame w t u) as G.
  rewrite E in G. simpl in *.
  destruct I as (I1 & I2 & I3 & I4), G as (G1 & G2 & G3 & G4).
  repeat split; congruence.
Qed.

Lemma run_existing_other us : ∀ w t (id : string),
  id ∉ us.*1 →
  existing (foldl step (w, t) us).1 id today = existing w id today.
Proof.
  induction us as [|u us IH]; intros w t id Hid; [done |].
  rewrite fmap_cons in Hid. apply not_elem_of_cons in Hid as [Hne Hid].
  change (foldl step (w, t) (u :: us)) with (foldl step (step (w, t) u) us).
  destruct (step (w, t) u) as [w1 t1] eqn:E.
  rewrite IH by done.
  pose proof (step_existing_other w t u id Hne) as H. by rewrite E in H.
Qed.

(** The counters after the loop. *)
Lemma run_tally us : ∀ w t,
  NoDup us.*1 →
  let r := foldl step (w, t) us in
  let F := Z.of_nat (length (filter (λ u, fails gen planetary_data w today u) us)) in
  processed r.2 = processed t + Z.of_nat (length us)
  ∧ failed r.2 = failed t + F
  ∧ success r.2 = success t + Z.of_nat (length us) - F
  ∧ Z.of_nat (length (errors r.2)) = Z.of_nat (length (errors t)) + F.
Proof.
  induction us as [|u us IH]; intros w t Hnd; cbv zeta.
  { simpl. repeat split; lia. }
  rewrite fmap_cons in Hnd. apply NoDup_cons in Hnd as [Hu Hnd].
  change (foldl step (w, t) (u :: us)) with (foldl step (step (w, t) u) us).
  destruct (step (w, t) u) as [w1 t1] eqn:E.
  specialize (IH w1 t1 Hnd). cbv zeta in IH.
  assert (Hsame : filter (λ u0, fails gen planetary_data w1 today u0) us
                  = filter (λ u0, fails gen planetary_data w today u0) us).
  { apply filter_ext_in. intros x Hx.
    assert (Hne : x.1 ≠ u.1).
    { intros Heq. apply Hu. rewrite <- Heq. by apply list_elem_of_fmap_2. }
    pose proof (step_existing_other w t u x.1 Hne) as H.
    rewrite E in H. simpl in H. unfold fails. by rewrite H. }
  rewrite Hsame in IH. destruct IH as (I1 & I2 & I3 & I4).
  rewrite I1, I2, I3, I4. rewrite length_cons.
  destruct (step_cases w t u)
    as [[He Hr] | [(d & _ & _ & Hf & Hr) | (msg & _ & Hf & Hr)]];
    rewrite E in Hr; injection Hr as -> ->; simpl.
  - rewrite filter_cons_False
      by (rewrite step_fails_false_skip by done; naive_solver).
    repeat split; lia.
  - rewrite filter_cons_False by (rewrite Hf; naive_solver).
    repeat split; lia.
  - rewrite filter_cons_True by (by rewrite Hf).
    rewrite length_app. simpl. repeat split; lia.
Qed.

(** The rows of a listed user after the loop: one new row when there was none
    and the generation returned a dict, the rows as before otherwise. *)
Lemma run_rows us : ∀ w t u,
  NoDup us.*1 → u ∈ us →
  existing (foldl step (w, t) us).1 u.1 today =
    match existing w u.1 today, gen u planetary_data with
    | [], Returns (PyDict d) => [new_row u.1 today now planetary_data d]
    | l, _ => l
    end.
Proof.
  induction us as [|u0 us IH]; intros w t u Hnd Hu; [by apply elem_of_nil in Hu |].
  rewrite fmap_cons in Hnd. apply NoDup_cons in Hnd as [Hu0 Hnd].
  change (foldl step (w, t) (u0 :: us)) with (foldl step (step (w, t) u0) us).
  destruct (step (w, t) u0) as [w1 t1] eqn:E.
  apply elem_of_cons in Hu as [-> | Hu].
  - rewrite run_existing_other by done.
    destruct (step_cases w t u0)
      as [[He Hr] | [(d & He & Hg & _ & Hr) | (msg & He & Hf & Hr)]];
      rewrite E in Hr; injection Hr as -> ->.
    + by destruct (existing w u0.1 today).
    + rewrite He, Hg. unfold existing in *. simpl. rewrite filter_app, He.
      by rewrite filter_cons_True.
    + unfold existing in *. simpl. rewrite He.
      unfold fails, existing in Hf. rewrite He in Hf. simpl in Hf.
      by destruct (gen u0 planetary_data) as [? | [? | ?]].
  - assert (Hne : u.1 ≠ u0.1).
    { intros Heq. apply Hu0. rewrite <- Heq. by apply list_elem_of_fmap_2. }
    rewrite IH by done.
    pose proof (step_existing_other w t u0 u.1 Hne) as H.
    rewrite E in H. simpl in H. by rewrite H.
Qed.

(** When every listed user already has a row, the loop changes nothing. *)
Lemma run_all_skipped us : ∀ w t,
  (∀ u, u ∈ us → existing w u.1 today ≠ []) →
  (foldl step (w, t) us).1 = w.
Proof.
  induction us as [|u us IH]; intros w t Hall; [done |].
  change (foldl step (w, t) (u :: us)) with (foldl step (step (w, t) u) us).
  rewrite step_skip by (apply Hall; by left).
  apply IH. intros x Hx. apply Hall. by right.
Qed.

Abbreviation generate_daily_horoscopes :=
  (generate_daily_horoscopes settings planetary_data gen).

(** An authorized run, unfolded. *)
Lemma generate_daily_authorized w :
  let job_id := fresh (dom (scheduler_jobs w)) in
  let w1 :=
    set_scheduler_jobs
      (insert job_id
         {| sj_job_type := "daily_generation"; sj_job_date := today;
            sj_status := "running"; sj_completed_at := None;
            sj_users_processed := None; sj_users_success := None;
            sj_users_failed := None; sj_error_log := None |}) w in
  let r := foldl step (w1, tally0) (eligible w) in
  generate_daily_horoscopes w now today (Some (app_secret_key settings)) =
    (Ok {| dr_ok := true; dr_date := today; dr_processed := processed r.2;
           dr_success := success r.2; dr_failed := failed r.2 |},
     set_scheduler_jobs (alter (complete now r.2) job_id) r.1).
Proof.
  intros job_id w1 r. unfold Scheduler.generate_daily_horoscopes.
  unfold verify_cron_secret. rewrite bool_decide_eq_true_2 by done. simpl.
  fold job_id. fold w1. change (eligible w1) with (eligible w). fold r.
  by destruct r.
Qed.

(** An authorized run changes [daily_horoscopes] and [scheduler_jobs] only;
    in particular the eligible users stay the same. *)
Lemma generate_daily_eligible w :
  eligible (generate_daily_horoscopes w now today
              (Some (app_secret_key settings))).2 = eligible w.
Proof.
  pose proof (generate_daily_authorized w) as E. cbv zeta in E. rewrite E.
  match type of E with
  | _ = (_, set_scheduler_jobs _ (foldl _ (?w1, _) _).1) =>
    destruct (run_frame (eligible w) w1 tally0) as (Hprof & _)
  end.
  unfold eligible in *. simpl. by rewrite Hprof.
Qed.

End Job.

End SchedulerFacts.

Module SchedulerSpec.
Import Scheduler SchedulerFacts.

Section OneRun.

Variable settings : Settings.
Variable planetary_data : jval.
Variable gen : string * profile → jval → py_result.
Variables (today : string) (now : Z).

(** C5: an authorized run over the [N] eligible users, [F] of which fail (no
    row for today yet and the generation raises or returns no dict), goes
    through the whole list: it replies with processed [N], success [N - F]
    and failed [F], and leaves its job row with status [completed], the same
    three counts and an error log of [min F 50] entries. *)
Theorem generate_daily_counts w :
  let users := eligible w in
  let N := Z.of_nat (length users) in
  let F := Z.of_nat (length (filter (λ u, fails gen planetary_data w today u) users)) in
  let r := generate_daily_horoscopes settings planetary_data gen w now today
             (Some (app_secret_key settings)) in
  let job_id := fresh (dom (scheduler_jobs w)) in
  r.1 = Ok {| dr_ok := true; dr_date := today; dr_processed := N;
              dr_success := N - F; dr_failed := F |}
  ∧ scheduler_jobs w !! job_id = None
  ∧ ∃ log,
      scheduler_jobs r.2 !! job_id =
        Some {| sj_job_type := "daily_generation"; sj_job_date := today;
                sj_status := "completed"; sj_completed_at := Some now;
                sj_users_processed := Some N;
                sj_users_success := Some (N - F);
                sj_users_failed := Some F;
                sj_error_log := Some log |}
      ∧ Z.of_nat (length log) = Z.min F 50.
Proof.
  intros users N F r job_id.
  pose proof (generate_daily_authorized settings planetary_data gen today now w)
    as E. cbv zeta in E. fold job_id in E.
  set (w1 := set_scheduler_jobs _ w) in E.
  pose proof (run_tally planetary_data gen today now users w1 tally0
                (NoDup_eligible w)) as T. cbv zeta in T.
  pose proof (run_frame planetary_data gen today now users w1 tally0) as Fr.
  cbv zeta in Fr. destruct Fr as (_ & Hjobs & _).
  fold users in E.
  set (res := foldl _ (w1, tally0) users) in *.
  change (filter (λ u, fails gen planetary_data w1 today u) users)
    with (filter (λ u, fails gen planetary_data w today u) users) in T.
  fold N F in T. simpl in T. destruct T as (T1 & T2 & T3 & T4).
  subst r. rewrite E. simpl. rewrite T1, T2, T3.
  split; [done |].
  split; [apply not_elem_of_dom, is_fresh |].
  exists (take 50 (errors res.2)). split.
  - rewrite lookup_alter_eq, Hjobs. subst w1. simpl.
    rewrite lookup_insert_eq. simpl. unfold complete. simpl.
    by rewrite T1, T2, T3.
  - rewrite length_take. lia.
Qed.

End OneRun.

(** Three eligible users, the generation fails for one: processed 3,
    success 2, failed 1, one log entry. *)
Example generate_daily_counts_3 :
  let r := generate_daily_horoscopes Sample.settings JNull Sample.flaky
             Sample.batch3_world 0 "2024-05-01" (Some "cron") in
  r.1 = Ok {| dr_ok := true; dr_date := "2024-05-01"; dr_processed := 3;
              dr_success := 2; dr_failed := 1 |}
  ∧ sj_error_log <$> scheduler_jobs r.2 !! fresh (dom (scheduler_jobs Sample.batch3_world))
    = Some (Some [("u2", "overloaded")])
  ∧ length (daily_horoscopes r.2) = 2%nat.
Proof. vm_compute. done. Qed.

Section TwoRuns.

Variable settings : Settings.
Variables (planetary1 planetary2 : jval).
Variables (gen1 gen2 : string * profile → jval → py_result).
Variables (today : string) (now1 now2 : Z).

(** The rows of an eligible user after one authorized run. *)
Lemma generate_daily_rows planetary_data gen now w u :
  u ∈ eligible w →
  existing (generate_daily_horoscopes settings planetary_data gen w now today
              (Some (app_secret_key settings))).2 u.1 today =
    match existing w u.1 today, gen u planetary_data with
    | [], Returns (PyDict d) => [new_row u.1 today now planetary_data d]
    | l, _ => l
    end.
Proof.
  intros Hu.
  pose proof (generate_daily_authorized settings planetary_data gen today now w)
    as E. cbv zeta in E. rewrite E.
  match type of E with
  | _ = (_, set_scheduler_jobs _ (foldl _ (?w1, _) _).1) =>
    exact (run_rows planetary_data gen today now (eligible w) w1 tally0 u
             (NoDup_eligible w) Hu)
  end.
Qed.

(** C4, as the code has it: two authorized runs on one date, from a store
    that holds at most one row per eligible user for that date, leave at most
    one row per eligible user, and exactly one for every user who had a row
    or whose generation returned a dict in one of the runs.  On the second
    run a user who has a row is skipped: no row is added for them and they
    are not counted as failed; the run still counts all [N] users as
    processed.  When every eligible user has a row after the first run, the
    second run adds nothing and replies with success [N], failed 0. *)
Theorem generate_daily_twice w0 :
  (∀ u, u ∈ eligible w0 → (length (existing w0 u.1 today) ≤ 1)%nat) →
  let secret := Some (app_secret_key settings) in
  let r1 := generate_daily_horoscopes settings planetary1 gen1 w0 now1 today
              secret in
  let r2 := generate_daily_horoscopes settings planetary2 gen2 r1.2 now2 today
              secret in
  let N := Z.of_nat (length (eligible w0)) in
  let F2 := Z.of_nat (length (filter (λ u, fails gen2 planetary2 r1.2 today u)
                                (eligible w0))) in
  (∀ u, u ∈ eligible w0 →
     (length (existing r2.2 u.1 today) ≤ 1)%nat
     ∧ (existing r1.2 u.1 today ≠ [] →
          existing r2.2 u.1 today = existing r1.2 u.1 today
          ∧ fails gen2 planetary2 r1.2 today u = false)
     ∧ (existing w0 u.1 today ≠ [] ∨ generated (gen1 u planetary1) = true
        ∨ generated (gen2 u planetary2) = true →
          length (existing r2.2 u.1 today) = 1%nat))
  ∧ r2.1 = Ok {| dr_ok := true; dr_date := today; dr_processed := N;
                 dr_success := N - F2; dr_failed := F2 |}
  ∧ ((∀ u, u ∈ eligible w0 → existing r1.2 u.1 today ≠ []) →
       daily_horoscopes r2.2 = daily_horoscopes r1.2
       ∧ r2.1 = Ok {| dr_ok := true; dr_date := today; dr_processed := N;
                      dr_success := N; dr_failed := 0 |}).
Proof.
  intros Hone secret r1 r2 N F2.
  assert (Hel : eligible r1.2 = eligible w0)
    by apply generate_daily_eligible.
  pose proof (generate_daily_counts settings planetary2 gen2 today now2 r1.2)
    as C. cbv zeta in C. rewrite Hel in C. fold secret r2 N F2 in C.
  destruct C as (Hreply & _).
  split; [| split; [exact Hreply |]].
  - intros u Hu.
    pose proof (generate_daily_rows planetary1 gen1 now1 w0 u Hu) as R1.
    fold secret r1 in R1.
    assert (Hu' : u ∈ eligible r1.2) by by rewrite Hel.
    pose proof (generate_daily_rows planetary2 gen2 now2 r1.2 u Hu') as R2.
    fold secret r2 in R2.
    specialize (Hone u Hu).
    split; [| split].
    + rewrite R2, R1.
      destruct (existing w0 u.1 today) as [|h0 l0];
        destruct (gen1 u planetary1) as [? | [? | ?]];
        destruct (gen2 u planetary2) as [? | [? | ?]]; simpl in *; lia.
    + intros Hne. split.
      * rewrite R2. by destruct (existing r1.2 u.1 today).
      * by apply step_fails_false_skip.
    + rewrite R2, R1. unfold generated.
      destruct (existing w0 u.1 today) as [|h0 [|h1 l0]];
        destruct (gen1 u planetary1) as [? | [? | ?]];
        destruct (gen2 u planetary2) as [? | [? | ?]]; simpl in *;
        try lia; try done; intros [? | [? | ?]]; done.
  - intros Hall.
    assert (HF2 : F2 = 0).
    { subst F2. rewrite filter_none; [done |].
      intros u Hu. rewrite step_fails_false_skip by by apply Hall.
      intros Hfalse. exact Hfalse. }
    split; [| by rewrite Hreply, HF2, Z.sub_0_r].
    pose proof (generate_daily_authorized settings planetary2 gen2 today now2
                  r1.2) as E. cbv zeta in E.
    subst r2 secret. rewrite E. simpl.
    rewrite run_all_skipped; [done |].
    intros u Hu. rewrite Hel in Hu. exact (Hall u Hu).
Qed.

End TwoRuns.

Lemma generate_daily_twice_witness :
  (∀ u, u ∈ eligible Sample.batch3_world →
        (length (existing Sample.batch3_world u.1 "2024-05-01") ≤ 1)%nat)
  ∧ let secret := Some (app_secret_key Sample.settings) in
    let r1 := generate_daily_horoscopes Sample.settings JNull Sample.flaky
                Sample.batch3_world 0 "2024-05-01" secret in
    let r2 := generate_daily_horoscopes Sample.settings JNull Sample.steady
                r1.2 1 "2024-05-01" secret in
    existing r1.2 "u2" "2024-05-01" = []
    ∧ length (existing r2.2 "u2" "2024-05-01") = 1%nat
    ∧ length (existing r2.2 "u1" "2024-05-01") = 1%nat
    ∧ r2.1 = Ok {| dr_ok := true; dr_date := "2024-05-01"; dr_processed := 3;
                   dr_success := 3; dr_failed := 0 |}.
Proof.
  assert (Hone : ∀ u, u ∈ eligible Sample.batch3_world →
            (length (existing Sample.batch3_world u.1 "2024-05-01") ≤ 1)%nat).
  { intros u _. unfold existing. simpl. lia. }
  split; [exact Hone |].
  pose proof (generate_daily_twice Sample.settings JNull JNull Sample.flaky
                Sample.steady "2024-05-01" 0 1 Sample.batch3_world Hone) as H.
  cbv zeta in *. destruct H as (Hrows & Hreply & _).
  assert (El : eligible Sample.batch3_world =
            [("u3", Sample.user "Carla" None); ("u1", Sample.user "Anna" None);
             ("u2", Sample.user "Bruno" None)]) by (vm_compute; reflexivity).
  assert (H1 : ("u1", Sample.user "Anna" None) ∈ eligible Sample.batch3_world).
  { rewrite El. apply elem_of_cons; right. apply elem_of_cons; left.
    reflexivity. }
  assert (H2 : ("u2", Sample.user "Bruno" None) ∈ eligible Sample.batch3_world).
  { rewrite El. do 2 (apply elem_of_cons; right). apply elem_of_cons; left.
    reflexivity. }
  destruct (Hrows _ H1) as (_ & _ & Hu1).
  destruct (Hrows _ H2) as (_ & _ & Hu2).
  split; [vm_compute; reflexivity |].
  split; [apply Hu2; right; right; reflexivity |].
  split; [apply Hu1; right; right; reflexivity |].
  rewrite Hreply. vm_compute. reflexivity.
Defined.

(** The claim as the spec words it, exactly one row per eligible user after
    two runs, fails when the generation fails for a user in both runs: the
    failure is caught each time and the user is left without a row. *)
Lemma generate_daily_twice_counterexample :
  let r1 := generate_daily_horoscopes Sample.settings JNull Sample.overloaded
              Sample.batch_world 0 "2024-05-01" (Some "cron") in
  let r2 := generate_daily_horoscopes Sample.settings JNull Sample.overloaded
              r1.2 1 "2024-05-01" (Some "cron") in
  eligible Sample.batch_world = [("u1", Sample.user "Anna" None)]
  ∧ r1.1 = Ok {| dr_ok := true; dr_date := "2024-05-01"; dr_processed := 1;
                 dr_success := 0; dr_failed := 1 |}
  ∧ r2.1 = Ok {| dr_ok := true; dr_date := "2024-05-01"; dr_processed := 1;
                 dr_success := 0; dr_failed := 1 |}
  ∧ length (existing r2.2 "u1" "2024-05-01") = 0%nat
  ∧ length (existing r2.2 "u1" "2024-05-01") ≠ 1%nat.
Proof. vm_compute. repeat split; done. Qed.

End SchedulerSpec.

(** ** Payment reconciliation *)

Module WebhooksSpec.
Import Webhooks.

Section Stripe.

Variable settings : Settings.
Variable construct_event : string → option string → string → string + stripe_event.
Variable py_int : string → option Z.

Abbreviation stripe_webhook := (stripe_webhook settings construct_event py_int).

(** C6: when the signature check raises, the handler answers 400 and the
    world is the one it was given: the check comes before every write.  When
    the check passes and the event kind is none of the three the handler
    knows, it acknowledges with [{"ok": True}] and changes nothing. *)
Theorem stripe_webhook_guard w payload stripe_signature :
  (∀ e, construct_event payload stripe_signature
          (stripe_webhook_secret settings) = inl e →
        stripe_webhook w payload stripe_signature =
          (HTTPException 400 ("Webhook signature invalida: " +:+ e), w))
  ∧ (∀ event, construct_event payload stripe_signature
                (stripe_webhook_secret settings) = inr event →
        ev_type event ≠ "checkout.session.completed" →
        ev_type event ≠ "customer.subscription.deleted" →
        ev_type event ≠ "invoice.payment_failed" →
        stripe_webhook w payload stripe_signature = (Ok true, w)).
Proof.
  split.
  - intros e He. unfold Webhooks.stripe_webhook. by rewrite He.
  - intros event He H1 H2 H3. unfold Webhooks.stripe_webhook. rewrite He.
    by rewrite !bool_decide_eq_false_2.
Qed.

End Stripe.

Lemma stripe_webhook_guard_witness :
  let hook := Webhooks.stripe_webhook Sample.settings Sample.verifier
                Sample.no_int in
  hook Sample.luna_world "{}" (Some "forged")
    = (HTTPException 400
         "Webhook signature invalida: No signatures found matching the expected signature for payload",
       Sample.luna_world)
  ∧ hook Sample.luna_world "{}" None
    = (HTTPException 400
         "Webhook signature invalida: No signatures found matching the expected signature for payload",
       Sample.luna_world)
  ∧ hook Sample.luna_world "{}" (Some "good") = (Ok true, Sample.luna_world).
Proof.
  intros hook.
  destruct (stripe_webhook_guard Sample.settings Sample.verifier Sample.no_int
              Sample.luna_world "{}" (Some "forged")) as [Hbad _].
  destruct (stripe_webhook_guard Sample.settings Sample.verifier Sample.no_int
              Sample.luna_world "{}" None) as [Hnone _].
  destruct (stripe_webhook_guard Sample.settings Sample.verifier Sample.no_int
              Sample.luna_world "{}" (Some "good")) as [_ Hgood].
  split; [exact (Hbad _ eq_refl) |].
  split; [exact (Hnone _ eq_refl) |].
  apply (Hgood Sample.unknown_event eq_refl); discriminate.
Defined.

End WebhooksSpec.

(** ** The Telegram link token *)

Module TelegramFacts.
Import Telegram.

(** A message that is [/start <token>] takes the linking branch. *)
Lemma telegram_webhook_start w now today m token :
  is_start_with token m →
  telegram_webhook w now today (Update (Some m)) =
    (Ok true,
     start_with_token w now (chat_id m) (default "" (username m))
       (default "" (first_name m)) token).
Proof.
  intros (Hpre & Htok & Hne). unfold telegram_webhook.
  rewrite Hpre, Htok. destruct token as [|a token']; done.
Qed.

(** The token held by one profile only is found on that profile. *)
Lemma with_token_found w token u p :
  profiles w !! u = Some p →
  p_telegram_link_token p = Some token →
  (∀ u' p', profiles w !! u' = Some p' →
            p_telegram_link_token p' = Some token → u' = u) →
  ∃ rest, with_token token w = (u, p) :: rest.
Proof.
  intros Hu Hp Huniq.
  assert (Hin : (u, p) ∈ with_token token w).
  { apply list_elem_of_filter. split; [done |]. by apply elem_of_map_to_list. }
  destruct (with_token token w) as [|[u' p'] rest] eqn:E.
  { by apply elem_of_nil in Hin. }
  assert (Hhd : (u', p') ∈ with_token token w) by (rewrite E; by left).
  apply list_elem_of_filter in Hhd as [Htok Hmap].
  apply elem_of_map_to_list in Hmap. simpl in Htok.
  assert (u' = u) as -> by by eapply Huniq.
  assert (p' = p) as -> by congruence.
  by exists rest.
Qed.

(** Once the holder's token is cleared, nobody holds it. *)
Lemma with_token_cleared w w' token u :
  profiles w' = alter clear_token u (profiles w) →
  (∀ u' p', profiles w !! u' = Some p' →
            p_telegram_link_token p' = Some token → u' = u) →
  with_token token w' = [].
Proof.
  intros Hprof Huniq. unfold with_token. rewrite Hprof.
  apply filter_none. intros [u' p'] Hin Htok. simpl in Htok.
  apply elem_of_map_to_list in Hin.
  destruct (decide (u' = u)) as [-> | Hne].
  - rewrite lookup_alter_eq in Hin.
    destruct (profiles w !! u) as [p|]; [| done].
    injection Hin as <-. done.
  - rewrite lookup_alter_ne in Hin by done.
    apply Hne. by eapply Huniq.
Qed.

End TelegramFacts.

Module TelegramSpec.
Import Telegram TelegramFacts.

(** C7: a link token is one-shot.  When [/start <token>] arrives and the
    token is held by one profile, the chat is connected to that profile and
    the profile's token is cleared; from then on no profile holds the token,
    so a second [/start] with the same token, from any chat, is answered with
    the invalid-code message only: no connection is created or updated and no
    profile changes. *)
Theorem link_token_one_shot w now1 now2 today1 today2 m1 m2 token u p :
  is_start_with token m1 →
  is_start_with token m2 →
  profiles w !! u = Some p →
  p_telegram_link_token p = Some token →
  (∀ u' p', profiles w !! u' = Some p' →
            p_telegram_link_token p' = Some token → u' = u) →
  let r1 := telegram_webhook w now1 today1 (Update (Some m1)) in
  let r2 := telegram_webhook r1.2 now2 today2 (Update (Some m2)) in
  r1.1 = Ok true
  ∧ profiles r1.2 !! u = Some (clear_token p)
  ∧ p_telegram_link_token (clear_token p) = None
  ∧ (∃ c, c ∈ telegram_connections r1.2 ∧ tc_chat_id c = chat_id m1
          ∧ tc_user_id c = u ∧ tc_status c = "active")
  ∧ with_token token r1.2 = []
  ∧ r2 = (Ok true, send_telegram_message (chat_id m2) MsgInvalidCode r1.2)
  ∧ telegram_connections r2.2 = telegram_connections r1.2
  ∧ profiles r2.2 = profiles r1.2.
Proof.
  intros Hm1 Hm2 Hu Hp Huniq r1 r2.
  destruct (with_token_found w token u p Hu Hp Huniq) as [rest Hfound].
  assert (Hr1 : r1 = (Ok true,
            send_telegram_message (chat_id m1) (MsgLinked (default "" (p_first_name p)))
              (set_profiles (alter clear_token u)
                 (match of_chat (chat_id m1) w with
                  | _ :: _ =>
                    set_telegram_connections
                      (fmap (relink (chat_id m1) u (default "" (username m1))
                               (default "" (first_name m1)) now1)) w
                  | [] =>
                    set_telegram_connections
                      (λ l, l ++ [ {| tc_user_id := u; tc_chat_id := chat_id m1;
                                      tc_username := default "" (username m1);
                                      tc_first_name := default "" (first_name m1);
                                      tc_status := "active";
                                      tc_connected_at := None |} ]) w
                  end)))).
  { subst r1. rewrite (telegram_webhook_start _ _ _ _ token) by done.
    unfold start_with_token. by rewrite Hfound. }
  assert (Hprof : profiles r1.2 = alter clear_token u (profiles w)).
  { rewrite Hr1. simpl. by destruct (of_chat (chat_id m1) w). }
  assert (Hnone : with_token token r1.2 = [])
    by by eapply with_token_cleared.
  assert (Hr2 : r2 = (Ok true,
            send_telegram_message (chat_id m2) MsgInvalidCode r1.2)).
  { subst r2. rewrite (telegram_webhook_start _ _ _ _ token) by done.
    unfold start_with_token. by rewrite Hnone. }
  split; [by rewrite Hr1 |].
  split; [by rewrite Hprof, lookup_alter_eq, Hu |].
  split; [done |].
  split.
  { rewrite Hr1. simpl.
    destruct (of_chat (chat_id m1) w) as [|c0 l0] eqn:Ec; simpl.
    - eexists. split; [apply elem_of_app; right; by left |]. done.
    - assert (Hc0 : c0 ∈ of_chat (chat_id m1) w) by (rewrite Ec; by left).
      apply list_elem_of_filter in Hc0 as [Hchat Hin].
      exists (relink (chat_id m1) u (default "" (username m1))
                (default "" (first_name m1)) now1 c0).
      split; [by apply list_elem_of_fmap_2 |].
      unfold relink. rewrite bool_decide_eq_true_2 by done. done. }
  split; [done |].
  split; [done |].
  by rewrite Hr2.
Qed.

Lemma link_token_one_shot_witness :
  is_start_with "tok123" (Sample.start_msg 42)
  ∧ is_start_with "tok123" (Sample.start_msg 77)
  ∧ profiles Sample.link_world !! "u1" = Some (Sample.user "Anna" (Some "tok123"))
  ∧ let r1 := telegram_webhook Sample.link_world 5 "2024-05-01"
                (Update (Some (Sample.start_msg 42))) in
    let r2 := telegram_webhook r1.2 6 "2024-05-01"
                (Update (Some (Sample.start_msg 77))) in
    p_telegram_link_token <$> profiles r1.2 !! "u1" = Some None
    ∧ r2 = (Ok true, send_telegram_message 77 MsgInvalidCode r1.2)
    ∧ telegram_connections r2.2 = telegram_connections r1.2.
Proof.
  assert (Hs : ∀ chat, is_start_with "tok123" (Sample.start_msg chat)).
  { intros chat. repeat split; done. }
  assert (Huniq : ∀ u' p', profiles Sample.link_world !! u' = Some p' →
            p_telegram_link_token p' = Some "tok123" → u' = "u1").
  { intros u' p' Hl _. simpl in Hl.
    destruct (decide (u' = "u1")) as [-> | Hne]; [done |].
    by rewrite lookup_insert_ne in Hl. }
  split; [apply Hs |]. split; [apply Hs |]. split; [reflexivity |].
  destruct (link_token_one_shot Sample.link_world 5 6 "2024-05-01" "2024-05-01"
              (Sample.start_msg 42) (Sample.start_msg 77) "tok123" "u1"
              (Sample.user "Anna" (Some "tok123")) (Hs 42) (Hs 77)
              eq_refl eq_refl Huniq)
    as (_ & Hcl & _ & _ & _ & Hr2 & Hconn & _).
  split; [by rewrite Hcl |]. split; [exact Hr2 | exact Hconn].
Defined.

End TelegramSpec.

(** * Further properties of the handlers *)

Module LunaExtra.
Import Luna LunaFacts.

(** X1: billing is monotone in the elapsed time, and from the first full
    minute on, one more minute of session costs exactly one more minute. *)
Theorem duration_min_monotone us1 us2 :
  us1 ≤ us2 →
  duration_min us1 ≤ duration_min us2
  ∧ (0 < us1 → duration_min (us1 + 60000000) = duration_min us1 + 1).
Proof.
  intros Hle. rewrite !duration_min_ceiling. unfold ceil_div. split.
  - assert ((- us2) / 60000000 ≤ (- us1) / 60000000)
      by (apply Z.div_le_mono; lia).
    lia.
  - intros Hpos.
    replace (- (us1 + 60000000)) with (- us1 + (-1) * 60000000) by lia.
    rewrite Z.div_add by lia.
    assert ((- us1) / 60000000 < 0) by (apply Z.div_lt_upper_bound; lia).
    lia.
Qed.

Lemma duration_min_monotone_witness :
  59000000 ≤ 61000000
  ∧ duration_min 59000000 ≤ duration_min 61000000
  ∧ duration_min (59000000 + 60000000) = duration_min 59000000 + 1.
Proof.
  assert (H : 59000000 ≤ 61000000) by lia.
  split; [exact H |].
  destruct (duration_min_monotone 59000000 61000000 H) as [Hm Hs].
  split; [exact Hm | apply Hs; lia].
Defined.



(** X3: [end_session] writes one session row and one subscription row only:
    every other session, every other caller's subscription and all stored
    messages are as before, whatever the outcome. *)
Theorem end_session_frame w now user body :
  let r := end_session w now user body in
  (∀ id, id ≠ es_session_id body →
         luna_sessions r.2 !! id = luna_sessions w !! id)
  ∧ (∀ other, other ≠ user →
              subscriptions r.2 !! other = subscriptions w !! other)
  ∧ luna_messages r.2 = luna_messages w
  ∧ profiles r.2 = profiles w.
Proof.
  unfold end_session.
  destruct (session_of w (es_session_id body) user) as [s|]; [| done].
  simpl. rewrite lookup_alter_eq.
  assert (Hs : ∀ id, id ≠ es_session_id body →
            alter (end_row now (duration_min (now - ls_created_at s)))
              (es_session_id body) (luna_sessions w) !! id
            = luna_sessions w !! id)
    by (intros id Hid; by rewrite lookup_alter_ne).
  assert (Hb : ∀ other, other ≠ user →
            alter (debit (duration_min (now - ls_created_at s))) user
              (subscriptions w) !! other
            = subscriptions w !! other)
    by (intros other Ho; by rewrite lookup_alter_ne).
  by destruct (subscriptions w !! user).
Qed.

Lemma end_session_frame_witness :
  let r := end_session SampleExtra.voice_world 61000000 "u1"
             {| es_session_id := "s1" |} in
  luna_sessions r.2 !! "s2" = luna_sessions SampleExtra.voice_world !! "s2"
  ∧ subscriptions r.2 !! "u2" = subscriptions SampleExtra.voice_world !! "u2"
  ∧ luna_messages r.2 = luna_messages SampleExtra.voice_world.
Proof.
  intros r.
  destruct (end_session_frame SampleExtra.voice_world 61000000 "u1"
              {| es_session_id := "s1" |}) as (Hs & Hb & Hm & _).
  split; [apply Hs; discriminate |]. split; [apply Hb; discriminate | exact Hm].
Defined.

(** The history of a session after two rows were appended to the table. *)
Lemma history_snoc2 w w' sid sid' m1 m2 :
  luna_messages w' = luna_messages w ++ [m1; m2] →
  lm_session_id m1 = sid →
  lm_session_id m2 = sid →
  history w' sid' =
    history w sid' ++
      (if decide (sid = sid')
       then [(lm_role m1, lm_content m1); (lm_role m2, lm_content m2)]
       else []).
Proof.
  intros Hw' H1 H2. unfold history. rewrite Hw', filter_app, fmap_app.
  f_equal. destruct (decide (sid = sid')) as [Heq | Hne].
  - rewrite !filter_cons_True by congruence. done.
  - rewrite !filter_cons_False by congruence. done.
Qed.

Section Turn.

Variable messages_create :
  string → list (string * string) → option (string * Z * Z).
Variable text_to_speech : string → option Z.

Abbreviation send_message := (send_message messages_create text_to_speech).

(** X4: a turn is grounded in the snapshot stored with the session, not in
    the current profile: editing the profiles table in any way changes neither
    the outcome of a turn nor what it writes or sends. *)
Theorem send_message_ignores_profiles (f : gmap string profile → gmap string profile)
    w user body :
  send_message (set_profiles f w) user body =
    ((send_message w user body).1, set_profiles f (send_message w user body).2).
Proof.
  unfold Luna.send_message, active_session_of, session_of. simpl.
  destruct (luna_sessions w !! sm_session_id body) as [s|]; [| done].
  case_bool_decide; [| done]. case_bool_decide; [| done].
  destruct (subscriptions w !! user) as [sub|] eqn:Esub; simpl; [| done].
  destruct (sub_luna_minutes_balance sub <? 1); simpl; [done |].
  unfold history. simpl.
  destruct (messages_create _ _) as [[[reply_text tin] tout]|]; [| done].
  destruct (ls_voice_used s); simpl; rewrite Esub; done.
Qed.

(** A turn that passes both checks, spelled out. *)
Lemma send_message_passed w user body s sub :
  luna_sessions w !! sm_session_id body = Some s →
  ls_user_id s = user →
  ls_status s = "active" →
  subscriptions w !! user = Some sub →
  1 ≤ sub_luna_minutes_balance sub →
  let sid := sm_session_id body in
  let system := LUNA_SYSTEM_PROMPT_format (default "" (ls_context_snapshot s)) in
  let messages := history w sid ++ [("user", message body)] in
  let w1 := emit (CallMessagesCreate system messages) w in
  send_message w user body =
    match messages_create system messages with
    | None => (Unhandled "anthropic", w1)
    | Some (reply_text, tin, tout) =>
      let audio :=
        if ls_voice_used s then generate_voice text_to_speech reply_text
        else None in
      let w2 := if ls_voice_used s then emit (CallTextToSpeech reply_text) w1
                else w1 in
      (Ok {| reply := reply_text; audio_url := audio;
             minutes_remaining := sub_luna_minutes_balance sub |},
       set_luna_sessions
         (alter (count_row (default 0 (ls_messages_count s) + 1)) sid)
         (set_luna_messages
            (λ l, l ++ [ {| lm_session_id := sid; lm_user_id := user;
                            lm_role := "user"; lm_content := message body;
                            lm_audio_url := None; lm_tokens_used := None |};
                         {| lm_session_id := sid; lm_user_id := user;
                            lm_role := "assistant"; lm_content := reply_text;
                            lm_audio_url := audio;
                            lm_tokens_used := Some (tin + tout) |} ])
            w2))
    end.
Proof.
  intros Hs Hu Hst Hsub Hbal sid system messages w1.
  assert (Ha : active_session_of w sid user = Some s)
    by by apply active_session_of_Some.
  unfold Luna.send_message. fold sid. rewrite Ha, Hsub. simpl.
  assert (Hlt : (sub_luna_minutes_balance sub <? 1) = false)
    by (apply Z.ltb_ge; lia).
  rewrite Hlt. simpl. fold system messages.
  destruct (messages_create system messages) as [[[reply_text tin] tout]|];
    [| done].
  destruct (ls_voice_used s); simpl; rewrite Hsub; simpl;
    unfold set_luna_messages, set_luna_sessions; simpl;
    by rewrite <- app_assoc.
Qed.

(** X5: when the text-completion call raises, the turn ends in an uncaught
    exception and nothing is stored: the user message is saved only after the
    reply has arrived, so a failed call leaves no message row and no counter
    update behind. *)
Theorem send_message_model_raises w user body s sub :
  luna_sessions w !! sm_session_id body = Some s →
  ls_user_id s = user →
  ls_status s = "active" →
  subscriptions w !! user = Some sub →
  1 ≤ sub_luna_minutes_balance sub →
  messages_create
    (LUNA_SYSTEM_PROMPT_format (default "" (ls_context_snapshot s)))
    (history w (sm_session_id body) ++ [("user", message body)]) = None →
  let r := send_message w user body in
  r.1 = Unhandled "anthropic"
  ∧ luna_messages r.2 = luna_messages w
  ∧ luna_sessions r.2 = luna_sessions w
  ∧ subscriptions r.2 = subscriptions w.
Proof.
  intros Hs Hu Hst Hsub Hbal Hnone r. subst r.
  rewrite (send_message_passed w user body s sub) by done.
  cbv zeta. by rewrite Hnone.
Qed.

(** X6: a completed turn appends the user message and the reply, in this
    order, to the history of its session and leaves the history of every
    other session alone; the counter of the session goes up by one.  The
    model is called with the stored snapshot as system prompt and the history
    so far followed by the new user message. *)
Theorem send_message_appends_history w user body s sub reply_text tin tout :
  luna_sessions w !! sm_session_id body = Some s →
  ls_user_id s = user →
  ls_status s = "active" →
  subscriptions w !! user = Some sub →
  1 ≤ sub_luna_minutes_balance sub →
  messages_create
    (LUNA_SYSTEM_PROMPT_format (default "" (ls_context_snapshot s)))
    (history w (sm_session_id body) ++ [("user", message body)])
  = Some (reply_text, tin, tout) →
  let r := send_message w user body in
  history r.2 (sm_session_id body)
    = history w (sm_session_id body)
      ++ [("user", message body); ("assistant", reply_text)]
  ∧ (∀ sid', sid' ≠ sm_session_id body → history r.2 sid' = history w sid')
  ∧ ls_messages_count <$> luna_sessions r.2 !! sm_session_id body
    = Some (Some (default 0 (ls_messages_count s) + 1))
  ∧ (∃ rest, calls r.2 = calls w ++
       CallMessagesCreate
         (LUNA_SYSTEM_PROMPT_format (default "" (ls_context_snapshot s)))
         (history w (sm_session_id body) ++ [("user", message body)])
       :: rest).
Proof.
  intros Hs Hu Hst Hsub Hbal Hsome r. subst r.
  rewrite (send_message_passed w user body s sub) by done.
  cbv zeta. rewrite Hsome.
  set (audio := if ls_voice_used s then generate_voice text_to_speech reply_text
                else None).
  set (w2 := if ls_voice_used s
             then emit (CallTextToSpeech reply_text) (emit _ w) else emit _ w).
  assert (Hw2 : luna_messages w2 = luna_messages w)
    by (subst w2; by destruct (ls_voice_used s)).
  assert (Hall : ∀ sid' W,
            luna_messages W = luna_messages w2 ++
              [ {| lm_session_id := sm_session_id body; lm_user_id := user;
                   lm_role := "user"; lm_content := message body;
                   lm_audio_url := None; lm_tokens_used := None |};
                {| lm_session_id := sm_session_id body; lm_user_id := user;
                   lm_role := "assistant"; lm_content := reply_text;
                   lm_audio_url := audio;
                   lm_tokens_used := Some (tin + tout) |} ] →
            history W sid' =
              history w sid' ++
                (if decide (sm_session_id body = sid')
                 then [("user", message body); ("assistant", reply_text)]
                 else [])).
  { intros sid' W HW. rewrite Hw2 in HW.
    by rewrite (history_snoc2 w W (sm_session_id body) sid' _ _ HW eq_refl
                  eq_refl). }
  simpl. split; [| split; [| split]].
  - rewrite Hall by done. by rewrite decide_True.
  - intros sid' Hne. rewrite Hall by done.
    rewrite decide_False by done. by rewrite app_nil_r.
  - assert (Hs2 : luna_sessions w2 = luna_sessions w)
      by (subst w2; by destruct (ls_voice_used s)).
    by rewrite lookup_alter_eq, Hs2, Hs.
  - subst w2. destruct (ls_voice_used s); simpl; eexists;
      by rewrite <- ?app_assoc.
Qed.

(** X7: the speech call is made only for sessions started with voice, and its
    failure is swallowed: the turn completes either way, with an audio
    reference exactly when the speech service answered 200. *)
Theorem send_message_voice w user body s sub reply_text tin tout :
  luna_sessions w !! sm_session_id body = Some s →
  ls_user_id s = user →
  ls_status s = "active" →
  subscriptions w !! user = Some sub →
  1 ≤ sub_luna_minutes_balance sub →
  messages_create
    (LUNA_SYSTEM_PROMPT_format (default "" (ls_context_snapshot s)))
    (history w (sm_session_id body) ++ [("user", message body)])
  = Some (reply_text, tin, tout) →
  let r := send_message w user body in
  ∃ audio,
    r.1 = Ok {| reply := reply_text; audio_url := audio;
                minutes_remaining := sub_luna_minutes_balance sub |}
    ∧ (audio = Some "audio_generated" ↔
         ls_voice_used s = true ∧ text_to_speech reply_text = Some 200)
    ∧ (audio = None ∨ audio = Some "audio_generated")
    ∧ (CallTextToSpeech reply_text ∈ calls r.2 ↔
         ls_voice_used s = true ∨ CallTextToSpeech reply_text ∈ calls w).
Proof.
  intros Hs Hu Hst Hsub Hbal Hsome r. subst r.
  rewrite (send_message_passed w user body s sub) by done.
  cbv zeta. rewrite Hsome. eexists. split; [reflexivity |].
  unfold generate_voice.
  destruct (ls_voice_used s); simpl.
  - split; [| split].
    + destruct (text_to_speech reply_text) as [[|p|p]|] eqn:E;
        try (split; [done | intros [_ [=]]]).
      destruct (decide (p = 200%positive)) as [-> | Hne].
      * done.
      * assert (Hno : match p with
                      | 200%positive => Some "audio_generated"
                      | _ => None
                      end = (None : option string)).
        { do 8 (destruct p as [p | p |]; try done). }
        cbv beta iota in Hno |- *. rewrite Hno.
        split; [done | intros [_ [= ->]]; done].
    + destruct (text_to_speech reply_text) as [[|p|p]|]; try (by left).
      do 8 (destruct p as [p | p |]; try (by left)); by right.
    + rewrite !elem_of_app, !list_elem_of_singleton. split; [by left | tauto].
  - split; [| split].
    + split; [done | intros [[=] _]].
    + by left.
    + rewrite !elem_of_app, !list_elem_of_singleton. split.
      * intros [? | [=]]. by right.
      * intros [[=] | ?]. by left.
Qed.

End Turn.

Lemma send_message_model_raises_witness :
  luna_sessions Sample.luna_world !! "s1" = Some Sample.session1
  ∧ subscriptions Sample.luna_world !! "u1" = Some Sample.sub15
  ∧ let r := send_message SampleExtra.silent Sample.mute Sample.luna_world "u1"
               {| sm_session_id := "s1"; message := "Ciao Luna" |} in
    r.1 = Unhandled "anthropic"
    ∧ luna_messages r.2 = luna_messages Sample.luna_world
    ∧ luna_sessions r.2 = luna_sessions Sample.luna_world.
Proof.
  split; [reflexivity |]. split; [reflexivity |].
  destruct (send_message_model_raises SampleExtra.silent Sample.mute
              Sample.luna_world "u1"
              {| sm_session_id := "s1"; message := "Ciao Luna" |}
              Sample.session1 Sample.sub15 eq_refl eq_refl eq_refl eq_refl
              ltac:(vm_compute; discriminate) eq_refl)
    as (H1 & H2 & H3 & _).
  split; [exact H1 |]. split; [exact H2 | exact H3].
Defined.

Lemma send_message_appends_history_witness :
  luna_sessions Sample.luna_world !! "s1" = Some Sample.session1
  ∧ subscriptions Sample.luna_world !! "u1" = Some Sample.sub15
  ∧ let r := send_message Sample.echo Sample.mute Sample.luna_world "u1"
               {| sm_session_id := "s1"; message := "Ciao Luna" |} in
    history r.2 "s1" = [("user", "Ciao Luna"); ("assistant", "Ciao")]
    ∧ ls_messages_count <$> luna_sessions r.2 !! "s1" = Some (Some 1).
Proof.
  split; [reflexivity |]. split; [reflexivity |].
  destruct (send_message_appends_history Sample.echo Sample.mute
              Sample.luna_world "u1"
              {| sm_session_id := "s1"; message := "Ciao Luna" |}
              Sample.session1 Sample.sub15 "Ciao" 10 5
              eq_refl eq_refl eq_refl eq_refl
              ltac:(vm_compute; discriminate) eq_refl)
    as (H1 & _ & H3 & _).
  split; [exact H1 | exact H3].
Defined.

Lemma send_message_voice_witness :
  luna_sessions SampleExtra.voice_world !! "s1" = Some SampleExtra.voice_session
  ∧ subscriptions SampleExtra.voice_world !! "u1" = Some Sample.sub15
  ∧ (send_message Sample.echo SampleExtra.speaks SampleExtra.voice_world "u1"
       {| sm_session_id := "s1"; message := "Ciao Luna" |}).1
    = Ok {| reply := "Ciao"; audio_url := Some "audio_generated";
            minutes_remaining := 15 |}
  ∧ (send_message Sample.echo SampleExtra.hoarse SampleExtra.voice_world "u1"
       {| sm_session_id := "s1"; message := "Ciao Luna" |}).1
    = Ok {| reply := "Ciao"; audio_url := None; minutes_remaining := 15 |}.
Proof.
  split; [reflexivity |]. split; [reflexivity |].
  destruct (send_message_voice Sample.echo SampleExtra.speaks
              SampleExtra.voice_world "u1"
              {| sm_session_id := "s1"; message := "Ciao Luna" |}
              SampleExtra.voice_session Sample.sub15 "Ciao" 10 5
              eq_refl eq_refl eq_refl eq_refl
              ltac:(vm_compute; discriminate) eq_refl)
    as (a1 & Hr1 & Ha1 & _).
  destruct (send_message_voice Sample.echo SampleExtra.hoarse
              SampleExtra.voice_world "u1"
              {| sm_session_id := "s1"; message := "Ciao Luna" |}
              SampleExtra.voice_session Sample.sub15 "Ciao" 10 5
              eq_refl eq_refl eq_refl eq_refl
              ltac:(vm_compute; discriminate) eq_refl)
    as (a2 & Hr2 & Ha2 & [-> | ->] & _).
  - split; [| exact Hr2].
    rewrite Hr1. destruct Ha1 as [_ Ha1]. by rewrite Ha1.
  - destruct Ha2 as [Ha2 _]. destruct (Ha2 eq_refl) as [_ Hbad].
    discriminate Hbad.
Defined.

End LunaExtra.

Module TelegramExtra.
Import Telegram TelegramFacts.

Lemma oroscopo_not_active w today chat :
  (∀ conn rest, of_chat chat w = conn :: rest → tc_status conn ≠ "active") →
  oroscopo w today chat = send_telegram_message chat MsgNonIscritto w.
Proof.
  intros Hin. unfold oroscopo.
  destruct (of_chat chat w) as [|conn rest]; [done |].
  rewrite bool_decide_eq_false_2 by by eapply Hin. done.
Qed.

(** The linking branch when the token is held by one profile. *)
Lemma start_with_token_found w now chat username first_name token u p :
  profiles w !! u = Some p →
  p_telegram_link_token p = Some token →
  (∀ u' p', profiles w !! u' = Some p' →
            p_telegram_link_token p' = Some token → u' = u) →
  start_with_token w now chat username first_name token =
    send_telegram_message chat (MsgLinked (default "" (p_first_name p)))
      (set_profiles (alter clear_token u)
         (match of_chat chat w with
          | _ :: _ =>
            set_telegram_connections
              (fmap (relink chat u username first_name now)) w
          | [] =>
            set_telegram_connections
              (λ l, l ++ [ {| tc_user_id := u; tc_chat_id := chat;
                              tc_username := username;
                              tc_first_name := first_name;
                              tc_status := "active";
                              tc_connected_at := None |} ]) w
          end)).
Proof.
  intros Hu Hp Huniq.
  destruct (with_token_found w token u p Hu Hp Huniq) as [rest Hfound].
  unfold start_with_token. by rewrite Hfound.
Qed.


(** X9: [/stop] pauses every connection of the chat it comes from and no
    other, and answers with the stop notice; profiles are not touched. *)
Theorem telegram_stop w now today m :
  strip (default "" (text m)) = "/stop" →
  let r := telegram_webhook w now today (Update (Some m)) in
  telegram_connections r.2
    = set_status (chat_id m) "paused" <$> telegram_connections w
  ∧ (∀ c, c ∈ telegram_connections r.2 → tc_chat_id c = chat_id m →
          tc_status c = "paused")
  ∧ (∀ c, c ∈ telegram_connections w → tc_chat_id c ≠ chat_id m →
          c ∈ telegram_connections r.2)
  ∧ length (telegram_connections r.2) = length (telegram_connections w)
  ∧ calls r.2 = calls w ++ [CallSendTelegram (chat_id m) MsgStop]
  ∧ profiles r.2 = profiles w.
Proof.
  intros Ht r. subst r. unfold telegram_webhook. rewrite Ht. simpl.
  split; [done |]. split; [| split; [| split; [| done]]].
  - intros c Hc Hchat. apply list_elem_of_fmap in Hc as (c0 & -> & _).
    unfold set_status in *. case_bool_decide; [done |]. simpl in Hchat. done.
  - intros c Hc Hne. apply list_elem_of_fmap. exists c. split; [| done].
    unfold set_status. by rewrite bool_decide_eq_false_2.
  - by rewrite length_fmap.
Qed.

(** X10: [/oroscopo] shows a horoscope to an active chat only.  When the
    chat has no connection, or its first connection is not [active] (paused
    by [/stop], blocked by a disconnect), the reply is the not-subscribed
    notice and nothing is written. *)
Theorem telegram_oroscopo_inactive w now today m :
  strip (default "" (text m)) = "/oroscopo" →
  (∀ conn rest, of_chat (chat_id m) w = conn :: rest →
                tc_status conn ≠ "active") →
  telegram_webhook w now today (Update (Some m))
    = (Ok true, send_telegram_message (chat_id m) MsgNonIscritto w).
Proof.
  intros Ht Hin. unfold telegram_webhook. rewrite Ht. simpl.
  by rewrite oroscopo_not_active.
Qed.



Lemma telegram_stop_witness :
  strip (default "" (text (SampleExtra.cmd 42 "/stop"))) = "/stop"
  ∧ let r := telegram_webhook SampleExtra.chat_world 0 "2024-05-01"
               (Update (Some (SampleExtra.cmd 42 "/stop"))) in
    telegram_connections r.2
      = [SampleExtra.conn "u1" 42 "paused"; SampleExtra.conn "u2" 43 "paused"]
    ∧ calls r.2 = [CallSendTelegram 42 MsgStop].
Proof.
  split; [reflexivity |].
  destruct (telegram_stop SampleExtra.chat_world 0 "2024-05-01"
              (SampleExtra.cmd 42 "/stop") eq_refl)
    as (Hc & _ & _ & _ & Hs & _).
  split; [rewrite Hc; reflexivity | exact Hs].
Defined.

Lemma telegram_oroscopo_inactive_witness :
  strip (default "" (text (SampleExtra.cmd 43 "/oroscopo"))) = "/oroscopo"
  ∧ telegram_webhook SampleExtra.chat_world 0 "2024-05-01"
      (Update (Some (SampleExtra.cmd 43 "/oroscopo")))
    = (Ok true, send_telegram_message 43 MsgNonIscritto SampleExtra.chat_world).
Proof.
  split; [reflexivity |].
  apply (telegram_oroscopo_inactive SampleExtra.chat_world 0 "2024-05-01"
           (SampleExtra.cmd 43 "/oroscopo") eq_refl).
  intros conn rest [= <- _]. discriminate.
Defined.



(** X13: [/start <token>] never duplicates a chat.  When the chat is already
    known, its connections are rewritten to the token's owner, set active and
    stamped, and no row is added; when it is new, one active row is appended.
    Connections of other chats are never touched, and the reply greets the
    owner by first name. *)
Theorem start_with_token_relinks w now today m token u p :
  is_start_with token m →
  profiles w !! u = Some p →
  p_telegram_link_token p = Some token →
  (∀ u' p', profiles w !! u' = Some p' →
            p_telegram_link_token p' = Some token → u' = u) →
  let r := telegram_webhook w now today (Update (Some m)) in
  (of_chat (chat_id m) w ≠ [] →
     length (telegram_connections r.2) = length (telegram_connections w)
     ∧ ∀ c, c ∈ telegram_connections r.2 → tc_chat_id c = chat_id m →
            tc_user_id c = u ∧ tc_status c = "active"
            ∧ tc_connected_at c = Some now)
  ∧ (of_chat (chat_id m) w = [] →
     telegram_connections r.2 =
       telegram_connections w ++
         [ {| tc_user_id := u; tc_chat_id := chat_id m;
              tc_username := default "" (username m);
              tc_first_name := default "" (first_name m);
              tc_status := "active"; tc_connected_at := None |} ])
  ∧ (∀ c, c ∈ telegram_connections w → tc_chat_id c ≠ chat_id m →
          c ∈ telegram_connections r.2)
  ∧ calls r.2 = calls w ++
      [CallSendTelegram (chat_id m) (MsgLinked (default "" (p_first_name p)))].
Proof.
  intros Hm Hu Hp Huniq r. subst r.
  rewrite (telegram_webhook_start _ _ _ _ token) by done.
  rewrite (start_with_token_found _ _ _ _ _ token u p) by done. simpl.
  destruct (of_chat (chat_id m) w) as [|c0 l0] eqn:Ec; simpl.
  - split; [done |]. split; [done |]. split; [| done].
    intros c Hc _. apply elem_of_app. by left.
  - split; [| split; [done |]; split; [| done]].
    + intros _. split; [by rewrite length_fmap |].
      intros c Hc Hchat. apply list_elem_of_fmap in Hc as (c' & -> & _).
      unfold relink in *. case_bool_decide; [done |]. simpl in Hchat. done.
    + intros c Hc Hne. apply list_elem_of_fmap. exists c. split; [| done].
      unfold relink. by rewrite bool_decide_eq_false_2.
Qed.

Lemma start_with_token_relinks_witness :
  is_start_with "tok123" (Sample.start_msg 42)
  ∧ profiles Sample.link_world !! "u1" = Some (Sample.user "Anna" (Some "tok123"))
  ∧ let r := telegram_webhook Sample.link_world 5 "2024-05-01"
               (Update (Some (Sample.start_msg 42))) in
    telegram_connections r.2 =
      [ {| tc_user_id := "u1"; tc_chat_id := 42; tc_username := "anna";
           tc_first_name := "Anna"; tc_status := "active";
           tc_connected_at := None |} ]
    ∧ calls r.2 = [CallSendTelegram 42 (MsgLinked "Anna")].
Proof.
  assert (Hs : is_start_with "tok123" (Sample.start_msg 42))
    by (repeat split; done).
  assert (Huniq : ∀ u' p', profiles Sample.link_world !! u' = Some p' →
            p_telegram_link_token p' = Some "tok123" → u' = "u1").
  { intros u' p' Hl _. simpl in Hl.
    destruct (decide (u' = "u1")) as [-> | Hne]; [done |].
    by rewrite lookup_insert_ne in Hl. }
  split; [exact Hs |]. split; [reflexivity |].
  destruct (start_with_token_relinks Sample.link_world 5 "2024-05-01"
              (Sample.start_msg 42) "tok123" "u1"
              (Sample.user "Anna" (Some "tok123")) Hs eq_refl eq_refl Huniq)
    as (_ & Hnew & _ & Hcalls).
  split; [exact (Hnew eq_refl) | exact Hcalls].
Defined.

End TelegramExtra.

Module TelegramAccountExtra.
Import Telegram TelegramFacts TelegramAccount.

Lemma urlsafe_char_not_space a :
  urlsafe_char a = true → py_isspace a = false ∧ a ≠ " "%char.
Proof.
  destruct a as [[] [] [] [] [] [] [] []]; vm_compute; intros H;
    (discriminate H || (split; [reflexivity | discriminate])).
Qed.

Lemma lstrip_urlsafe s : urlsafe s = true → lstrip s = s.
Proof.
  destruct s as [|a s']; [done |]. simpl. intros [Ha _]%andb_prop.
  apply urlsafe_char_not_space in Ha as [-> _]. done.
Qed.

Lemma rstrip_urlsafe s : urlsafe s = true → rstrip s = s.
Proof.
  induction s as [|a s' IH]; [done |]. simpl. intros [Ha Hs]%andb_prop.
  rewrite IH by done. apply urlsafe_char_not_space in Ha as [-> _].
  by destruct s'.
Qed.

Lemma rstrip_fixed_cons a s :
  rstrip s = s → s ≠ "" → rstrip (String a s) = String a s.
Proof. simpl. intros -> Hne. by destruct s. Qed.

(** The text [/start <token>] that [generate_link_token] tells the user to
    send is read back by the webhook as that token. *)
Lemma start_text_recognised tok m :
  urlsafe tok = true → tok ≠ "" →
  text m = Some ("/start " +:+ tok) →
  is_start_with tok m.
Proof.
  intros Hsafe Hne Ht. unfold is_start_with. rewrite Ht. simpl.
  assert (Hstrip : strip ("/start " +:+ tok) = "/start " +:+ tok).
  { unfold strip.
    assert (Hr : rstrip ("/start " +:+ tok) = "/start " +:+ tok).
    { simpl String.app.
      repeat (apply rstrip_fixed_cons; [| done]). by apply rstrip_urlsafe. }
    by rewrite Hr. }
  rewrite Hstrip. split; [done |]. split; [| done].
  unfold start_token. simpl. unfold strip.
  by rewrite rstrip_urlsafe, lstrip_urlsafe.
Qed.

(** X14: the link round trip.  After [generate_link_token] stored a fresh
    url-safe token on the caller's profile, the message [/start <token>] from
    any chat connects that chat to the caller, clears the token again and
    greets the caller. *)
Theorem generated_token_links w now today user p tok get_me m :
  profiles w !! user = Some p →
  urlsafe tok = true → tok ≠ "" →
  (∀ u' p', u' ≠ user → profiles w !! u' = Some p' →
            p_telegram_link_token p' ≠ Some tok) →
  text m = Some ("/start " +:+ tok) →
  let g := generate_link_token w user tok get_me in
  let r := telegram_webhook g.2 now today (Update (Some m)) in
  (∃ reply, g.1 = Ok reply ∧ token reply = tok)
  ∧ p_telegram_link_token <$> profiles g.2 !! user = Some (Some tok)
  ∧ r.1 = Ok true
  ∧ p_telegram_link_token <$> profiles r.2 !! user = Some None
  ∧ (∃ c, c ∈ telegram_connections r.2 ∧ tc_chat_id c = chat_id m
          ∧ tc_user_id c = user ∧ tc_status c = "active")
  ∧ calls r.2 = calls w ++
      [CallSendTelegram (chat_id m) (MsgLinked (default "" (p_first_name p)))].
Proof.
  intros Hu Hsafe Hne Hfresh Ht g r.
  assert (Hm : is_start_with tok m) by by apply start_text_recognised.
  assert (Hg : profiles g.2 !! user = Some (set_token tok p)).
  { subst g. simpl. by rewrite lookup_alter_eq, Hu. }
  assert (Huniq : ∀ u' p', profiles g.2 !! u' = Some p' →
            p_telegram_link_token p' = Some tok → u' = user).
  { intros u' p' Hl Htok. destruct (decide (u' = user)) as [-> | Hn]; [done |].
    subst g. simpl in Hl. rewrite lookup_alter_ne in Hl by done.
    by destruct (Hfresh u' p' Hn Hl). }
  assert (Hcalls : calls g.2 = calls w) by done.
  split; [by eexists |]. split; [by rewrite Hg |].
  subst r. remember g.2 as G eqn:EG. clear EG g.
  rewrite (telegram_webhook_start _ _ _ _ tok) by done.
  rewrite (TelegramExtra.start_with_token_found _ _ _ _ _ tok user
             (set_token tok p)) by done.
  simpl. split; [done |]. split; [| split].
  - destruct (of_chat (chat_id m) G); simpl;
      by rewrite lookup_alter_eq, Hg.
  - destruct (of_chat (chat_id m) G) as [|c0 l0] eqn:Ec; simpl.
    + eexists. split; [apply elem_of_app; right; by left |]. done.
    + assert (Hc0 : c0 ∈ of_chat (chat_id m) G) by (rewrite Ec; by left).
      apply list_elem_of_filter in Hc0 as [Hchat Hin].
      exists (relink (chat_id m) user (default "" (username m))
                (default "" (first_name m)) now c0).
      split; [by apply list_elem_of_fmap_2 |].
      unfold relink. rewrite bool_decide_eq_true_2 by done. done.
  - destruct (of_chat (chat_id m) G); simpl; by rewrite Hcalls.
Qed.

(** X15: asking for a new link token revokes the previous one: once the
    caller's profile carries the new token, [/start] with the old one is
    answered with the invalid-code notice and connects nothing. *)
Theorem regenerated_token_revokes w now today user p old tok get_me m :
  profiles w !! user = Some p →
  p_telegram_link_token p = Some old →
  (∀ u' p', profiles w !! u' = Some p' →
            p_telegram_link_token p' = Some old → u' = user) →
  tok ≠ old →
  is_start_with old m →
  let g := generate_link_token w user tok get_me in
  telegram_webhook g.2 now today (Update (Some m))
    = (Ok true, send_telegram_message (chat_id m) MsgInvalidCode g.2).
Proof.
  intros Hu Hold Huniq Hne Hm g.
  rewrite (telegram_webhook_start _ _ _ _ old) by done.
  unfold start_with_token.
  assert (Hnone : with_token old g.2 = []).
  { unfold with_token. subst g. simpl. apply filter_none.
    intros [u' p'] Hin Htok. simpl in Htok.
    apply elem_of_map_to_list in Hin.
    destruct (decide (u' = user)) as [-> | Hn].
    - rewrite lookup_alter_eq, Hu in Hin. injection Hin as <-.
      simpl in Htok. congruence.
    - rewrite lookup_alter_ne in Hin by done. apply Hn. by eapply Huniq. }
  by rewrite Hnone.
Qed.

Lemma block_user_id u c : tc_user_id (block u c) = tc_user_id c.
Proof. unfold block. by case_bool_decide. Qed.

Lemma block_chat_id u c : tc_chat_id (block u c) = tc_chat_id c.
Proof. unfold block. by case_bool_decide. Qed.

Lemma filter_fmap_commute {A} (P : A → Prop) `{!∀ x, Decision (P x)}
    (f : A → A) (l : list A) :
  (∀ x, P (f x) ↔ P x) → filter P (f <$> l) = f <$> filter P l.
Proof.
  intros Hf. induction l as [|a l IH]; [done |]. csimpl.
  destruct (decide (P a)) as [Ha | Ha].
  - rewrite (filter_cons_True P (f a)) by by apply Hf.
    rewrite (filter_cons_True P a) by done. csimpl. by rewrite IH.
  - rewrite (filter_cons_False P (f a)) by (intros Hfa; by apply Ha, Hf).
    by rewrite (filter_cons_False P a) by done.
Qed.

(** X16: a disconnect keeps every connection row and sets those of the
    caller to [blocked]; [telegram_status] then reports [blocked] (or
    not-connected when the caller never had a row), and [/oroscopo] from a
    chat whose first connection is the caller's gets the not-subscribed
    notice. *)
Theorem disconnect_blocks w now today user m :
  let d := disconnect_telegram w user in
  telegram_connections d.2 = block user <$> telegram_connections w
  ∧ (∀ c, c ∈ telegram_connections d.2 → tc_user_id c = user →
          tc_status c = "blocked")
  ∧ (∀ c, c ∈ telegram_connections w → tc_user_id c ≠ user →
          c ∈ telegram_connections d.2)
  ∧ (telegram_status d.2 user).1 =
      match filter (λ c, tc_user_id c = user) (telegram_connections w) with
      | c :: _ => Ok (Connected (tc_chat_id c) (tc_username c) "blocked"
                        (tc_connected_at c))
      | [] => Ok NotConnected
      end
  ∧ (strip (default "" (text m)) = "/oroscopo" →
     (∀ conn rest, of_chat (chat_id m) w = conn :: rest →
                   tc_user_id conn = user) →
     telegram_webhook d.2 now today (Update (Some m))
       = (Ok true, send_telegram_message (chat_id m) MsgNonIscritto d.2)).
Proof.
  intros d. subst d. simpl. split; [done |]. split; [| split; [| split]].
  - intros c Hc Hu. apply list_elem_of_fmap in Hc as (c0 & -> & _).
    rewrite block_user_id in Hu. unfold block.
    by rewrite bool_decide_eq_true_2.
  - intros c Hc Hne. apply list_elem_of_fmap. exists c. split; [| done].
    unfold block. by rewrite bool_decide_eq_false_2.
  - unfold telegram_status. simpl.
    rewrite filter_fmap_commute by (intros x; by rewrite block_user_id).
    destruct (filter _ (telegram_connections w)) as [|c l] eqn:E; [done |].
    assert (Hc : c ∈ filter (λ c, tc_user_id c = user) (telegram_connections w))
      by (rewrite E; by left).
    apply list_elem_of_filter in Hc as [Hu _]. simpl.
    unfold block. rewrite bool_decide_eq_true_2 by done. done.
  - intros Ht Hown. unfold telegram_webhook. rewrite Ht. simpl.
    rewrite TelegramExtra.oroscopo_not_active; [done |].
    intros conn rest. unfold of_chat. simpl.
    rewrite filter_fmap_commute by (intros x; by rewrite block_chat_id).
    destruct (filter _ (telegram_connections w)) as [|c l] eqn:E; [done |].
    intros [= <- _].
    assert (tc_user_id c = user) by by eapply Hown.
    unfold block. rewrite bool_decide_eq_true_2 by done. done.
Qed.

Lemma generated_token_links_witness :
  profiles Sample.batch_world !! "u1" = Some (Sample.user "Anna" None)
  ∧ urlsafe "aB3-_x" = true
  ∧ let g := generate_link_token Sample.batch_world "u1" "aB3-_x" None in
    let r := telegram_webhook g.2 5 "2024-05-01"
               (Update (Some (SampleExtra.cmd 42 "/start aB3-_x"))) in
    p_telegram_link_token <$> profiles g.2 !! "u1" = Some (Some "aB3-_x")
    ∧ p_telegram_link_token <$> profiles r.2 !! "u1" = Some None
    ∧ calls r.2 = [CallSendTelegram 42 (MsgLinked "Anna")].
Proof.
  split; [reflexivity |]. split; [reflexivity |].
  assert (Hfresh : ∀ u' p', u' ≠ "u1" →
            profiles Sample.batch_world !! u' = Some p' →
            p_telegram_link_token p' ≠ Some "aB3-_x").
  { intros u' p' Hne Hl. simpl in Hl. by rewrite lookup_insert_ne in Hl. }
  destruct (generated_token_links Sample.batch_world 5 "2024-05-01" "u1"
              (Sample.user "Anna" None) "aB3-_x" None
              (SampleExtra.cmd 42 "/start aB3-_x")
              eq_refl eq_refl ltac:(discriminate) Hfresh eq_refl)
    as (_ & Hg & _ & Hr & _ & Hcalls).
  split; [exact Hg |]. split; [exact Hr | exact Hcalls].
Defined.

Lemma regenerated_token_revokes_witness :
  profiles Sample.link_world !! "u1" = Some (Sample.user "Anna" (Some "tok123"))
  ∧ is_start_with "tok123" (Sample.start_msg 42)
  ∧ let g := generate_link_token Sample.link_world "u1" "newtok" None in
    telegram_webhook g.2 5 "2024-05-01" (Update (Some (Sample.start_msg 42)))
      = (Ok true, send_telegram_message 42 MsgInvalidCode g.2).
Proof.
  assert (Hs : is_start_with "tok123" (Sample.start_msg 42))
    by (repeat split; done).
  assert (Huniq : ∀ u' p', profiles Sample.link_world !! u' = Some p' →
            p_telegram_link_token p' = Some "tok123" → u' = "u1").
  { intros u' p' Hl _. simpl in Hl.
    destruct (decide (u' = "u1")) as [-> | Hne]; [done |].
    by rewrite lookup_insert_ne in Hl. }
  split; [reflexivity |]. split; [exact Hs |].
  exact (regenerated_token_revokes Sample.link_world 5 "2024-05-01" "u1"
           (Sample.user "Anna" (Some "tok123")) "tok123" "newtok" None
           (Sample.start_msg 42) eq_refl eq_refl Huniq ltac:(discriminate) Hs).
Defined.

Lemma disconnect_blocks_witness :
  let d := disconnect_telegram SampleExtra.chat_world "u1" in
  telegram_connections d.2
    = [SampleExtra.conn "u1" 42 "blocked"; SampleExtra.conn "u2" 43 "paused"]
  ∧ (telegram_status d.2 "u1").1 = Ok (Connected 42 "anna" "blocked" None)
  ∧ telegram_webhook d.2 5 "2024-05-01"
      (Update (Some (SampleExtra.cmd 42 "/oroscopo")))
    = (Ok true, send_telegram_message 42 MsgNonIscritto d.2).
Proof.
  destruct (disconnect_blocks SampleExtra.chat_world 5 "2024-05-01" "u1"
              (SampleExtra.cmd 42 "/oroscopo"))
    as (Hc & _ & _ & Hst & Horo).
  split; [rewrite Hc; reflexivity |]. split; [rewrite Hst; reflexivity |].
  apply Horo; [reflexivity |].
  intros conn rest [= <- _]. reflexivity.
Defined.

End TelegramAccountExtra.

Module WebhooksExtra.
Import Webhooks.

Section Stripe.

Variable settings : Settings.
Variable construct_event : string → option string → string → string + stripe_event.
Variable py_int : string → option Z.

Abbreviation stripe_webhook := (stripe_webhook settings construct_event py_int).

(** X17: a verified [checkout.session.completed] event for a minute pack
    marks the order of its metadata paid (with the payment intent, not
    consumed) and calls the credit procedure once, for the user and the
    minutes of the metadata.  The handler keeps no record of the events it
    has seen: the same event delivered again calls the credit procedure
    again. *)
Theorem stripe_pack_paid w payload sig event user minutes n order_id :
  construct_event payload sig (stripe_webhook_secret settings) = inr event →
  ev_type event = "checkout.session.completed" →
  obj_metadata (ev_object event) !! "user_id" = Some user → user ≠ "" →
  truthy (obj_metadata (ev_object event) !! "pack_id") = true →
  obj_metadata (ev_object event) !! "minutes" = Some minutes →
  py_int minutes = Some n →
  obj_metadata (ev_object event) !! "order_id" = Some order_id →
  let r1 := stripe_webhook w payload sig in
  let r2 := stripe_webhook r1.2 payload sig in
  r1.1 = Ok true
  ∧ luna_minute_packs r1.2 !! order_id
    = pay_pack (obj_payment_intent (ev_object event))
        <$> luna_minute_packs w !! order_id
  ∧ (∀ other, other ≠ order_id →
              luna_minute_packs r1.2 !! other = luna_minute_packs w !! other)
  ∧ calls r1.2 = calls w ++ [CallRpc "add_luna_minutes" user n]
  ∧ r2.1 = Ok true
  ∧ calls r2.2 = calls w ++ [CallRpc "add_luna_minutes" user n;
                             CallRpc "add_luna_minutes" user n]
  ∧ luna_minute_packs r2.2 !! order_id = luna_minute_packs r1.2 !! order_id.
Proof.
  intros Hev Hty Hu Hne Hpack Hmin Hint Hord r1 r2.
  assert (Hrun : ∀ w0, stripe_webhook w0 payload sig =
            (Ok true,
             add_luna_minutes user n
               (set_luna_minute_packs
                  (alter (pay_pack (obj_payment_intent (ev_object event)))
                     order_id) w0))).
  { intros w0. unfold Webhooks.stripe_webhook. rewrite Hev, Hty. simpl.
    rewrite Hu.
    rewrite bool_decide_eq_false_2 by done. rewrite Hpack, Hmin, Hint, Hord.
    done. }
  subst r2 r1. rewrite !Hrun. simpl.
  split; [done |]. split; [by rewrite lookup_alter_eq |].
  split; [by intros other Ho; rewrite lookup_alter_ne |].
  split; [done |]. split; [done |]. split; [by rewrite <- app_assoc |].
  rewrite !lookup_alter_eq. by destruct (luna_minute_packs w !! order_id).
Qed.

(** X18: in a pack checkout the minutes are parsed before anything is
    written: when the metadata's minutes are not a number the request ends in
    an uncaught [ValueError] and the order is not marked paid.  A checkout
    event without a user id, or with a user but neither pack nor service, is
    acknowledged and changes nothing. *)
Theorem stripe_checkout_edges w payload sig event :
  construct_event payload sig (stripe_webhook_secret settings) = inr event →
  ev_type event = "checkout.session.completed" →
  let meta := obj_metadata (ev_object event) in
  let r := stripe_webhook w payload sig in
  (meta !! "user_id" = None ∨ meta !! "user_id" = Some "" → r = (Ok true, w))
  ∧ (truthy (meta !! "user_id") = true →
     truthy (meta !! "pack_id") = false →
     truthy (meta !! "service_type") = false → r = (Ok true, w))
  ∧ (∀ minutes,
       truthy (meta !! "user_id") = true →
       truthy (meta !! "pack_id") = true →
       meta !! "minutes" = Some minutes → py_int minutes = None →
       r = (Unhandled "ValueError", w)).
Proof.
  intros Hev Hty meta r. subst r. unfold Webhooks.stripe_webhook.
  rewrite Hev, Hty. simpl. fold meta. split; [| split].
  - by intros [-> | ->].
  - unfold truthy at 1. destruct (meta !! "user_id") as [u|]; [| done].
    case_bool_decide; [done |]. by intros _ -> ->.
  - intros minutes. unfold truthy at 1.
    destruct (meta !! "user_id") as [u|]; [| done].
    case_bool_decide; [done |]. by intros _ -> -> ->.
Qed.

(** X19: a verified [checkout.session.completed] event for a single service
    marks that service order paid and pending; no minutes are credited and no
    subscription or pack order changes. *)
Theorem stripe_service_paid w payload sig event user order_id :
  construct_event payload sig (stripe_webhook_secret settings) = inr event →
  ev_type event = "checkout.session.completed" →
  obj_metadata (ev_object event) !! "user_id" = Some user → user ≠ "" →
  truthy (obj_metadata (ev_object event) !! "pack_id") = false →
  truthy (obj_metadata (ev_object event) !! "service_type") = true →
  obj_metadata (ev_object event) !! "order_id" = Some order_id →
  let r := stripe_webhook w payload sig in
  r.1 = Ok true
  ∧ services_orders r.2 !! order_id
    = pay_service <$> services_orders w !! order_id
  ∧ (∀ other, other ≠ order_id →
              services_orders r.2 !! other = services_orders w !! other)
  ∧ subscriptions r.2 = subscriptions w
  ∧ luna_minute_packs r.2 = luna_minute_packs w
  ∧ calls r.2 = calls w.
Proof.
  intros Hev Hty Hu Hne Hpack Hserv Hord r. subst r.
  unfold Webhooks.stripe_webhook. rewrite Hev, Hty. simpl. rewrite Hu.
  rewrite bool_decide_eq_false_2 by done. rewrite Hpack, Hserv, Hord. simpl.
  split; [done |]. split; [by rewrite lookup_alter_eq |].
  split; [by intros other Ho; rewrite lookup_alter_ne | done].
Qed.

(** X20: the two subscription events change the status and nothing else.
    [customer.subscription.deleted] sets every subscription with the event's
    Stripe subscription id to [cancelled], [invoice.payment_failed] sets
    every subscription of the event's Stripe customer to [paused]; all other
    subscriptions are untouched, no balance changes and no minutes are
    credited. *)
Theorem stripe_subscription_events w payload sig event :
  construct_event payload sig (stripe_webhook_secret settings) = inr event →
  let r := stripe_webhook w payload sig in
  let object := ev_object event in
  (ev_type event = "customer.subscription.deleted" →
     r.1 = Ok true ∧ calls r.2 = calls w
     ∧ ∀ u, subscriptions r.2 !! u =
          (λ s, if bool_decide (sub_stripe_subscription_id s
                                = Some (obj_id object))
                then cancel s else s) <$> subscriptions w !! u)
  ∧ (ev_type event = "invoice.payment_failed" →
     r.1 = Ok true ∧ calls r.2 = calls w
     ∧ ∀ u, subscriptions r.2 !! u =
          (λ s, if bool_decide (sub_stripe_customer_id s
                                = Some (obj_customer object))
                then pause s else s) <$> subscriptions w !! u)
  ∧ (ev_type event ≠ "checkout.session.completed" →
     ∀ u, sub_luna_minutes_balance <$> subscriptions r.2 !! u
          = sub_luna_minutes_balance <$> subscriptions w !! u).
Proof.
  intros Hev r object. subst r. unfold Webhooks.stripe_webhook.
  rewrite Hev. split; [| split].
  - intros ->. simpl. split; [done |]. split; [done |].
    intros u. by rewrite lookup_fmap.
  - intros ->. simpl. split; [done |]. split; [done |].
    intros u. by rewrite lookup_fmap.
  - intros Hne u. rewrite bool_decide_eq_false_2 by done.
    repeat case_bool_decide; simpl; try done;
      rewrite lookup_fmap; destruct (subscriptions w !! u) as [s|]; simpl;
      try done; by case_bool_decide.
Qed.

End Stripe.

Lemma stripe_pack_paid_witness :
  let ev := SampleExtra.stripe_ev "checkout.session.completed"
              (SampleExtra.pack_meta "30") in
  let hook := Webhooks.stripe_webhook Sample.settings (SampleExtra.accept ev)
                SampleExtra.thirty in
  let r1 := hook SampleExtra.shop_world "{}" None in
  let r2 := hook r1.2 "{}" None in
  mp_order_status <$> luna_minute_packs r1.2 !! "o1" = Some "paid"
  ∧ calls r1.2 = [CallRpc "add_luna_minutes" "u1" 30]
  ∧ calls r2.2 = [CallRpc "add_luna_minutes" "u1" 30;
                  CallRpc "add_luna_minutes" "u1" 30].
Proof.
  intros ev hook r1 r2.
  destruct (stripe_pack_paid Sample.settings (SampleExtra.accept ev)
              SampleExtra.thirty SampleExtra.shop_world "{}" None ev
              "u1" "30" 30 "o1" eq_refl eq_refl eq_refl ltac:(discriminate)
              eq_refl eq_refl eq_refl eq_refl)
    as (_ & Hrow & _ & Hc1 & _ & Hc2 & _).
  split; [| split; [exact Hc1 | exact Hc2]].
  subst r1 hook. rewrite Hrow. reflexivity.
Defined.

Lemma stripe_checkout_edges_witness :
  let ev := SampleExtra.stripe_ev "checkout.session.completed"
              (SampleExtra.pack_meta "trenta") in
  let ev0 := SampleExtra.stripe_ev "checkout.session.completed" ∅ in
  Webhooks.stripe_webhook Sample.settings (SampleExtra.accept ev)
    SampleExtra.thirty SampleExtra.shop_world "{}" None
    = (Unhandled "ValueError", SampleExtra.shop_world)
  ∧ Webhooks.stripe_webhook Sample.settings (SampleExtra.accept ev0)
      SampleExtra.thirty SampleExtra.shop_world "{}" None
    = (Ok true, SampleExtra.shop_world).
Proof.
  intros ev ev0.
  destruct (stripe_checkout_edges Sample.settings (SampleExtra.accept ev)
              SampleExtra.thirty SampleExtra.shop_world "{}" None ev
              eq_refl eq_refl) as (_ & _ & Hbad).
  destruct (stripe_checkout_edges Sample.settings (SampleExtra.accept ev0)
              SampleExtra.thirty SampleExtra.shop_world "{}" None ev0
              eq_refl eq_refl) as (Hnone & _ & _).
  split.
  - exact (Hbad "trenta" eq_refl eq_refl eq_refl eq_refl).
  - apply Hnone. left. reflexivity.
Defined.

Lemma stripe_service_paid_witness :
  let ev := SampleExtra.stripe_ev "checkout.session.completed"
              SampleExtra.service_meta in
  let r := Webhooks.stripe_webhook Sample.settings (SampleExtra.accept ev)
             SampleExtra.thirty SampleExtra.shop_world "{}" None in
  services_orders r.2 !! "so1"
    = Some {| so_order_status := "paid"; so_paid_at := Some "NOW()";
              so_status := "pending" |}
  ∧ calls r.2 = [] ∧ subscriptions r.2 = subscriptions SampleExtra.shop_world.
Proof.
  intros ev r.
  destruct (stripe_service_paid Sample.settings (SampleExtra.accept ev)
              SampleExtra.thirty SampleExtra.shop_world "{}" None ev
              "u1" "so1" eq_refl eq_refl eq_refl ltac:(discriminate)
              eq_refl eq_refl eq_refl)
    as (_ & Hrow & _ & Hsub & _ & Hcalls).
  split; [| split; [exact Hcalls | exact Hsub]].
  subst r. rewrite Hrow. reflexivity.
Defined.

Lemma stripe_subscription_events_witness :
  let deleted := SampleExtra.stripe_ev "customer.subscription.deleted" ∅ in
  let failed := SampleExtra.stripe_ev "invoice.payment_failed" ∅ in
  let hook ev := Webhooks.stripe_webhook Sample.settings (SampleExtra.accept ev)
                   SampleExtra.thirty SampleExtra.shop_world "{}" None in
  sub_status <$> subscriptions (hook deleted).2 !! "u1" = Some "cancelled"
  ∧ sub_status <$> subscriptions (hook failed).2 !! "u1" = Some "paused"
  ∧ sub_luna_minutes_balance <$> subscriptions (hook failed).2 !! "u1"
    = Some 15.
Proof.
  intros deleted failed hook.
  destruct (stripe_subscription_events Sample.settings
              (SampleExtra.accept deleted) SampleExtra.thirty
              SampleExtra.shop_world "{}" None deleted eq_refl)
    as (Hdel & _ & _).
  destruct (stripe_subscription_events Sample.settings
              (SampleExtra.accept failed) SampleExtra.thirty
              SampleExtra.shop_world "{}" None failed eq_refl)
    as (_ & Hfail & Hbal).
  destruct (Hdel eq_refl) as (_ & _ & Hd).
  destruct (Hfail eq_refl) as (_ & _ & Hf).
  split; [| split].
  - unfold hook. rewrite Hd. reflexivity.
  - unfold hook. rewrite Hf. reflexivity.
  - unfold hook. rewrite Hbal by discriminate. reflexivity.
Defined.

End WebhooksExtra.

Module SchedulerExtra.
Import Scheduler SchedulerFacts.

Section Job.

Variable settings : Settings.
Variable planetary_data : jval.
Variable gen : string * profile → jval → py_result.
Variables (today : string) (now : Z).

Abbreviation step := (step planetary_data gen today now).

(** The rows the loop adds. *)
Lemma run_inserts us : ∀ w t,
  NoDup us.*1 →
  ∃ new,
    daily_horoscopes (foldl step (w, t) us).1 = daily_horoscopes w ++ new
    ∧ Forall (λ h, ∃ u d, u ∈ us ∧ existing w u.1 today = []
                          ∧ gen u planetary_data = Returns (PyDict d)
                          ∧ h = new_row u.1 today now planetary_data d) new.
Proof.
  induction us as [|u us IH]; intros w t Hnd.
  { exists []. by rewrite app_nil_r. }
  rewrite fmap_cons in Hnd. apply NoDup_cons in Hnd as [Hu Hnd].
  change (foldl step (w, t) (u :: us)) with (foldl step (step (w, t) u) us).
  destruct (step (w, t) u) as [w1 t1] eqn:E.
  destruct (IH w1 t1 Hnd) as (new & Hnew & Hall).
  assert (Hall' : Forall (λ h, ∃ u0 d, u0 ∈ u :: us
                     ∧ existing w u0.1 today = []
                     ∧ gen u0 planetary_data = Returns (PyDict d)
                     ∧ h = new_row u0.1 today now planetary_data d) new).
  { eapply Forall_impl; [exact Hall |]. intros h (u0 & d & Hin & He & Hg & ->).
    exists u0, d. split; [by right |]. split; [| done].
    assert (Hne : u0.1 ≠ u.1).
    { intros Heq. apply Hu. rewrite <- Heq. by apply list_elem_of_fmap_2. }
    pose proof (step_existing_other planetary_data gen today now w t u u0.1 Hne)
      as Hsame.
    rewrite E in Hsame. simpl in Hsame. by rewrite <- Hsame. }
  destruct (step_cases planetary_data gen today now w t u)
    as [[_ Hr] | [(d & He & Hg & _ & Hr) | (msg & _ & _ & Hr)]];
    rewrite E in Hr; injection Hr as -> ->.
  - by exists new.
  - exists (new_row u.1 today now planetary_data d :: new). split.
    + rewrite Hnew. simpl. by rewrite <- app_assoc.
    + constructor; [| done]. exists u, d. split; [by left | done].
  - by exists new.
Qed.

(** The error list the loop builds. *)
Lemma run_errors us : ∀ w t,
  NoDup us.*1 →
  ∃ errs,
    errors (foldl step (w, t) us).2 = errors t ++ errs
    ∧ errs.*1 = (filter (λ u, fails gen planetary_data w today u) us).*1
    ∧ Forall (λ e, ∃ u, u ∈ us ∧ e.1 = u.1
                        ∧ (gen u planetary_data = Raises e.2
                           ∨ ∃ ty, gen u planetary_data = Returns (PyOther ty)
                                   ∧ e.2 = no_get ty)) errs.
Proof.
  induction us as [|u us IH]; intros w t Hnd.
  { exists []. by rewrite app_nil_r. }
  rewrite fmap_cons in Hnd. apply NoDup_cons in Hnd as [Hu Hnd].
  change (foldl step (w, t) (u :: us)) with (foldl step (step (w, t) u) us).
  destruct (step (w, t) u) as [w1 t1] eqn:E.
  destruct (IH w1 t1 Hnd) as (errs & Herrs & Hids & Hall).
  assert (Hsame : filter (λ u0, fails gen planetary_data w1 today u0) us
                  = filter (λ u0, fails gen planetary_data w today u0) us).
  { apply filter_ext_in. intros x Hx.
    assert (Hne : x.1 ≠ u.1).
    { intros Heq. apply Hu. rewrite <- Heq. by apply list_elem_of_fmap_2. }
    pose proof (step_existing_other planetary_data gen today now w t u x.1 Hne)
      as H.
    rewrite E in H. simpl in H. unfold fails. by rewrite H. }
  rewrite Hsame in Hids.
  assert (Hall' : Forall (λ e, ∃ u0, u0 ∈ u :: us ∧ e.1 = u0.1
                     ∧ (gen u0 planetary_data = Raises e.2
                        ∨ ∃ ty, gen u0 planetary_data = Returns (PyOther ty)
                                ∧ e.2 = no_get ty)) errs).
  { eapply Forall_impl; [exact Hall |]. intros e (u0 & Hin & Hrest).
    exists u0. split; [by right | done]. }
  unfold Scheduler.step in E.
  destruct (existing w u.1 today) as [|h l] eqn:He.
  - destruct (gen u planetary_data) as [msg | [d | ty]] eqn:Eg;
      injection E as <- <-; simpl in Herrs.
    + exists ((u.1, msg) :: errs). split; [by rewrite Herrs, <- app_assoc |].
      split.
      * rewrite filter_cons_True; [by rewrite !fmap_cons, Hids |].
        unfold fails. rewrite He, Eg. done.
      * constructor; [| done]. exists u. split; [by left |]. split; [done |].
        by left.
    + exists errs. split; [done |]. split; [| done].
      rewrite filter_cons_False; [done |].
      unfold fails. rewrite He, Eg. simpl. tauto.
    + exists ((u.1, no_get ty) :: errs).
      split; [by rewrite Herrs, <- app_assoc |]. split.
      * rewrite filter_cons_True; [by rewrite !fmap_cons, Hids |].
        unfold fails. rewrite He, Eg. done.
      * constructor; [| done]. exists u. split; [by left |]. split; [done |].
        right. by exists ty.
  - injection E as <- <-. simpl in Herrs. exists errs.
    split; [done |]. split; [| done].
    rewrite filter_cons_False; [done |].
    unfold fails. rewrite He. simpl. tauto.
Qed.

Abbreviation generate_daily_horoscopes :=
  (generate_daily_horoscopes settings planetary_data gen).

(** X21: the batch job only adds rows, and only for eligible users that had
    no horoscope for the date: every row it appends is the completed
    horoscope of an active, onboarded user with a birth date, for today,
    built from the dict the generation returned.  Rows already stored are
    kept as they are, in place. *)
Theorem generate_daily_inserts w :
  let r := generate_daily_horoscopes w now today
             (Some (app_secret_key settings)) in
  ∃ new,
    daily_horoscopes r.2 = daily_horoscopes w ++ new
    ∧ Forall (λ h, ∃ id p d,
                profiles w !! id = Some p
                ∧ p_is_active p = true ∧ p_onboarding_completed p = true
                ∧ p_birth_date p ≠ None
                ∧ existing w id today = []
                ∧ gen (id, p) planetary_data = Returns (PyDict d)
                ∧ h = new_row id today now planetary_data d
                ∧ dh_user_id h = id ∧ dh_horoscope_date h = today
                ∧ dh_status h = "completed") new.
Proof.
  intros r. subst r.
  pose proof (generate_daily_authorized settings planetary_data gen today now w)
    as E. cbv zeta in E. rewrite E. clear E.
  match goal with
  | |- context [foldl _ (?w1, _) _] =>
    destruct (run_inserts (eligible w) w1 tally0 (NoDup_eligible w))
      as (new & Hnew & Hall)
  end.
  exists new. simpl. split; [exact Hnew |].
  eapply Forall_impl; [exact Hall |].
  intros h ([id p] & d & Hin & He & Hg & ->). simpl in *.
  apply list_elem_of_filter in Hin as [(Ha & Ho & Hb) Hmap].
  apply elem_of_map_to_list in Hmap. simpl in *.
  exists id, p, d. done.
Qed.

(** X22: the error log of a run names the users it failed on, in the order
    they were processed and cut after 50; each entry carries the message of
    the exception the generation raised, or the attribute error of a reply
    that is no dict. *)
Theorem generate_daily_error_log w :
  let r := generate_daily_horoscopes w now today
             (Some (app_secret_key settings)) in
  let job_id := fresh (dom (scheduler_jobs w)) in
  ∃ job log,
    scheduler_jobs r.2 !! job_id = Some job
    ∧ sj_error_log job = Some log
    ∧ log.*1 = take 50 (filter (λ u, fails gen planetary_data w today u)
                          (eligible w)).*1
    ∧ Forall (λ e, ∃ u, u ∈ eligible w ∧ e.1 = u.1
                        ∧ (gen u planetary_data = Raises e.2
                           ∨ ∃ ty, gen u planetary_data = Returns (PyOther ty)
                                   ∧ e.2 = no_get ty)) log.
Proof.
  intros r job_id. subst r.
  pose proof (generate_daily_authorized settings planetary_data gen today now w)
    as E. cbv zeta in E. rewrite E. clear E. fold job_id.
  match goal with
  | |- context [foldl _ (?w1, _) _] =>
    destruct (run_errors (eligible w) w1 tally0 (NoDup_eligible w))
      as (errs & Herrs & Hids & Hall);
    destruct (run_frame planetary_data gen today now (eligible w) w1 tally0)
      as (_ & Hjobs & _)
  end.
  simpl in Herrs. simpl.
  eexists _, _. split.
  { rewrite lookup_alter_eq, Hjobs. simpl. rewrite lookup_insert_eq. done. }
  simpl. split; [done |]. rewrite Herrs. split.
  - rewrite fmap_take. by rewrite Hids.
  - apply Forall_take. exact Hall.
Qed.

End Job.

(** X23: the cron endpoints do nothing without the shared secret: a request
    whose [x-cron-secret] header is missing or differs from the configured
    key is refused with 401 before a job row is written or a subscription is
    swept. *)
Theorem cron_secret_required settings planetary_data gen trial_end w now today
    secret :
  secret ≠ Some (app_secret_key settings) →
  Scheduler.generate_daily_horoscopes settings planetary_data gen w now today
    secret = (HTTPException 401 "Non autorizzato", w)
  ∧ Trials.check_expired_trials settings trial_end w now secret
    = (HTTPException 401 "Non autorizzato", w).
Proof.
  intros Hne.
  unfold Scheduler.generate_daily_horoscopes, Trials.check_expired_trials,
    verify_cron_secret.
  by rewrite bool_decide_eq_false_2.
Qed.

Lemma cron_secret_required_witness :
  (None : option string) ≠ Some (app_secret_key Sample.settings)
  ∧ Scheduler.generate_daily_horoscopes Sample.settings JNull Sample.steady
      Sample.batch_world 0 "2024-05-01" None
    = (HTTPException 401 "Non autorizzato", Sample.batch_world)
  ∧ Trials.check_expired_trials Sample.settings ∅ Sample.luna_world 0
      (Some "guess")
    = (HTTPException 401 "Non autorizzato", Sample.luna_world).
Proof.
  split; [discriminate |].
  destruct (cron_secret_required Sample.settings JNull Sample.steady ∅
              Sample.batch_world 0 "2024-05-01" None ltac:(discriminate))
    as [Hgen _].
  destruct (cron_secret_required Sample.settings JNull Sample.steady ∅
              Sample.luna_world 0 "2024-05-01" (Some "guess")
              ltac:(discriminate))
    as [_ Htr].
  split; [exact Hgen | exact Htr].
Defined.

End SchedulerExtra.

Module TrialsExtra.
Import Trials.

#[local] Existing Instance trial_over_dec.

Lemma expire_expire s : expire (expire s) = expire s.
Proof. done. Qed.

(** The loop of the sweep: every listed key is expired, the counter goes up
    by the length of the list. *)
Lemma sweep_fold (l : list (string * subscription)) :
  ∀ (m : gmap string subscription) (n : Z),
  let r := foldl (λ acc sub, (alter expire sub.1 acc.1, acc.2 + 1)) (m, n) l in
  r.2 = n + Z.of_nat (length l)
  ∧ ∀ u, r.1 !! u = if decide (u ∈ l.*1) then expire <$> m !! u else m !! u.
Proof.
  induction l as [|x l IH]; intros m n; cbv zeta.
  { split; [simpl; lia |]. intros u. by simpl. }
  change (foldl _ (m, n) (x :: l))
    with (foldl (λ acc sub, (alter expire sub.1 acc.1, acc.2 + 1))
            (alter expire x.1 m, n + 1) l).
  destruct (IH (alter expire x.1 m) (n + 1)) as [Hn Hm].
  split; [rewrite Hn; simpl length; lia |].
  intros u. rewrite Hm, fmap_cons.
  destruct (decide (u = x.1)) as [-> | Hne].
  - rewrite lookup_alter_eq. rewrite (decide_True (P := x.1 ∈ x.1 :: l.*1))
      by by left.
    destruct (m !! x.1); simpl; by case_decide.
  - rewrite lookup_alter_ne by done.
    destruct (decide (u ∈ l.*1)) as [Hin | Hin].
    + rewrite decide_True by by right. done.
    + rewrite decide_False; [done |]. by intros [? | ?]%elem_of_cons.
Qed.

Lemma set_subscriptions_same w :
  set_subscriptions (λ _, subscriptions w) w = w.
Proof. by destruct w. Qed.

Section Job.

Variable settings : Settings.
Variable trial_end : gmap string Z.

Abbreviation check_expired_trials := (check_expired_trials settings trial_end).
Abbreviation trial_over := (trial_over trial_end).

(** X24: an authorized trial sweep moves exactly the subscriptions that are
    in [trial] with a trial end before now to status [expired] and plan
    [free], and counts them; trials still running, trials without an end
    date and every other subscription are left as they are, and no balance
    changes.  The sweep is idempotent: run again at the same time it finds
    nothing and changes nothing. *)
Theorem check_expired_trials_sweeps w now :
  let secret := Some (app_secret_key settings) in
  let r := check_expired_trials w now secret in
  r.1 = Ok {| tr_ok := true;
              expired_count :=
                Z.of_nat (length (filter (trial_over now)
                                    (map_to_list (subscriptions w)))) |}
  ∧ (∀ u s, subscriptions w !! u = Some s →
       subscriptions r.2 !! u =
         Some (if decide (trial_over now (u, s)) then expire s else s))
  ∧ (∀ u, subscriptions w !! u = None → subscriptions r.2 !! u = None)
  ∧ (∀ u, sub_luna_minutes_balance <$> subscriptions r.2 !! u
          = sub_luna_minutes_balance <$> subscriptions w !! u)
  ∧ check_expired_trials r.2 now secret
    = (Ok {| tr_ok := true; expired_count := 0 |}, r.2).
Proof.
  intros secret r.
  assert (Hauth : ∀ w0, check_expired_trials w0 now secret =
            let res := foldl (λ acc sub, (alter expire sub.1 acc.1, acc.2 + 1))
                         (subscriptions w0, 0)
                         (filter (trial_over now)
                            (map_to_list (subscriptions w0))) in
            (Ok {| tr_ok := true; expired_count := res.2 |},
             set_subscriptions (λ _, res.1) w0)).
  { intros w0. unfold Trials.check_expired_trials, Scheduler.verify_cron_secret.
    subst secret. rewrite bool_decide_eq_true_2 by done. simpl.
    by destruct (foldl _ _ _). }
  assert (Hlook : ∀ u, subscriptions r.2 !! u =
            match subscriptions w !! u with
            | Some s => Some (if decide (trial_over now (u, s))
                              then expire s else s)
            | None => None
            end).
  { intros u. subst r. rewrite Hauth. cbv zeta. simpl.
    destruct (sweep_fold (filter (trial_over now)
                            (map_to_list (subscriptions w)))
                (subscriptions w) 0) as [_ Hm].
    rewrite Hm. destruct (subscriptions w !! u) as [s|] eqn:Es.
    - destruct (decide (trial_over now (u, s))) as [Ht | Ht].
      + rewrite decide_True; [done |].
        apply (list_elem_of_fmap_2 fst _ (u, s)).
        apply list_elem_of_filter. split; [done |].
        by apply elem_of_map_to_list.
      + rewrite decide_False; [done |].
        intros ([u' s'] & Heq & Hin)%list_elem_of_fmap. simpl in Heq. subst u'.
        apply list_elem_of_filter in Hin as [Hover Hmap].
        apply elem_of_map_to_list in Hmap. congruence.
    - by case_decide. }
  split; [| split; [| split; [| split]]].
  - subst r. rewrite Hauth. cbv zeta. simpl.
    destruct (sweep_fold (filter (trial_over now)
                            (map_to_list (subscriptions w)))
                (subscriptions w) 0) as [Hn _].
    rewrite Hn. by rewrite Z.add_0_l.
  - intros u s Hs. by rewrite Hlook, Hs.
  - intros u Hs. by rewrite Hlook, Hs.
  - intros u. rewrite Hlook. destruct (subscriptions w !! u) as [s|]; [| done].
    simpl. by case_decide.
  - rewrite Hauth. cbv zeta.
    assert (Hnone : filter (trial_over now) (map_to_list (subscriptions r.2))
                    = []).
    { apply filter_none. intros [u s'] Hin Hover.
      apply elem_of_map_to_list in Hin. rewrite Hlook in Hin.
      destruct (subscriptions w !! u) as [s|]; [| done].
      injection Hin as <-. destruct (decide (trial_over now (u, s))) as [Ht | Ht].
      - destruct Hover as [Hst _]. simpl in Hst. discriminate.
      - apply Ht. destruct Hover as [Hst Hend]. by split. }
    rewrite Hnone. simpl. by rewrite set_subscriptions_same.
Qed.

End Job.

Lemma check_expired_trials_sweeps_witness :
  let secret := Some (app_secret_key Sample.settings) in
  let r := Trials.check_expired_trials Sample.settings SampleExtra.trial_ends
             SampleExtra.trial_world 500 secret in
  (r.1 = Ok {| tr_ok := true; expired_count := 1 |})
  ∧ sub_status <$> subscriptions r.2 !! "u1" = Some "expired"
  ∧ sub_plan <$> subscriptions r.2 !! "u1" = Some "free"
  ∧ sub_status <$> subscriptions r.2 !! "u2" = Some "trial"
  ∧ sub_status <$> subscriptions r.2 !! "u3" = Some "active"
  ∧ Trials.check_expired_trials Sample.settings SampleExtra.trial_ends r.2 500
      secret = (Ok {| tr_ok := true; expired_count := 0 |}, r.2).
Proof.
  intros secret r.
  destruct (check_expired_trials_sweeps Sample.settings SampleExtra.trial_ends
              SampleExtra.trial_world 500)
    as (Hr & Hsome & _ & _ & Hidem).
  fold secret r in Hr, Hsome, Hidem.
  split; [rewrite Hr; vm_compute; reflexivity |].
  pose proof (Hsome "u1" _ eq_refl) as H1.
  pose proof (Hsome "u2" _ eq_refl) as H2.
  pose proof (Hsome "u3" _ eq_refl) as H3.
  split; [rewrite H1; vm_compute; reflexivity |].
  split; [rewrite H1; vm_compute; reflexivity |].
  split; [rewrite H2; vm_compute; reflexivity |].
  split; [rewrite H3; vm_compute; reflexivity |].
  exact Hidem.
Defined.

End TrialsExtra.

Module ContextExtra.
Import Luna LunaFacts LunaBalance.

#[local] Existing Instance newer_dec.

#[local] Instance newer_trans : Transitive newer.
Proof. intros a b c. unfold newer. lia. Qed.

#[local] Instance newer_total : Total newer.
Proof. intros a b. unfold newer. lia. Qed.

(** X25: the session summary of the grounding context is built from at most
    three sessions, all of them sessions of the caller in state [ended],
    newest first; the one it names as the last is no older than any ended
    session the caller has. *)
Theorem prev_sessions_newest w user :
  let prev := prev_sessions w user in
  (length prev ≤ 3)%nat
  ∧ Forall (λ s, ls_user_id s = user ∧ ls_status s = "ended"
                 ∧ ∃ id, luna_sessions w !! id = Some s) prev
  ∧ StronglySorted newer prev
  ∧ (∀ id s, luna_sessions w !! id = Some s → ls_user_id s = user →
             ls_status s = "ended" →
             ∃ last rest, prev = last :: rest
                          ∧ ls_created_at s ≤ ls_created_at last).
Proof.
  intros prev. subst prev. unfold prev_sessions.
  set (mine := filter (λ s, ls_user_id s = user ∧ ls_status s = "ended")
                 (map_to_list (luna_sessions w)).*2).
  assert (Hperm : merge_sort newer mine ≡ₚ mine)
    by apply merge_sort_Permutation.
  assert (Hsorted : StronglySorted newer (merge_sort newer mine))
    by apply (StronglySorted_merge_sort newer).
  assert (Hmine : ∀ s, s ∈ mine ↔
            (ls_user_id s = user ∧ ls_status s = "ended")
            ∧ ∃ id, luna_sessions w !! id = Some s).
  { intros s. subst mine. rewrite list_elem_of_filter. split.
    - intros [Hp Hin]. split; [done |].
      apply list_elem_of_fmap in Hin as ([id s'] & -> & Hin).
      exists id. by apply elem_of_map_to_list.
    - intros [Hp [id Hid]]. split; [done |].
      apply list_elem_of_fmap. exists (id, s). split; [done |].
      by apply elem_of_map_to_list. }
  split; [rewrite length_take; lia |]. split; [| split].
  - apply Forall_take, Forall_forall. intros s Hs.
    rewrite Hperm in Hs. apply Hmine in Hs. tauto.
  - rewrite <- (take_drop 3 (merge_sort newer mine)) in Hsorted.
    by apply StronglySorted_app_1_l in Hsorted.
  - intros id s Hid Hu Hst.
    assert (Hin : s ∈ merge_sort newer mine).
    { rewrite Hperm. apply Hmine. eauto. }
    destruct (merge_sort newer mine) as [|last rest] eqn:E.
    { by apply elem_of_nil in Hin. }
    exists last, (take 2 rest). split; [done |].
    apply elem_of_cons in Hin as [-> | Hin]; [done |].
    apply StronglySorted_inv in Hsorted as [_ Hall].
    rewrite Forall_forall in Hall. exact (Hall s Hin).
Qed.

Lemma prev_sessions_newest_witness :
  luna_sessions SampleExtra.past_world !! "b" = Some (SampleExtra.ended_at 40)
  ∧ ∃ last rest, prev_sessions SampleExtra.past_world "u1" = last :: rest
                 ∧ 40 ≤ ls_created_at last
                 ∧ (length (last :: rest) ≤ 3)%nat.
Proof.
  split; [reflexivity |].
  destruct (prev_sessions_newest SampleExtra.past_world "u1")
    as (Hlen & _ & _ & Hlast).
  destruct (Hlast "b" (SampleExtra.ended_at 40) eq_refl eq_refl eq_refl)
    as (last & rest & Hprev & Hle).
  exists last, rest. rewrite Hprev in Hlen. done.
Defined.

Section Turn.

Variable messages_create :
  string → list (string * string) → option (string * Z * Z).
Variable text_to_speech : string → option Z.


End Turn.


End ContextExtra.

Module PushExtra.
Import Push.

Section Job.

Variable settings : Settings.
Variable post : Z → push_text → bool.
Variables (w : world) (now : Z) (today : string).

Abbreviation push_one := (push_one post w now today).

Abbreviation post_of := (post_of w today).

Lemma post_of_mono conns conns' x :
  (∀ c, c ∈ conns → c ∈ conns') → post_of conns x → post_of conns' x.
Proof.
  intros Hsub (conn & h & Hin & Hrest). exists conn, h. split; [auto | done].
Qed.

(** What the loop keeps true. *)
Lemma push_fold conns : ∀ g,
  let g' := foldl push_one g conns in
  ∃ new,
    pg_posted g' = pg_posted g ++ new
    ∧ Forall (post_of conns) new
    ∧ pg_sent g' = pg_sent g
        + Z.of_nat (length (filter (λ x, post x.1 x.2 = true) new))
    ∧ pg_failed g ≤ pg_failed g'
    ∧ pg_sent g' + pg_failed g'
      ≤ pg_sent g + pg_failed g + Z.of_nat (length conns)
    ∧ (∀ k, telegram_sent_at (pg_delivery g') !! k
            ≠ telegram_sent_at (pg_delivery g) !! k →
          telegram_sent_at (pg_delivery g') !! k = Some now
          ∧ ∃ x conn, x ∈ new ∧ post x.1 x.2 = true ∧ conn ∈ conns
                      ∧ x.1 = tc_chat_id conn
                      ∧ k = (tc_user_id conn, today)).
Proof.
  induction conns as [|c conns IH]; intros g; cbv zeta.
  { exists []. simpl. rewrite app_nil_r.
    repeat split; try done; try lia. }
  change (foldl push_one g (c :: conns))
    with (foldl push_one (push_one g c) conns).
  destruct (IH (push_one g c)) as (new & Hp & Hall & Hs & Hf & Hsf & Hd).
  assert (Hall' : Forall (post_of (c :: conns)) new).
  { eapply Forall_impl; [exact Hall |]. intros x.
    apply post_of_mono. intros c' Hc'. by right. }
  assert (Hd' : ∀ k, telegram_sent_at (pg_delivery (foldl push_one (push_one g c) conns)) !! k
            ≠ telegram_sent_at (pg_delivery (push_one g c)) !! k →
          telegram_sent_at (pg_delivery (foldl push_one (push_one g c) conns)) !! k
            = Some now
          ∧ ∃ x conn, x ∈ new ∧ post x.1 x.2 = true ∧ conn ∈ c :: conns
                      ∧ x.1 = tc_chat_id conn
                      ∧ k = (tc_user_id conn, today)).
  { intros k Hk. destruct (Hd k Hk) as (Hnow & x & conn & Hx & Hpost & Hc & Hrest).
    split; [done |]. exists x, conn. split; [done |]. split; [done |].
    split; [by right | done]. }
  unfold Push.push_one in *.
  destruct (ready w (tc_user_id c) today) as [|h [|h2 l]] eqn:Er.
  - exists new. split; [done |]. split; [done |]. split; [done |].
    split; [done |]. split; [simpl length; lia | exact Hd'].
  - destruct (stars_of (dh_overall_score h)) as [stars|] eqn:Es.
    + set (message := {| pt_today := today;
                         pt_name := default "" (profiles w !! tc_user_id c ≫= p_first_name);
                         pt_sign := default "" (profiles w !! tc_user_id c ≫= p_sun_sign);
                         pt_text := dh_text_content h;
                         pt_love := dh_section_love h;
                         pt_work := dh_section_work h;
                         pt_stars := stars |}) in *.
      assert (Hmsg : post_of (c :: conns) (tc_chat_id c, message)).
      { exists c, h. split; [by left |]. done. }
      destruct (post (tc_chat_id c) message) eqn:Epost; simpl in *.
      * exists ((tc_chat_id c, message) :: new).
        split; [by rewrite Hp, <- app_assoc |].
        split; [by constructor |].
        split; [rewrite filter_cons_True by done; simpl length; lia |].
        split; [lia |]. split; [lia |].
        intros k Hk.
        destruct (decide (k = (tc_user_id c, today))) as [-> | Hne].
        -- destruct (decide (telegram_sent_at
                               (pg_delivery
                                  (foldl (Push.push_one post w now today)
                                     {| pg_delivery :=
                                          {| telegram_sent_at :=
                                               <[(tc_user_id c, today):=now]>
                                                 (telegram_sent_at (pg_delivery g));
                                             last_message_at :=
                                               <[tc_user_id c:=now]>
                                                 (last_message_at (pg_delivery g)) |};
                                        pg_posted := pg_posted g ++ [(tc_chat_id c, message)];
                                        pg_sent := pg_sent g + 1;
                                        pg_failed := pg_failed g |}
                                     conns)) !! (tc_user_id c, today)
                             = Some now)) as [Heq | Hneq].
           ++ split; [done |]. exists (tc_chat_id c, message), c.
              split; [by left |]. split; [done |]. split; [by left | done].
           ++ destruct (Hd' (tc_user_id c, today)) as (Hnow & _).
              { by rewrite lookup_insert_eq. }
              done.
        -- destruct (Hd' k) as (Hnow & x & conn & Hx & Hrest).
           { by rewrite lookup_insert_ne. }
           split; [done |]. exists x, conn. split; [by right | done].
      * exists ((tc_chat_id c, message) :: new).
        split; [by rewrite Hp, <- app_assoc |].
        split; [by constructor |].
        split.
        { rewrite filter_cons_False by (simpl; by rewrite Epost). lia. }
        split; [lia |]. split; [simpl length; lia |].
        intros k Hk. destruct (Hd' k Hk) as (Hnow & x & conn & Hx & Hrest).
        split; [done |]. exists x, conn. split; [by right | done].
    + exists new. simpl in *. split; [done |]. split; [done |].
      split; [done |]. split; [lia |]. split; [simpl length; lia | exact Hd'].
  - exists new. simpl in *. split; [done |]. split; [done |].
    split; [done |]. split; [lia |]. split; [simpl length; lia | exact Hd'].
Qed.

End Job.

Section Push.

Variable settings : Settings.
Variable post : Z → push_text → bool.

Abbreviation send_telegram_push := (send_telegram_push settings post).

(** The posts of an authorized run. *)
Lemma send_telegram_push_posts w d now today :
  let r := send_telegram_push w d now today (Some (app_secret_key settings)) in
  Forall (post_of w today (active_connections w)) r.2
  ∧ r.1.1 = Ok {| pr_ok := true;
                  pr_sent := Z.of_nat (length (filter (λ x, post x.1 x.2 = true)
                                                 r.2));
                  pr_failed := match r.1.1 with
                               | Ok reply => pr_failed reply
                               | _ => 0
                               end |}
  ∧ (∀ reply, r.1.1 = Ok reply →
       0 ≤ pr_failed reply
       ∧ pr_sent reply + pr_failed reply
         ≤ Z.of_nat (length (active_connections w)))
  ∧ (∀ k, telegram_sent_at r.1.2 !! k ≠ telegram_sent_at d !! k →
       telegram_sent_at r.1.2 !! k = Some now
       ∧ ∃ x conn, x ∈ r.2 ∧ post x.1 x.2 = true
                   ∧ conn ∈ active_connections w
                   ∧ x.1 = tc_chat_id conn ∧ k = (tc_user_id conn, today)).
Proof.
  intros r. subst r. unfold Push.send_telegram_push, Scheduler.verify_cron_secret.
  rewrite bool_decide_eq_true_2 by done. simpl.
  destruct (push_fold post w now today (active_connections w)
              {| pg_delivery := d; pg_posted := []; pg_sent := 0;
                 pg_failed := 0 |})
    as (new & Hp & Hall & Hs & Hf & Hsf & Hd).
  simpl in *. rewrite Hp. split; [done |]. split; [by rewrite Hs |].
  split; [| done].
  intros reply [= <-]. simpl. lia.
Qed.


(** X28: [/stop] silences the push.  After the webhook handled [/stop] from
    a chat, an authorized push posts nothing to that chat; and after a
    disconnect of a user, it posts nothing to a chat all of whose connections
    are that user's. *)
Theorem stop_silences_push w d now today whenever m user :
  let r_stop := Telegram.telegram_webhook w whenever today
                  (Telegram.Update (Some m)) in
  let r_off := TelegramAccount.disconnect_telegram w user in
  (Telegram.strip (default "" (Telegram.text m)) = "/stop" →
   ∀ x, x ∈ (send_telegram_push r_stop.2 d now today
               (Some (app_secret_key settings))).2 →
        x.1 ≠ Telegram.chat_id m)
  ∧ (∀ chat,
       (∀ c, c ∈ telegram_connections w → tc_chat_id c = chat →
             tc_user_id c = user) →
       ∀ x, x ∈ (send_telegram_push r_off.2 d now today
                   (Some (app_secret_key settings))).2 →
            x.1 ≠ chat).
Proof.
  intros r_stop r_off. split.
  - intros Hstop x Hx.
    destruct (send_telegram_push_posts r_stop.2 d now today) as (Hall & _).
    rewrite Forall_forall in Hall.
    destruct (Hall x Hx) as (conn & h & Hin & Hchat & _).
    apply list_elem_of_filter in Hin as [Hact Hin].
    subst r_stop. unfold Telegram.telegram_webhook in Hin.
    rewrite Hstop in Hin. simpl in Hin.
    apply list_elem_of_fmap in Hin as (c0 & -> & _).
    unfold Telegram.set_status in *.
    case_bool_decide as Hc; [done |]. by rewrite Hchat.
  - intros chat Hown x Hx.
    destruct (send_telegram_push_posts r_off.2 d now today) as (Hall & _).
    rewrite Forall_forall in Hall.
    destruct (Hall x Hx) as (conn & h & Hin & Hchat & _).
    apply list_elem_of_filter in Hin as [Hact Hin].
    subst r_off. simpl in Hin.
    apply list_elem_of_fmap in Hin as (c0 & -> & Hc0).
    unfold TelegramAccount.block in *.
    case_bool_decide as Hc; [done |].
    rewrite Hchat. intros Heq. apply Hc. by apply Hown.
Qed.

End Push.


Lemma stop_silences_push_witness :
  Telegram.strip (default "" (Telegram.text (SampleExtra.cmd 42 "/stop")))
    = "/stop"
  ∧ let r_stop := Telegram.telegram_webhook SampleExtra.chat_world 5
                    "2024-05-01"
                    (Telegram.Update (Some (SampleExtra.cmd 42 "/stop"))) in
    ∀ x, x ∈ (Push.send_telegram_push Sample.settings SampleExtra.delivers
                r_stop.2 SampleExtra.no_delivery 7 "2024-05-01"
                (Some (app_secret_key Sample.settings))).2 →
         x.1 ≠ 42.
Proof.
  split; [reflexivity |].
  destruct (stop_silences_push Sample.settings SampleExtra.delivers
              SampleExtra.chat_world SampleExtra.no_delivery 7 "2024-05-01" 5
              (SampleExtra.cmd 42 "/stop") "u1") as [Hstop _].
  exact (Hstop eq_refl).
Defined.

End PushExtra.

Module CheckoutExtra.
Import PrimFloat Checkout.

(** The four packs, one by one. *)
Lemma LUNA_PACKS_cases pack_id pack :
  LUNA_PACKS !! pack_id = Some pack →
  (pack_id = "15min" ∧ pk_minutes pack = 15
   ∧ py_int_float (pk_price pack * 100)%float = Some 299)
  ∨ (pack_id = "30min" ∧ pk_minutes pack = 30
     ∧ py_int_float (pk_price pack * 100)%float = Some 499)
  ∨ (pack_id = "60min" ∧ pk_minutes pack = 60
     ∧ py_int_float (pk_price pack * 100)%float = Some 899)
  ∨ (pack_id = "monthly" ∧ pk_minutes pack = 300
     ∧ py_int_float (pk_price pack * 100)%float = Some 1998).
Proof.
  unfold LUNA_PACKS. intros H.
  destruct (decide (pack_id = "15min")) as [-> | H1].
  { left. rewrite lookup_insert_eq in H. injection H as <-.
    split; [done |]. split; [done |]. vm_compute. reflexivity. }
  rewrite lookup_insert_ne in H by done.
  destruct (decide (pack_id = "30min")) as [-> | H2].
  { right; left. rewrite lookup_insert_eq in H. injection H as <-.
    split; [done |]. split; [done |]. vm_compute. reflexivity. }
  rewrite lookup_insert_ne in H by done.
  destruct (decide (pack_id = "60min")) as [-> | H3].
  { right; right; left. rewrite lookup_insert_eq in H. injection H as <-.
    split; [done |]. split; [done |]. vm_compute. reflexivity. }
  rewrite lookup_insert_ne in H by done.
  destruct (decide (pack_id = "monthly")) as [-> | H4].
  { right; right; right. rewrite lookup_singleton_eq in H. injection H as <-.
    split; [done |]. split; [done |]. vm_compute. reflexivity. }
  by rewrite lookup_singleton_ne in H.
Qed.

Section Handler.

Variable settings : Settings.
Variable email : gmap string string.
Variable customer_create : option string → string → option string.
Variable session_create : checkout_request → option (string * string).

Abbreviation create_luna_checkout :=
  (create_luna_checkout settings email customer_create session_create).

(** The handler for a caller that already has a Stripe customer. *)
Lemma create_luna_checkout_known w cols user pack_id pack sub a c :
  LUNA_PACKS !! pack_id = Some pack →
  subscriptions w !! user = Some sub →
  sub_stripe_customer_id sub = Some (String a c) →
  ∃ unit_amount,
    py_int_float (pk_price pack * 100)%float = Some unit_amount
    ∧ let order_id := fresh (dom (luna_minute_packs w)) in
      let w2 :=
        set_luna_minute_packs
          (insert order_id
             {| mp_user_id := user; mp_pack_name := pack_id;
                mp_minutes_purchased := pk_minutes pack;
                mp_order_status := "pending";
                mp_stripe_payment_intent := None; mp_paid_at := None;
                mp_is_consumed := None |}) w in
      let cols2 :=
        {| price_eur := <[order_id := pk_price pack]> (price_eur cols);
           stripe_session_id := stripe_session_id cols |} in
      let request :=
        {| cr_customer := String a c; cr_product_name := pk_name pack;
           cr_unit_amount := unit_amount;
           cr_success_url := frontend_url settings +:+ "/luna?success=true";
           cr_cancel_url := frontend_url settings +:+ "/luna?cancelled=true";
           cr_user_id := user; cr_order_id := order_id;
           cr_pack_id := pack_id; cr_minutes := pk_minutes pack |} in
      create_luna_checkout w cols user pack_id =
        match session_create request with
        | None => (Unhandled "stripe", w2, cols2, [SessionCreate request])
        | Some (session_id, url) =>
          (Ok {| checkout_url := url |}, w2,
           {| price_eur := price_eur cols2;
              stripe_session_id :=
                <[order_id := session_id]> (stripe_session_id cols2) |},
           [SessionCreate request])
        end.
Proof.
  intros Hpack Hsub Hcust.
  assert (∃ n, py_int_float (pk_price pack * 100)%float = Some n)
    as [n Hn].
  { destruct (LUNA_PACKS_cases pack_id pack Hpack)
      as [(_ & _ & H) | [(_ & _ & H) | [(_ & _ & H) | (_ & _ & H)]]]; eauto. }
  exists n. split; [done |]. cbv zeta.
  unfold Checkout.create_luna_checkout. rewrite Hpack, Hsub. simpl.
  rewrite Hcust. rewrite Hn. simpl.
  by destruct (session_create _) as [[sid url]|].
Qed.


(** X30: the amount sent to Stripe is [int(price * 100)] on floats.  For the
    packs of 2.99, 4.99 and 8.99 EUR this is 299, 499 and 899 cents; for the
    monthly pack of 19.99 EUR the product is below 1999 and the amount is
    1998 cents. *)
Theorem create_luna_checkout_unit_amount w cols user pack_id pack sub a c
    request :
  LUNA_PACKS !! pack_id = Some pack →
  subscriptions w !! user = Some sub →
  sub_stripe_customer_id sub = Some (String a c) →
  SessionCreate request ∈ (create_luna_checkout w cols user pack_id).2 →
  (pack_id = "15min" ∧ cr_unit_amount request = 299 ∧ cr_minutes request = 15)
  ∨ (pack_id = "30min" ∧ cr_unit_amount request = 499
     ∧ cr_minutes request = 30)
  ∨ (pack_id = "60min" ∧ cr_unit_amount request = 899
     ∧ cr_minutes request = 60)
  ∨ (pack_id = "monthly" ∧ cr_unit_amount request = 1998
     ∧ cr_minutes request = 300).
Proof.
  intros Hpack Hsub Hcust Hin.
  destruct (create_luna_checkout_known w cols user pack_id pack sub a c
              Hpack Hsub Hcust) as (n & Hn & Hr).
  cbv zeta in Hr. rewrite Hr in Hin.
  assert (Hreq : cr_unit_amount request = n
                 ∧ cr_minutes request = pk_minutes pack).
  { destruct (session_create _) as [[sid url]|]; simpl in Hin;
      apply list_elem_of_singleton in Hin; injection Hin as ->; done. }
  destruct Hreq as [-> ->].
  destruct (LUNA_PACKS_cases pack_id pack Hpack)
    as [(-> & -> & H) | [(-> & -> & H) | [(-> & -> & H) | (-> & -> & H)]]];
    rewrite H in Hn; injection Hn as <-; tauto.
Qed.

End Handler.


Lemma create_luna_checkout_unit_amount_witness :
  let r := Checkout.create_luna_checkout Sample.settings ∅
             SampleExtra.no_customer SampleExtra.opens Sample.luna_world
             SampleExtra.no_columns "u1" "monthly" in
  ∃ request, r.2 = [SessionCreate request]
             ∧ cr_unit_amount request = 1998 ∧ cr_minutes request = 300.
Proof.
  intros r.
  assert (Hcalls : ∃ request, r.2 = [SessionCreate request]).
  { eexists. vm_compute. reflexivity. }
  destruct Hcalls as [request Hcalls].
  exists request. split; [exact Hcalls |].
  destruct (create_luna_checkout_unit_amount Sample.settings ∅
              SampleExtra.no_customer SampleExtra.opens Sample.luna_world
              SampleExtra.no_columns "u1" "monthly"
              {| pk_minutes := 300; pk_price := 19.99%float;
                 pk_name := "Abbonamento mensile Luna (5h)" |}
              Sample.sub15 "c"%char "us_1" request eq_refl eq_refl eq_refl)
    as [(Hid & _) | [(Hid & _) | [(Hid & _) | (_ & Hamount & Hmin)]]];
    try discriminate Hid.
  - fold r. rewrite Hcalls. by left.
  - done.
Defined.

End CheckoutExtra.
